(** * Trader: a shallow embedding of the signal-and-risk pipeline

    This development embeds the parts of the trading engine that its
    specification makes precise statements about, and settles those
    statements against the code:

    - [Risk]: the risk manager ([CRiskManager]): pre-trade gate, position
      registration and closing, over exact rationals; [Risk64]: the same
      class with every [double] a binary64 number, for the exposure books,
      whose sums depend on rounding;
    - [RSIStrategy]: the RSI kernel, the zone and signal classification,
      the rolling buffers and the [Update] step of [CRSIStrategy];
    - [SMAStrategy]: the SMA values, the signal classification and the
      [Update] step of [CSMAStrategy];
    - [MACDStrategy]: the signal-history throttle of [CMACDStrategy] (the
      RSI and SMA strategies carry their own copies of it), and [Spacing],
      what a throttle guarantees about a history;
    - [StrategyEngine]: [CStrategyEngine::ExecuteStrategy];
    - [BackTester]: the two historical-data loaders.

    Modelling conventions.

    - A C++ [double] is modelled by an exact rational ([Qc], rationals in
      lowest terms, with Leibniz equality) wherever the statements made do
      not turn on rounding: comparisons of values computed the same way on
      both sides, control flow, integer time.  Rounding, infinities and NaN
      are outside that model: where C++ would divide by zero, [Qc] answers
      zero, and no statement below rests on the value of such a division.
      Where rounding decides (the running sums of the risk manager's
      exposure books), a [double] is an IEEE 754 binary64 number
      ([Binary64], on [SpecFloat]).
    - A [std::chrono::system_clock::time_point] is an integer count of
      clock ticks since the epoch.  Every read of the clock is an explicit
      argument of the function that performs it.
    - A [std::map] is a [gmap]; a [std::deque] or [std::vector] is a list
      whose head is the front.
    - A C++ exception is a value of type [exception]; a function that can
      throw returns an [outcome] next to the state it leaves behind.
    - Mutexes, console logging and the trade metrics and counters, which no
      decision studied here reads, are not part of the model. *)

From Stdlib Require Import ZArith QArith Qcanon Lia Sorted Permutation Ascii SpecFloat.
From stdpp Require Import base numbers option list strings gmap fin_maps.

Set Default Proof Using "Type".
Open Scope Z_scope.

(** ** Numbers, time and exceptions *)

Abbreviation double := Qc (only parsing).

Definition Qc_ltb (x y : Qc) : bool := bool_decide (x < y)%Qc.
Definition Qc_leb (x y : Qc) : bool := bool_decide (x ≤ y)%Qc.
Definition Qc_eqb (x y : Qc) : bool := bool_decide (x = y).

(** Decimal literals: [dec n k] is [n / 10^k]. *)
Definition dec (n : Z) (k : nat) : Qc := Q2Qc (n # Pos.of_nat (10 ^ k)%nat).
Definition ofZ (n : Z) : Qc := Qc_of_Z n.

Module Chrono.
(** [system_clock] ticks are nanoseconds. *)
Definition time_point := Z.
Definition ticks_per_second : Z := 1000000000.
Definition ticks_per_minute : Z := 60 * ticks_per_second.
Definition ticks_per_day : Z := 86400 * ticks_per_second.

(** [duration_cast<minutes>] truncates toward zero. *)
Definition duration_cast_minutes (d : Z) : Z := Z.quot d ticks_per_minute.
(** [floor<days>] rounds toward negative infinity. *)
Definition floor_days (t : time_point) : Z := t / ticks_per_day.
Definition days_to_time_point (d : Z) : time_point := d * ticks_per_day.
End Chrono.

Inductive exception :=
| invalid_argument (what : string)
| runtime_error (what : string).

Definition what (e : exception) : string :=
  match e with invalid_argument w | runtime_error w => w end.

Inductive outcome (A : Type) :=
| Returned (a : A)
| Thrown (e : exception).
Arguments Returned {A} a.
Arguments Thrown {A} e.

(** ** Types shared by the strategies (namespace [Strategy]) *)

Module Strategy.
Inductive EOrderSide := BUY | SELL.

Inductive ESignalType :=
| SIG_BUY | SIG_SELL | SIG_HOLD | SIG_CLOSE_LONG | SIG_CLOSE_SHORT | SIG_CANCEL.

Inductive EStrategyState := INACTIVE | ACTIVE | PAUSED | ERROR | STOPPED.

Record SPosition := {
  mSymbol : string;
  mSide : EOrderSide;
  mEntryPrice : double;
  mQuantity : double;
  mEntryTime : Chrono.time_point;
  mStopLoss : double;
  mTakeProfit : double;
  mId : string;
  mStrategyName : string;
  mCurrentPrice : double;
  mUnrealizedPnL : double;
  mCommission : double
}.

Global Instance EStrategyState_eq_dec : EqDecision EStrategyState.
Proof. solve_decision. Defined.
Global Instance ESignalType_eq_dec : EqDecision ESignalType.
Proof. solve_decision. Defined.
End Strategy.


(** ** Market data (namespace [API]) *)

Module API.
Record SKline := {
  mOpenTime : Z;
  mOpen : double;
  mHigh : double;
  mLow : double;
  mClose : double;
  mVolume : double;
  mCloseTime : Z
}.

(** The ticker as the strategies read it ([mSymbol], [mPrice], [mVolume]). *)
Record STicker := {
  tk_mSymbol : string;
  tk_mPrice : double;
  tk_mVolume : double
}.
End API.

(** The signal a strategy hands to the engine.  [mStrength] is the field the
    strategies' [Update] writes and their [ValidateSignal] reads. *)
Module Signal.
Record SSignal := {
  mType : Strategy.ESignalType;
  mSymbol : string;
  mPrice : double;
  mStrength : double;
  mMessage : string;
  mTimestamp : Chrono.time_point;
  mStrategyName : string
}.
End Signal.

(** ** Containers and integer conversions *)

(** [static_cast<size_t>] of a signed integer, and the value of a [size_t]
    expression: arithmetic modulo [2^64]. *)
Definition to_size_t (z : Z) : Z := z `mod` 2 ^ 64.

Definition dsize {A} (d : list A) : Z := Z.of_nat (length d).

(** [while (d.size() > maxSize) d.pop_front();] *)
Definition trim_front {A} (maxSize : Z) (d : list A) : list A :=
  drop (Z.to_nat (dsize d - maxSize)) d.

(** [d.push_back(x)] *)
Definition push_back {A} (d : list A) (x : A) : list A := d ++ [x].

(** [d[i]] on a deque of doubles.  The source does not check the index; the
    model answers [0] outside the deque. *)
Definition at_ (d : list double) (i : Z) : double :=
  if i <? 0 then 0%Qc else default 0%Qc (d !! Z.to_nat i).

(** [for (size_t i = from; i < to; ++i)]: the indices visited, in order. *)
Definition index_range (from to : Z) : list Z := seqZ from (to - from).

Definition Qc_max (x y : Qc) : Qc := if Qc_ltb x y then y else x.
Definition Qc_min (x y : Qc) : Qc := if Qc_ltb y x then y else x.
Definition Qc_abs (x : Qc) : Qc := if Qc_ltb x 0%Qc then (- x)%Qc else x.

(** ** The RSI strategy (class [CRSIStrategy]) *)

Module RSIStrategy.
Import Strategy API.

Record SRSIParams := {
  mRSIPeriod : Z;
  mOversoldThreshold : double;
  mOverboughtThreshold : double;
  mExtremeOversold : double;
  mExtremeOverbought : double;
  mPositionSize : double;
  mStopLossPercent : double;
  mTakeProfitPercent : double;
  mMinPeriods : Z;
  mUseDivergence : bool;
  mUseMultiTimeframe : bool;
  mRSIChangeThreshold : double
}.

Definition default_params : SRSIParams :=
  {| mRSIPeriod := 14;
     mOversoldThreshold := ofZ 30;
     mOverboughtThreshold := ofZ 70;
     mExtremeOversold := ofZ 20;
     mExtremeOverbought := ofZ 80;
     mPositionSize := dec 1 1;
     mStopLossPercent := ofZ 2;
     mTakeProfitPercent := ofZ 4;
     mMinPeriods := 20;
     mUseDivergence := true;
     mUseMultiTimeframe := false;
     mRSIChangeThreshold := ofZ 5 |}.

Record SRSIValues := {
  mRSI : double;
  mPreviousRSI : double;
  mRSIChange : double;
  mAverageGain : double;
  mAverageLoss : double;
  mTimestamp : Chrono.time_point;
  mIsValid : bool;
  mPeriodCount : Z
}.

Definition default_values : SRSIValues :=
  {| mRSI := ofZ 50; mPreviousRSI := ofZ 50; mRSIChange := 0%Qc;
     mAverageGain := 0%Qc; mAverageLoss := 0%Qc; mTimestamp := 0;
     mIsValid := false; mPeriodCount := 0 |}.

Inductive ERSIZone :=
| EXTREME_OVERSOLD
| OVERSOLD
| NEUTRAL_LOW
| NEUTRAL_HIGH
| OVERBOUGHT
| EXTREME_OVERBOUGHT.

Inductive ERSISignalType :=
| NONE
| BUY_OVERSOLD
| SELL_OVERBOUGHT
| BUY_OVERSOLD_EXIT
| SELL_OVERBOUGHT_EXIT
| DIVERGENCE_BULLISH
| DIVERGENCE_BEARISH
| MOMENTUM_BULLISH
| MOMENTUM_BEARISH
| EXTREME_REVERSAL_BUY
| EXTREME_REVERSAL_SELL.

Global Instance ERSIZone_eq_dec : EqDecision ERSIZone.
Proof. solve_decision. Defined.
Global Instance ERSISignalType_eq_dec : EqDecision ERSISignalType.
Proof. solve_decision. Defined.

Record SRSISignalHistory := {
  sh_mType : ERSISignalType;
  sh_mValues : SRSIValues;
  sh_mZone : ERSIZone;
  sh_mPrice : double;
  sh_mTimestamp : Chrono.time_point;
  sh_mDescription : string;
  sh_mStrength : double
}.

Record SRSIDivergence := {
  mIsBullish : bool;
  mIsBearish : bool;
  mPriceHigh : double;
  mPriceLow : double;
  mRSIHigh : double;
  mRSILow : double;
  mPeriodsSpan : Z;
  mStrength : double;
  mDetectedAt : Chrono.time_point
}.

Definition default_divergence : SRSIDivergence :=
  {| mIsBullish := false; mIsBearish := false; mPriceHigh := 0%Qc;
     mPriceLow := 0%Qc; mRSIHigh := 0%Qc; mRSILow := 0%Qc; mPeriodsSpan := 0;
     mStrength := 0%Qc; mDetectedAt := 0 |}.

(** The strategy object.  The trade metrics and the per-signal and per-zone
    counters are bookkeeping that no decision below reads; they are not part
    of the state. *)
Record CRSIStrategy := {
  mName : string;
  mParams : SRSIParams;
  mIsInitialized : bool;
  mClosePrices : list double;
  mGains : list double;
  mLosses : list double;
  mRSIHistory : list SRSIValues;
  mSignalHistory : list SRSISignalHistory;
  mInPosition : bool;
  mCurrentPositionSide : EOrderSide;
  mCurrentPositionId : string;
  mCurrentRSIValues : SRSIValues;
  mPreviousRSIValues : SRSIValues;
  mCurrentZone : ERSIZone;
  mPreviousZone : ERSIZone;
  mDivergenceDetectionEnabled : bool;
  mMultiTimeframeEnabled : bool;
  mMinRSIChange : double;
  mDivergenceLookback : Z
}.

Definition set_buffers (s : CRSIStrategy) (prices gains losses : list double)
  : CRSIStrategy :=
  {| mName := mName s; mParams := mParams s; mIsInitialized := mIsInitialized s;
     mClosePrices := prices; mGains := gains; mLosses := losses;
     mRSIHistory := mRSIHistory s; mSignalHistory := mSignalHistory s;
     mInPosition := mInPosition s; mCurrentPositionSide := mCurrentPositionSide s;
     mCurrentPositionId := mCurrentPositionId s;
     mCurrentRSIValues := mCurrentRSIValues s;
     mPreviousRSIValues := mPreviousRSIValues s;
     mCurrentZone := mCurrentZone s; mPreviousZone := mPreviousZone s;
     mDivergenceDetectionEnabled := mDivergenceDetectionEnabled s;
     mMultiTimeframeEnabled := mMultiTimeframeEnabled s;
     mMinRSIChange := mMinRSIChange s;
     mDivergenceLookback := mDivergenceLookback s |}.

Definition set_histories (s : CRSIStrategy) (rsiHistory : list SRSIValues)
    (signalHistory : list SRSISignalHistory) : CRSIStrategy :=
  {| mName := mName s; mParams := mParams s; mIsInitialized := mIsInitialized s;
     mClosePrices := mClosePrices s; mGains := mGains s; mLosses := mLosses s;
     mRSIHistory := rsiHistory; mSignalHistory := signalHistory;
     mInPosition := mInPosition s; mCurrentPositionSide := mCurrentPositionSide s;
     mCurrentPositionId := mCurrentPositionId s;
     mCurrentRSIValues := mCurrentRSIValues s;
     mPreviousRSIValues := mPreviousRSIValues s;
     mCurrentZone := mCurrentZone s; mPreviousZone := mPreviousZone s;
     mDivergenceDetectionEnabled := mDivergenceDetectionEnabled s;
     mMultiTimeframeEnabled := mMultiTimeframeEnabled s;
     mMinRSIChange := mMinRSIChange s;
     mDivergenceLookback := mDivergenceLookback s |}.

Definition set_snapshots (s : CRSIStrategy) (current previous : SRSIValues)
    (currentZone previousZone : ERSIZone) : CRSIStrategy :=
  {| mName := mName s; mParams := mParams s; mIsInitialized := mIsInitialized s;
     mClosePrices := mClosePrices s; mGains := mGains s; mLosses := mLosses s;
     mRSIHistory := mRSIHistory s; mSignalHistory := mSignalHistory s;
     mInPosition := mInPosition s; mCurrentPositionSide := mCurrentPositionSide s;
     mCurrentPositionId := mCurrentPositionId s;
     mCurrentRSIValues := current;
     mPreviousRSIValues := previous;
     mCurrentZone := currentZone; mPreviousZone := previousZone;
     mDivergenceDetectionEnabled := mDivergenceDetectionEnabled s;
     mMultiTimeframeEnabled := mMultiTimeframeEnabled s;
     mMinRSIChange := mMinRSIChange s;
     mDivergenceLookback := mDivergenceLookback s |}.

(** [CRSIStrategy(params)] followed by [Initialize()]. *)
Definition initialized (params : SRSIParams) : CRSIStrategy :=
  {| mName := "RSI Strategy"; mParams := params; mIsInitialized := true;
     mClosePrices := []; mGains := []; mLosses := [];
     mRSIHistory := []; mSignalHistory := [];
     mInPosition := false; mCurrentPositionSide := BUY;
     mCurrentPositionId := "";
     mCurrentRSIValues := default_values;
     mPreviousRSIValues := default_values;
     mCurrentZone := NEUTRAL_LOW; mPreviousZone := NEUTRAL_LOW;
     mDivergenceDetectionEnabled := true;
     mMultiTimeframeEnabled := false;
     mMinRSIChange := ofZ 5;
     mDivergenceLookback := 20 |}.

(** *** The RSI kernel *)

Definition CalculateWildersSmoothing (values : list double) (period : Z) : double :=
  match values with
  | [] => 0%Qc
  | _ =>
      let count := Z.min period (dsize values) in
      let sum := foldl (λ sum i, (sum + at_ values i)%Qc) 0%Qc (index_range 0 count) in
      (sum / ofZ count)%Qc
  end.

(** The loop that fills [gains] and [losses] from the price changes at the
    indices [idx]. *)
Fixpoint gains_and_losses (prices : list double) (idx : list Z)
  : list double * list double :=
  match idx with
  | [] => ([], [])
  | i :: rest =>
      let change := (at_ prices i - at_ prices (i - 1))%Qc in
      let '(gains, losses) := gains_and_losses prices rest in
      ((if Qc_ltb 0%Qc change then change else 0%Qc) :: gains,
       (if Qc_ltb change 0%Qc then (- change)%Qc else 0%Qc) :: losses)
  end.

Definition CalculateRSI (prices : list double) (period : Z) : double :=
  if dsize prices <? to_size_t (period + 1) then ofZ 50
  else
    let '(gains, losses) :=
      gains_and_losses prices
        (index_range (to_size_t (dsize prices - period)) (dsize prices)) in
    let avgGain := CalculateWildersSmoothing gains period in
    let avgLoss := CalculateWildersSmoothing losses period in
    if Qc_eqb avgLoss 0%Qc then ofZ 100
    else
      let rs := (avgGain / avgLoss)%Qc in
      (ofZ 100 - ofZ 100 / (1 + rs))%Qc.

(** [CalculateRSIValues(prices, outValues)] as [Update] calls it, the only
    call there is: [CalculateRSIValues(mClosePrices, mCurrentRSIValues)].
    The reference [outValues] is bound to the member [mCurrentRSIValues]
    itself, so of the two statements
    [outValues.mRSI = CalculateRSI(prices, mParams.mRSIPeriod);]
    [outValues.mPreviousRSI = mCurrentRSIValues.mRSI;]
    the second reads the value the first has just written: [mPreviousRSI]
    receives the new RSI, and [mRSIChange], their difference, is zero. *)
Definition CalculateRSIValues (s : CRSIStrategy) (prices : list double)
    (now : Chrono.time_point) : CRSIStrategy :=
  let out := mCurrentRSIValues s in
  let period := mRSIPeriod (mParams s) in
  if dsize prices <? to_size_t (period + 1) then
    set_snapshots s
      {| mRSI := mRSI out; mPreviousRSI := mPreviousRSI out;
         mRSIChange := mRSIChange out; mAverageGain := mAverageGain out;
         mAverageLoss := mAverageLoss out; mTimestamp := mTimestamp out;
         mIsValid := false; mPeriodCount := mPeriodCount out |}
      (mPreviousRSIValues s) (mCurrentZone s) (mPreviousZone s)
  else
    let rsi := CalculateRSI prices period in
    let previousRSI := rsi in
    let '(gains, losses) :=
      gains_and_losses prices
        (index_range (to_size_t (dsize prices - period)) (dsize prices)) in
    set_snapshots s
      {| mRSI := rsi; mPreviousRSI := previousRSI;
         mRSIChange := (rsi - previousRSI)%Qc;
         mAverageGain := CalculateWildersSmoothing gains period;
         mAverageLoss := CalculateWildersSmoothing losses period;
         mTimestamp := now;
         mIsValid := true; mPeriodCount := dsize prices |}
      (mPreviousRSIValues s) (mCurrentZone s) (mPreviousZone s).

(** *** Zones and signal classification *)

Definition DetermineRSIZone (s : CRSIStrategy) (rsi : double) : ERSIZone :=
  let p := mParams s in
  if Qc_leb rsi (mExtremeOversold p) then EXTREME_OVERSOLD
  else if Qc_leb rsi (mOversoldThreshold p) then OVERSOLD
  else if Qc_ltb rsi (ofZ 50) then NEUTRAL_LOW
  else if Qc_ltb rsi (mOverboughtThreshold p) then NEUTRAL_HIGH
  else if Qc_ltb rsi (mExtremeOverbought p) then OVERBOUGHT
  else EXTREME_OVERBOUGHT.

(** [rsiHistory[i].mRSI] *)
Definition rsi_at (h : list SRSIValues) (i : Z) : double :=
  if i <? 0 then 0%Qc
  else match h !! Z.to_nat i with Some v => mRSI v | None => 0%Qc end.

(** [IsRSIReversing(periods)]; the default argument is 3. *)
Definition IsRSIReversing (s : CRSIStrategy) (periods : Z) : bool :=
  let h := mRSIHistory s in
  if dsize h <? to_size_t (periods + 1) then false
  else
    let '(wasIncreasing, wasDecreasing) :=
      foldl (λ (acc : bool * bool) i,
               (if Qc_leb (rsi_at h (i + 1)) (rsi_at h i) then false else fst acc,
                if Qc_leb (rsi_at h i) (rsi_at h (i + 1)) then false else snd acc))
            (true, true)
            (index_range (to_size_t (dsize h - periods)) (to_size_t (dsize h - 1))) in
    let currentChange := mRSIChange (mCurrentRSIValues s) in
    (wasIncreasing && Qc_ltb currentChange 0%Qc)
    || (wasDecreasing && Qc_ltb 0%Qc currentChange).

Definition DetectZoneTransition (s : CRSIStrategy) (currentZone previousZone : ERSIZone)
    (values : SRSIValues) : ERSISignalType :=
  if bool_decide (currentZone = OVERSOLD) && negb (bool_decide (previousZone = OVERSOLD))
     && negb (bool_decide (previousZone = EXTREME_OVERSOLD))
  then BUY_OVERSOLD
  else if bool_decide (currentZone = OVERBOUGHT)
          && negb (bool_decide (previousZone = OVERBOUGHT))
          && negb (bool_decide (previousZone = EXTREME_OVERBOUGHT))
  then SELL_OVERBOUGHT
  else if (bool_decide (previousZone = OVERSOLD)
           || bool_decide (previousZone = EXTREME_OVERSOLD))
          && (bool_decide (currentZone = NEUTRAL_LOW)
              || bool_decide (currentZone = NEUTRAL_HIGH))
  then BUY_OVERSOLD_EXIT
  else if (bool_decide (previousZone = OVERBOUGHT)
           || bool_decide (previousZone = EXTREME_OVERBOUGHT))
          && (bool_decide (currentZone = NEUTRAL_HIGH)
              || bool_decide (currentZone = NEUTRAL_LOW))
  then SELL_OVERBOUGHT_EXIT
  else if bool_decide (currentZone = EXTREME_OVERSOLD) && IsRSIReversing s 3
  then EXTREME_REVERSAL_BUY
  else if bool_decide (currentZone = EXTREME_OVERBOUGHT) && IsRSIReversing s 3
  then EXTREME_REVERSAL_SELL
  else NONE.

Definition DetectMomentumSignal (s : CRSIStrategy) (current previous : SRSIValues)
  : ERSISignalType :=
  if Qc_ltb (mMinRSIChange s) (mRSIChange current)
     && Qc_ltb (mRSIChange previous) (mRSIChange current)
     && Qc_ltb (ofZ 50) (mRSI current)
  then MOMENTUM_BULLISH
  else if Qc_ltb (mRSIChange current) (- mMinRSIChange s)%Qc
          && Qc_ltb (mRSIChange current) (mRSIChange previous)
          && Qc_ltb (mRSI current) (ofZ 50)
  then MOMENTUM_BEARISH
  else NONE.

Definition IsValidRSIValues (values : SRSIValues) : bool :=
  mIsValid values && Qc_leb 0%Qc (mRSI values) && Qc_leb (mRSI values) (ofZ 100).

Definition AnalyzeRSISignal (s : CRSIStrategy) (current previous : SRSIValues)
  : ERSISignalType :=
  if negb (IsValidRSIValues current) || negb (IsValidRSIValues previous) then NONE
  else
    let momentumSignal := DetectMomentumSignal s current previous in
    if negb (bool_decide (momentumSignal = NONE)) then momentumSignal
    else
      let currentZone := DetermineRSIZone s (mRSI current) in
      let previousZone := DetermineRSIZone s (mRSI previous) in
      DetectZoneTransition s currentZone previousZone current.

(** *** Divergence *)

(** The local highs and lows (3-point window) among the indices [idx]. *)
Definition local_highs (value : Z → double) (idx : list Z) : list Z :=
  List.filter (λ i, Qc_ltb (value (i - 1)) (value i) && Qc_ltb (value (i + 1)) (value i)) idx.

Definition local_lows (value : Z → double) (idx : list Z) : list Z :=
  List.filter (λ i, Qc_ltb (value i) (value (i - 1)) && Qc_ltb (value i) (value (i + 1))) idx.

(** Shared body of [FindPriceHighsAndLows] and [FindRSIHighsAndLows];
    [lookback] is a [size_t]. *)
Definition FindHighsAndLows (value : Z → double) (n lookback : Z)
  : bool * list Z * list Z :=
  if n <? to_size_t (lookback + 2) then (false, [], [])
  else
    let start := to_size_t (n - lookback) in
    let idx := index_range (to_size_t (start + 1)) (to_size_t (n - 1)) in
    let highs := local_highs value idx in
    let lows := local_lows value idx in
    (negb (bool_decide (highs = [])) && negb (bool_decide (lows = [])), highs, lows).

Definition FindPriceHighsAndLows (prices : list double) (lookback : Z)
  : bool * list Z * list Z :=
  FindHighsAndLows (at_ prices) (dsize prices) lookback.

Definition FindRSIHighsAndLows (rsiHistory : list SRSIValues) (lookback : Z)
  : bool * list Z * list Z :=
  FindHighsAndLows (rsi_at rsiHistory) (dsize rsiHistory) lookback.

Definition CalculateDivergenceStrength (divergence : SRSIDivergence) : double :=
  let strength :=
    if mIsBullish divergence
    then Qc_min 1%Qc ((ofZ 50 - mRSILow divergence) / ofZ 30)%Qc
    else if mIsBearish divergence
    then Qc_min 1%Qc ((mRSIHigh divergence - ofZ 50) / ofZ 30)%Qc
    else dec 5 1 in
  Qc_max (dec 1 1) strength.

(** [v[v.size() - 2]] and [v.back()] of a vector with at least two elements. *)
Definition last_two (v : list Z) : option (Z * Z) :=
  match reverse v with
  | last :: prev :: _ => Some (prev, last)
  | _ => None
  end.

Definition set_strength (d : SRSIDivergence) : SRSIDivergence :=
  {| mIsBullish := mIsBullish d; mIsBearish := mIsBearish d;
     mPriceHigh := mPriceHigh d; mPriceLow := mPriceLow d;
     mRSIHigh := mRSIHigh d; mRSILow := mRSILow d;
     mPeriodsSpan := mPeriodsSpan d;
     mStrength := CalculateDivergenceStrength d;
     mDetectedAt := mDetectedAt d |}.

Definition AnalyzeDivergence (prices : list double) (rsiHistory : list SRSIValues)
    (lookback : Z) (now : Chrono.time_point) : SRSIDivergence :=
  if (dsize prices <? lookback) || (dsize rsiHistory <? lookback)
  then default_divergence
  else
    let '(okPrice, priceHighs, priceLows) := FindPriceHighsAndLows prices lookback in
    if negb okPrice then default_divergence
    else
      let '(okRSI, rsiHighs, rsiLows) := FindRSIHighsAndLows rsiHistory lookback in
      if negb okRSI then default_divergence
      else
        let d0 := default_divergence in
        let d1 :=
          match last_two priceLows, last_two rsiLows with
          | Some (prevPriceLow, lastPriceLow), Some (prevRSILow, lastRSILow) =>
              if Qc_ltb (at_ prices lastPriceLow) (at_ prices prevPriceLow)
                 && Qc_ltb (rsi_at rsiHistory prevRSILow) (rsi_at rsiHistory lastRSILow)
              then set_strength
                     {| mIsBullish := true; mIsBearish := mIsBearish d0;
                        mPriceHigh := mPriceHigh d0;
                        mPriceLow := at_ prices lastPriceLow;
                        mRSIHigh := mRSIHigh d0;
                        mRSILow := rsi_at rsiHistory lastRSILow;
                        mPeriodsSpan := mPeriodsSpan d0;
                        mStrength := mStrength d0;
                        mDetectedAt := mDetectedAt d0 |}
              else d0
          | _, _ => d0
          end in
        let d2 :=
          match last_two priceHighs, last_two rsiHighs with
          | Some (prevPriceHigh, lastPriceHigh), Some (prevRSIHigh, lastRSIHigh) =>
              if Qc_ltb (at_ prices prevPriceHigh) (at_ prices lastPriceHigh)
                 && Qc_ltb (rsi_at rsiHistory lastRSIHigh) (rsi_at rsiHistory prevRSIHigh)
              then set_strength
                     {| mIsBullish := mIsBullish d1; mIsBearish := true;
                        mPriceHigh := at_ prices lastPriceHigh;
                        mPriceLow := mPriceLow d1;
                        mRSIHigh := rsi_at rsiHistory lastRSIHigh;
                        mRSILow := mRSILow d1;
                        mPeriodsSpan := mPeriodsSpan d1;
                        mStrength := mStrength d1;
                        mDetectedAt := mDetectedAt d1 |}
              else d1
          | _, _ => d1
          end in
        if mIsBullish d2 || mIsBearish d2
        then {| mIsBullish := mIsBullish d2; mIsBearish := mIsBearish d2;
                mPriceHigh := mPriceHigh d2; mPriceLow := mPriceLow d2;
                mRSIHigh := mRSIHigh d2; mRSILow := mRSILow d2;
                mPeriodsSpan := lookback;
                mStrength := mStrength d2;
                mDetectedAt := now |}
        else d2.

Definition DetectDivergence (s : CRSIStrategy) (lookbackPeriods : Z)
    (now : Chrono.time_point) : SRSIDivergence :=
  AnalyzeDivergence (mClosePrices s) (mRSIHistory s) lookbackPeriods now.

Definition GetSignalStrength (s : CRSIStrategy) (signalType : ERSISignalType)
    (values : SRSIValues) : double :=
  let p := mParams s in
  let strength :=
    match signalType with
    | BUY_OVERSOLD =>
        Qc_max 0%Qc ((mOversoldThreshold p - mRSI values) / mOversoldThreshold p)%Qc
    | SELL_OVERBOUGHT =>
        Qc_max 0%Qc ((mRSI values - mOverboughtThreshold p)
                     / (ofZ 100 - mOverboughtThreshold p))%Qc
    | EXTREME_REVERSAL_BUY | EXTREME_REVERSAL_SELL => dec 9 1
    | DIVERGENCE_BULLISH | DIVERGENCE_BEARISH => dec 8 1
    | MOMENTUM_BULLISH | MOMENTUM_BEARISH =>
        Qc_min 1%Qc (Qc_abs (mRSIChange values) / ofZ 20)%Qc
    | _ => dec 5 1
    end in
  Qc_max 0%Qc (Qc_min 1%Qc strength).

Definition SignalTypeToString (type : ERSISignalType) : string :=
  match type with
  | NONE => "None"
  | BUY_OVERSOLD => "Buy Oversold"
  | SELL_OVERBOUGHT => "Sell Overbought"
  | BUY_OVERSOLD_EXIT => "Buy Oversold Exit"
  | SELL_OVERBOUGHT_EXIT => "Sell Overbought Exit"
  | DIVERGENCE_BULLISH => "Bullish Divergence"
  | DIVERGENCE_BEARISH => "Bearish Divergence"
  | MOMENTUM_BULLISH => "Bullish Momentum"
  | MOMENTUM_BEARISH => "Bearish Momentum"
  | EXTREME_REVERSAL_BUY => "Extreme Reversal Buy"
  | EXTREME_REVERSAL_SELL => "Extreme Reversal Sell"
  end.

(** *** Rolling buffers *)

Definition UpdateGainsAndLosses (s : CRSIStrategy) (currentPrice previousPrice : double)
  : CRSIStrategy :=
  let change := (currentPrice - previousPrice)%Qc in
  let gains :=
    push_back (mGains s) (if Qc_ltb 0%Qc change then change else 0%Qc) in
  let losses :=
    push_back (mLosses s) (if Qc_ltb 0%Qc change then 0%Qc else (- change)%Qc) in
  let maxSize := to_size_t (mRSIPeriod (mParams s) * 2) in
  let pops := Z.to_nat (dsize gains - maxSize) in
  set_buffers s (mClosePrices s) (drop pops gains) (drop pops losses).

(** The body of the loop over [klines] in [UpdateClosePrices]. *)
Definition push_close (s : CRSIStrategy) (kline : SKline) : CRSIStrategy :=
  let s' :=
    match last (mClosePrices s) with
    | Some back => UpdateGainsAndLosses s (mClose kline) back
    | None => s
    end in
  set_buffers s' (push_back (mClosePrices s') (mClose kline)) (mGains s') (mLosses s').

Definition UpdateClosePrices (s : CRSIStrategy) (klines : list SKline) : CRSIStrategy :=
  let s1 := foldl push_close s klines in
  let maxSize := to_size_t (Z.max (mRSIPeriod (mParams s1) * 3) 200) in
  set_buffers s1 (trim_front maxSize (mClosePrices s1)) (mGains s1) (mLosses s1).

Definition UpdateRSIHistory (s : CRSIStrategy) : CRSIStrategy :=
  set_histories s
    (trim_front 500 (push_back (mRSIHistory s) (mCurrentRSIValues s)))
    (mSignalHistory s).

Definition AddSignalToHistory (s : CRSIStrategy) (signalType : ERSISignalType)
    (values : SRSIValues) (price : double) (description : string)
    (now : Chrono.time_point) : CRSIStrategy :=
  let signal :=
    {| sh_mType := signalType; sh_mValues := values; sh_mZone := mCurrentZone s;
       sh_mPrice := price; sh_mTimestamp := now; sh_mDescription := description;
       sh_mStrength := GetSignalStrength s signalType values |} in
  set_histories s (mRSIHistory s)
    (trim_front 100 (push_back (mSignalHistory s) signal)).

Definition HasSufficientData (s : CRSIStrategy) : bool :=
  negb (dsize (mClosePrices s) <? to_size_t (mRSIPeriod (mParams s) + 1)).

Definition ShouldGenerateSignal (s : CRSIStrategy) (signalType : ERSISignalType)
    (now : Chrono.time_point) : bool :=
  match last (mSignalHistory s) with
  | Some lastSignal =>
      let timeDiff := Chrono.duration_cast_minutes (now - sh_mTimestamp lastSignal) in
      if bool_decide (sh_mType lastSignal = signalType) && (timeDiff <? 10)
      then false else true
  | None => true
  end.

(** *** Update *)

(** The reads of the system clock one [Update] can perform, in program
    order: for the signal's timestamp, in [CalculateRSIValues], in
    [AnalyzeDivergence], in [ShouldGenerateSignal], in [AddSignalToHistory]. *)
Record UpdateClock := {
  t_signal : Chrono.time_point;
  t_values : Chrono.time_point;
  t_divergence : Chrono.time_point;
  t_check : Chrono.time_point;
  t_add : Chrono.time_point
}.

(** The signal type [Update] settles on before the throttle: the value of
    [signalType] when control reaches the test of [ShouldGenerateSignal]. *)
Definition ClassifySignal (s : CRSIStrategy) (now : Chrono.time_point) : ERSISignalType :=
  let signalType := AnalyzeRSISignal s (mCurrentRSIValues s) (mPreviousRSIValues s) in
  let signalType :=
    if bool_decide (signalType = NONE)
    then DetectZoneTransition s (mCurrentZone s) (mPreviousZone s) (mCurrentRSIValues s)
    else signalType in
  if bool_decide (signalType = NONE) && mDivergenceDetectionEnabled s then
    let divergence := DetectDivergence s (to_size_t (mDivergenceLookback s)) now in
    if mIsBullish divergence then DIVERGENCE_BULLISH
    else if mIsBearish divergence then DIVERGENCE_BEARISH
    else signalType
  else signalType.

Definition to_general (signalType : ERSISignalType) : ESignalType :=
  match signalType with
  | BUY_OVERSOLD | BUY_OVERSOLD_EXIT | DIVERGENCE_BULLISH | MOMENTUM_BULLISH
  | EXTREME_REVERSAL_BUY => SIG_BUY
  | SELL_OVERBOUGHT | SELL_OVERBOUGHT_EXIT | DIVERGENCE_BEARISH | MOMENTUM_BEARISH
  | EXTREME_REVERSAL_SELL => SIG_SELL
  | NONE => SIG_HOLD
  end.

Definition hold (s : CRSIStrategy) (ticker : STicker) (clk : UpdateClock)
    (message : string) : Signal.SSignal :=
  {| Signal.mType := SIG_HOLD; Signal.mSymbol := tk_mSymbol ticker;
     Signal.mPrice := 0%Qc; Signal.mStrength := 0%Qc; Signal.mMessage := message;
     Signal.mTimestamp := t_signal clk; Signal.mStrategyName := mName s |}.

Definition Update (s : CRSIStrategy) (klines : list SKline) (ticker : STicker)
    (clk : UpdateClock) : Signal.SSignal * CRSIStrategy :=
  if negb (mIsInitialized s) || bool_decide (klines = [])
  then (hold s ticker clk "Strategy not initialized or no data", s)
  else
    let s := UpdateClosePrices s klines in
    if negb (HasSufficientData s)
    then (hold s ticker clk "Insufficient data for RSI calculation", s)
    else
      let s := set_snapshots s (mCurrentRSIValues s) (mCurrentRSIValues s)
                 (mCurrentZone s) (mCurrentZone s) in
      let s := CalculateRSIValues s (mClosePrices s) (t_values clk) in
      if negb (IsValidRSIValues (mCurrentRSIValues s))
      then (hold s ticker clk "Invalid RSI values calculated", s)
      else
        let s := set_snapshots s (mCurrentRSIValues s) (mPreviousRSIValues s)
                   (DetermineRSIZone s (mRSI (mCurrentRSIValues s))) (mPreviousZone s) in
        let s := UpdateRSIHistory s in
        let signalType := ClassifySignal s (t_divergence clk) in
        if negb (bool_decide (signalType = NONE))
           && ShouldGenerateSignal s signalType (t_check clk)
        then
          let message := SignalTypeToString signalType in
          let signal :=
            {| Signal.mType := to_general signalType;
               Signal.mSymbol := tk_mSymbol ticker;
               Signal.mPrice := tk_mPrice ticker;
               Signal.mStrength := GetSignalStrength s signalType (mCurrentRSIValues s);
               Signal.mMessage := message;
               Signal.mTimestamp := t_signal clk;
               Signal.mStrategyName := mName s |} in
          (signal,
           AddSignalToHistory s signalType (mCurrentRSIValues s) (tk_mPrice ticker)
             message (t_add clk))
        else (hold s ticker clk "", s).

(** The part of [Update] that runs before the signals are analysed: the
    state it leaves, or the message of the HOLD it returns early. *)
Definition Prepare (s : CRSIStrategy) (klines : list SKline) (clk : UpdateClock)
  : string * CRSIStrategy + CRSIStrategy :=
  if negb (mIsInitialized s) || bool_decide (klines = [])
  then inl ("Strategy not initialized or no data", s)
  else
    let s := UpdateClosePrices s klines in
    if negb (HasSufficientData s)
    then inl ("Insufficient data for RSI calculation", s)
    else
      let s := set_snapshots s (mCurrentRSIValues s) (mCurrentRSIValues s)
                 (mCurrentZone s) (mCurrentZone s) in
      let s := CalculateRSIValues s (mClosePrices s) (t_values clk) in
      if negb (IsValidRSIValues (mCurrentRSIValues s))
      then inl ("Invalid RSI values calculated", s)
      else
        let s := set_snapshots s (mCurrentRSIValues s) (mPreviousRSIValues s)
                   (DetermineRSIZone s (mRSI (mCurrentRSIValues s))) (mPreviousZone s) in
        inr (UpdateRSIHistory s).

(** The part of [Update] that runs once [signalType] is settled: the
    throttle, the signal returned and the entry added to the history. *)
Definition Emit (s : CRSIStrategy) (signalType : ERSISignalType) (ticker : STicker)
    (clk : UpdateClock) : Signal.SSignal * CRSIStrategy :=
  if negb (bool_decide (signalType = NONE))
     && ShouldGenerateSignal s signalType (t_check clk)
  then
    let message := SignalTypeToString signalType in
    let signal :=
      {| Signal.mType := to_general signalType;
         Signal.mSymbol := tk_mSymbol ticker;
         Signal.mPrice := tk_mPrice ticker;
         Signal.mStrength := GetSignalStrength s signalType (mCurrentRSIValues s);
         Signal.mMessage := message;
         Signal.mTimestamp := t_signal clk;
         Signal.mStrategyName := mName s |} in
    (signal,
     AddSignalToHistory s signalType (mCurrentRSIValues s) (tk_mPrice ticker)
       message (t_add clk))
  else (hold s ticker clk "", s).

(** A run of [Update] calls. *)
Definition run (s : CRSIStrategy)
    (calls : list (list SKline * STicker * UpdateClock)) : CRSIStrategy :=
  foldl (λ s c, snd (Update s c.1.1 c.1.2 c.2)) s calls.

(** The bounds on the three rolling buffers. *)
Definition within_bounds (s : CRSIStrategy) : Prop :=
  dsize (mRSIHistory s) ≤ 500 ∧
  dsize (mSignalHistory s) ≤ 100 ∧
  dsize (mClosePrices s) ≤ Z.max (mRSIPeriod (mParams s) * 3) 200.

(** The price changes the index loop of the kernel reads at the indices
    [idx]. *)
Definition changes_at (prices : list double) (idx : list Z) : list double :=
  (λ i, (at_ prices i - at_ prices (i - 1))%Qc) <$> idx.

(** What the specification says the kernel computes, in its own words: on
    the last [p+1] closes, the [p] consecutive changes; gains [max(Δ,0)] and
    losses [max(−Δ,0)]; their simple averages; 100 when the average loss is
    zero, [100 − 100/(1 + avg_gain/avg_loss)] otherwise; 50 on fewer than
    [p+1] closes. *)
Definition sum_list (l : list double) : double := foldr Qcplus 0%Qc l.

Definition consecutive_changes (closes : list double) : list double :=
  zip_with (λ a b, (b - a)%Qc) closes (tail closes).

Definition last_n (n : nat) (x : list double) : list double :=
  drop (length x - n) x.

Definition rsi_spec (x : list double) (p : nat) : double :=
  if (length x <? p + 1)%nat then ofZ 50
  else
    let deltas := consecutive_changes (last_n (p + 1) x) in
    let gains := (λ d, Qc_max d 0%Qc) <$> deltas in
    let losses := (λ d, Qc_max (- d)%Qc 0%Qc) <$> deltas in
    let avg_gain := (sum_list gains / ofZ (Z.of_nat p))%Qc in
    let avg_loss := (sum_list losses / ofZ (Z.of_nat p))%Qc in
    if bool_decide (avg_loss = 0%Qc) then ofZ 100
    else (ofZ 100 - ofZ 100 / (1 + avg_gain / avg_loss))%Qc.

(** *** The classification rules, one at a time

    Each rule yields the signal it stands for, or [NONE] when it does not
    match; [first_match] tries rules in the order of the list. *)

Definition zone_entry_rule (currentZone previousZone : ERSIZone) : ERSISignalType :=
  if bool_decide (currentZone = OVERSOLD
                  ∧ previousZone ≠ OVERSOLD ∧ previousZone ≠ EXTREME_OVERSOLD)
  then BUY_OVERSOLD
  else if bool_decide (currentZone = OVERBOUGHT
                       ∧ previousZone ≠ OVERBOUGHT ∧ previousZone ≠ EXTREME_OVERBOUGHT)
  then SELL_OVERBOUGHT
  else NONE.

Definition zone_exit_rule (currentZone previousZone : ERSIZone) : ERSISignalType :=
  if bool_decide ((previousZone = OVERSOLD ∨ previousZone = EXTREME_OVERSOLD)
                  ∧ (currentZone = NEUTRAL_LOW ∨ currentZone = NEUTRAL_HIGH))
  then BUY_OVERSOLD_EXIT
  else if bool_decide ((previousZone = OVERBOUGHT ∨ previousZone = EXTREME_OVERBOUGHT)
                       ∧ (currentZone = NEUTRAL_HIGH ∨ currentZone = NEUTRAL_LOW))
  then SELL_OVERBOUGHT_EXIT
  else NONE.

Definition extreme_reversal_rule (s : CRSIStrategy) (currentZone : ERSIZone)
  : ERSISignalType :=
  if bool_decide (currentZone = EXTREME_OVERSOLD) && IsRSIReversing s 3
  then EXTREME_REVERSAL_BUY
  else if bool_decide (currentZone = EXTREME_OVERBOUGHT) && IsRSIReversing s 3
  then EXTREME_REVERSAL_SELL
  else NONE.

(** The momentum test as the code performs it: on the change recorded in
    the two snapshots ([mRSIChange]), and only when both are valid. *)
Definition recorded_momentum_rule (s : CRSIStrategy) : ERSISignalType :=
  if IsValidRSIValues (mCurrentRSIValues s) && IsValidRSIValues (mPreviousRSIValues s)
  then DetectMomentumSignal s (mCurrentRSIValues s) (mPreviousRSIValues s)
  else NONE.

Definition divergence_rule (s : CRSIStrategy) (now : Chrono.time_point) : ERSISignalType :=
  if mDivergenceDetectionEnabled s then
    let divergence := DetectDivergence s (to_size_t (mDivergenceLookback s)) now in
    if mIsBullish divergence then DIVERGENCE_BULLISH
    else if mIsBearish divergence then DIVERGENCE_BEARISH
    else NONE
  else NONE.

Fixpoint first_match (rules : list ERSISignalType) : ERSISignalType :=
  match rules with
  | [] => NONE
  | rule :: rest => if bool_decide (rule = NONE) then first_match rest else rule
  end.

(** The order in which the code tries the rules: the momentum test (on the
    recorded change) first, then the zone rules, then divergence. *)
Definition classify_momentum_first (s : CRSIStrategy) (now : Chrono.time_point)
  : ERSISignalType :=
  first_match
    [ recorded_momentum_rule s;
      zone_entry_rule (mCurrentZone s) (mPreviousZone s);
      zone_exit_rule (mCurrentZone s) (mPreviousZone s);
      extreme_reversal_rule s (mCurrentZone s);
      divergence_rule s now ].

(** *** The classification as the specification words it

    The definitions of this part follow the specification, not the code.
    Its ΔRSI is the change of the RSI from one update to the next; the RSI
    of the earlier updates is read from the history of indicator values,
    to which [Update] appends the current values before it classifies. *)







(** The stored zones are those of the stored RSI values (whenever both
    snapshots are valid): what [Update] establishes before it classifies. *)
Definition zones_coherent (s : CRSIStrategy) : Prop :=
  IsValidRSIValues (mCurrentRSIValues s) = true →
  IsValidRSIValues (mPreviousRSIValues s) = true →
  mCurrentZone s = DetermineRSIZone s (mRSI (mCurrentRSIValues s)) ∧
  mPreviousZone s = DetermineRSIZone s (mRSI (mPreviousRSIValues s)).


(** Two states whose snapshots carry a recorded change, as a direct caller
    of [AnalyzeRSISignal] can present them, and in which a zone-entry into
    OVERSOLD and the momentum condition hold together.  In the first
    (default parameters) the RSI has dropped from 40 to 28, faster than
    before; in the second (oversold threshold configured at 60) it has come
    down to 55 from 65 while the recorded change is a rise of 6. *)
Definition values_of (rsi change : double) : SRSIValues :=
  {| mRSI := rsi; mPreviousRSI := (rsi - change)%Qc; mRSIChange := change;
     mAverageGain := 0%Qc; mAverageLoss := 0%Qc; mTimestamp := 0;
     mIsValid := true; mPeriodCount := 15 |}.

Definition entry_with_bearish_momentum : CRSIStrategy :=
  set_snapshots (initialized default_params)
    (values_of (ofZ 28) (ofZ (-12))) (values_of (ofZ 40) (ofZ (-1)))
    OVERSOLD NEUTRAL_LOW.

Definition params_oversold_60 : SRSIParams :=
  {| mRSIPeriod := 14;
     mOversoldThreshold := ofZ 60;
     mOverboughtThreshold := ofZ 70;
     mExtremeOversold := ofZ 20;
     mExtremeOverbought := ofZ 80;
     mPositionSize := dec 1 1;
     mStopLossPercent := ofZ 2;
     mTakeProfitPercent := ofZ 4;
     mMinPeriods := 20;
     mUseDivergence := true;
     mUseMultiTimeframe := false;
     mRSIChangeThreshold := ofZ 5 |}.

Definition entry_with_bullish_momentum : CRSIStrategy :=
  set_snapshots (initialized params_oversold_60)
    (values_of (ofZ 55) (ofZ 6)) (values_of (ofZ 65) 0%Qc)
    OVERSOLD NEUTRAL_HIGH.

(** A short session on a strategy with period 2: three [Update] calls one
    minute apart, the first with three candles.  The RSI goes 28, 32.1,
    28.8: into the oversold zone, out of it, and into it again. *)
Definition scenario_params : SRSIParams :=
  {| mRSIPeriod := 2;
     mOversoldThreshold := ofZ 30;
     mOverboughtThreshold := ofZ 70;
     mExtremeOversold := ofZ 20;
     mExtremeOverbought := ofZ 80;
     mPositionSize := dec 1 1;
     mStopLossPercent := ofZ 2;
     mTakeProfitPercent := ofZ 4;
     mMinPeriods := 20;
     mUseDivergence := true;
     mUseMultiTimeframe := false;
     mRSIChangeThreshold := ofZ 5 |}.

Definition candle (minute close : Z) : SKline :=
  {| mOpenTime := minute * 60000; mOpen := ofZ close; mHigh := ofZ close;
     mLow := ofZ close; mClose := ofZ close; mVolume := 1%Qc;
     mCloseTime := minute * 60000 + 59999 |}.

Definition scenario_ticker : STicker :=
  {| tk_mSymbol := "BTCUSDT"; tk_mPrice := ofZ 100; tk_mVolume := 1%Qc |}.

Definition clock_at (t : Chrono.time_point) : UpdateClock :=
  {| t_signal := t; t_values := t; t_divergence := t; t_check := t; t_add := t |}.

Definition scenario_calls : list (list SKline * STicker * UpdateClock) :=
  [ ([candle 0 1000; candle 1 1028; candle 2 956], scenario_ticker, clock_at 0);
    ([candle 3 990], scenario_ticker, clock_at Chrono.ticks_per_minute);
    ([candle 4 906], scenario_ticker, clock_at (2 * Chrono.ticks_per_minute)) ].

(** A session in which the RSI falls sharply into the oversold zone: after
    the closes 100, 104, 94 and then 100 (RSI 37.5), the close 85 brings
    the RSI down to about 28.6. *)
Definition sharp_fall_calls : list (list SKline * STicker * UpdateClock) :=
  [ ([candle 0 100; candle 1 104; candle 2 94], scenario_ticker, clock_at 0);
    ([candle 3 100], scenario_ticker, clock_at Chrono.ticks_per_minute) ].

Definition sharp_fall_clock : UpdateClock := clock_at (2 * Chrono.ticks_per_minute).

(** The state in which the third [Update] of that session classifies. *)
Definition sharp_fall_state : CRSIStrategy :=
  match Prepare (run (initialized scenario_params) sharp_fall_calls)
          [candle 4 85] sharp_fall_clock with
  | inl (_, s) | inr s => s
  end.





(** *** Signal validation *)

Definition IsSignalFilterPassed (s : CRSIStrategy) (signalType : ERSISignalType)
    (values : SRSIValues) : bool :=
  if Qc_ltb (Qc_abs (mRSIChange values)) (mMinRSIChange s / ofZ 2)%Qc
  then false else true.

Definition ValidateSignal (s : CRSIStrategy) (signal : Signal.SSignal) : bool :=
  if negb (bool_decide (Signal.mStrategyName signal = mName s)) then false
  else if bool_decide (Signal.mType signal = SIG_HOLD) then true
  else if Qc_ltb (Signal.mStrength signal) (dec 3 1) then false
  else if negb (IsSignalFilterPassed s NONE (mCurrentRSIValues s)) then false
  else true.
(** *** Names of the signal kinds and zones *)

Definition ZoneToString (zone : ERSIZone) : string :=
  match zone with
  | EXTREME_OVERSOLD => "Extreme Oversold"
  | OVERSOLD => "Oversold"
  | NEUTRAL_LOW => "Neutral Low"
  | NEUTRAL_HIGH => "Neutral High"
  | OVERBOUGHT => "Overbought"
  | EXTREME_OVERBOUGHT => "Extreme Overbought"
  end.

Definition StringToSignalType (typeStr : string) : ERSISignalType :=
  if bool_decide (typeStr = "Buy Oversold") then BUY_OVERSOLD
  else if bool_decide (typeStr = "Sell Overbought") then SELL_OVERBOUGHT
  else if bool_decide (typeStr = "Buy Oversold Exit") then BUY_OVERSOLD_EXIT
  else if bool_decide (typeStr = "Sell Overbought Exit") then SELL_OVERBOUGHT_EXIT
  else if bool_decide (typeStr = "Bullish Divergence") then DIVERGENCE_BULLISH
  else if bool_decide (typeStr = "Bearish Divergence") then DIVERGENCE_BEARISH
  else if bool_decide (typeStr = "Bullish Momentum") then MOMENTUM_BULLISH
  else if bool_decide (typeStr = "Bearish Momentum") then MOMENTUM_BEARISH
  else if bool_decide (typeStr = "Extreme Reversal Buy") then EXTREME_REVERSAL_BUY
  else if bool_decide (typeStr = "Extreme Reversal Sell") then EXTREME_REVERSAL_SELL
  else NONE.

Definition StringToZone (zoneStr : string) : ERSIZone :=
  if bool_decide (zoneStr = "Extreme Oversold") then EXTREME_OVERSOLD
  else if bool_decide (zoneStr = "Oversold") then OVERSOLD
  else if bool_decide (zoneStr = "Neutral Low") then NEUTRAL_LOW
  else if bool_decide (zoneStr = "Neutral High") then NEUTRAL_HIGH
  else if bool_decide (zoneStr = "Overbought") then OVERBOUGHT
  else if bool_decide (zoneStr = "Extreme Overbought") then EXTREME_OVERBOUGHT
  else NEUTRAL_LOW.
End RSIStrategy.

(** ** The SMA strategy (class [CSMAStrategy])

    [Update] is followed as the code of one thread, with the mutexes left
    out.  (With them, [UpdateSupportResistanceLevels], which [Update]
    reaches through [UpdateTrendAnalysis] while it holds [mDataMutex], calls
    [GetDynamicSupport] and [GetDynamicResistance], which lock [mDataMutex]
    again.) *)

Module SMAStrategy.
Import Strategy API.

Record SSMAParams := {
  mFastPeriod : Z;
  mSlowPeriod : Z;
  mLongPeriod : Z;
  mPositionSize : double;
  mStopLossPercent : double;
  mTakeProfitPercent : double;
  mMinPeriods : Z;
  mUseTripleMA : bool;
  mUseSlopeFilter : bool;
  p_mMinSlope : double;
  mUseVolumeFilter : bool;
  p_mVolumeThreshold : double
}.

Record SSMAValues := {
  mFastSMA : double;
  mSlowSMA : double;
  mLongSMA : double;
  mFastSlope : double;
  mSlowSlope : double;
  mLongSlope : double;
  mSpread : double;
  mSpreadPercent : double;
  mTimestamp : Chrono.time_point;
  mIsValid : bool;
  mPeriodCount : Z
}.

Definition default_values : SSMAValues :=
  {| mFastSMA := 0%Qc; mSlowSMA := 0%Qc; mLongSMA := 0%Qc; mFastSlope := 0%Qc;
     mSlowSlope := 0%Qc; mLongSlope := 0%Qc; mSpread := 0%Qc;
     mSpreadPercent := 0%Qc; mTimestamp := 0; mIsValid := false;
     mPeriodCount := 0 |}.

Inductive ESMAConfiguration := DUAL_MA | TRIPLE_MA | SINGLE_MA_PRICE.

Inductive ESMASignalType :=
| NONE
| GOLDEN_CROSS
| DEATH_CROSS
| PRICE_ABOVE_MA
| PRICE_BELOW_MA
| TREND_ACCELERATION
| TREND_DECELERATION
| PULLBACK_BUY
| PULLBACK_SELL
| TRIPLE_ALIGNMENT_BULL
| TRIPLE_ALIGNMENT_BEAR
| CONVERGENCE
| DIVERGENCE.

Inductive ESMATrend :=
| STRONG_UPTREND
| WEAK_UPTREND
| SIDEWAYS
| WEAK_DOWNTREND
| STRONG_DOWNTREND.

Global Instance ESMAConfiguration_eq_dec : EqDecision ESMAConfiguration.
Proof. solve_decision. Defined.
Global Instance ESMASignalType_eq_dec : EqDecision ESMASignalType.
Proof. solve_decision. Defined.
Global Instance ESMATrend_eq_dec : EqDecision ESMATrend.
Proof. solve_decision. Defined.

Record SSMASignalHistory := {
  sh_mType : ESMASignalType;
  sh_mValues : SSMAValues;
  sh_mTrend : ESMATrend;
  sh_mPrice : double;
  sh_mVolume : double;
  sh_mTimestamp : Chrono.time_point;
  sh_mDescription : string;
  sh_mStrength : double
}.

Record SSMATrendAnalysis := {
  mCurrentTrend : ESMATrend;
  mPreviousTrend : ESMATrend;
  mTrendStrength : double;
  mTrendDuration : double;
  mIsTrendChanging : bool;
  mSupportLevel : double;
  mResistanceLevel : double;
  mTrendStartTime : Chrono.time_point
}.

Definition default_trend_analysis : SSMATrendAnalysis :=
  {| mCurrentTrend := SIDEWAYS; mPreviousTrend := SIDEWAYS; mTrendStrength := 0%Qc;
     mTrendDuration := 0%Qc; mIsTrendChanging := false; mSupportLevel := 0%Qc;
     mResistanceLevel := 0%Qc; mTrendStartTime := 0 |}.

(** The strategy object, without the trade metrics and counters, which no
    decision below reads.  Locks are not modelled. *)
Record CSMAStrategy := {
  mName : string;
  mParams : SSMAParams;
  mConfiguration : ESMAConfiguration;
  mIsInitialized : bool;
  mClosePrices : list double;
  mVolumes : list double;
  mSMAHistory : list SSMAValues;
  mSignalHistory : list SSMASignalHistory;
  mInPosition : bool;
  mCurrentPositionSide : EOrderSide;
  mCurrentPositionId : string;
  mCurrentSMAValues : SSMAValues;
  mPreviousSMAValues : SSMAValues;
  mTrendAnalysis : SSMATrendAnalysis;
  mSlopeFilterEnabled : bool;
  mMinSlope : double;
  mVolumeFilterEnabled : bool;
  mVolumeThreshold : double;
  mTripleModeEnabled : bool
}.

Definition set_buffers (s : CSMAStrategy) (prices volumes : list double) : CSMAStrategy :=
  {| mName := mName s; mParams := mParams s; mConfiguration := mConfiguration s;
     mIsInitialized := mIsInitialized s;
     mClosePrices := prices; mVolumes := volumes;
     mSMAHistory := mSMAHistory s; mSignalHistory := mSignalHistory s;
     mInPosition := mInPosition s; mCurrentPositionSide := mCurrentPositionSide s;
     mCurrentPositionId := mCurrentPositionId s;
     mCurrentSMAValues := mCurrentSMAValues s;
     mPreviousSMAValues := mPreviousSMAValues s;
     mTrendAnalysis := mTrendAnalysis s;
     mSlopeFilterEnabled := mSlopeFilterEnabled s; mMinSlope := mMinSlope s;
     mVolumeFilterEnabled := mVolumeFilterEnabled s;
     mVolumeThreshold := mVolumeThreshold s;
     mTripleModeEnabled := mTripleModeEnabled s |}.

Definition set_histories (s : CSMAStrategy) (smaHistory : list SSMAValues)
    (signalHistory : list SSMASignalHistory) : CSMAStrategy :=
  {| mName := mName s; mParams := mParams s; mConfiguration := mConfiguration s;
     mIsInitialized := mIsInitialized s;
     mClosePrices := mClosePrices s; mVolumes := mVolumes s;
     mSMAHistory := smaHistory; mSignalHistory := signalHistory;
     mInPosition := mInPosition s; mCurrentPositionSide := mCurrentPositionSide s;
     mCurrentPositionId := mCurrentPositionId s;
     mCurrentSMAValues := mCurrentSMAValues s;
     mPreviousSMAValues := mPreviousSMAValues s;
     mTrendAnalysis := mTrendAnalysis s;
     mSlopeFilterEnabled := mSlopeFilterEnabled s; mMinSlope := mMinSlope s;
     mVolumeFilterEnabled := mVolumeFilterEnabled s;
     mVolumeThreshold := mVolumeThreshold s;
     mTripleModeEnabled := mTripleModeEnabled s |}.

Definition set_snapshots (s : CSMAStrategy) (current previous : SSMAValues)
    (trend : SSMATrendAnalysis) : CSMAStrategy :=
  {| mName := mName s; mParams := mParams s; mConfiguration := mConfiguration s;
     mIsInitialized := mIsInitialized s;
     mClosePrices := mClosePrices s; mVolumes := mVolumes s;
     mSMAHistory := mSMAHistory s; mSignalHistory := mSignalHistory s;
     mInPosition := mInPosition s; mCurrentPositionSide := mCurrentPositionSide s;
     mCurrentPositionId := mCurrentPositionId s;
     mCurrentSMAValues := current;
     mPreviousSMAValues := previous;
     mTrendAnalysis := trend;
     mSlopeFilterEnabled := mSlopeFilterEnabled s; mMinSlope := mMinSlope s;
     mVolumeFilterEnabled := mVolumeFilterEnabled s;
     mVolumeThreshold := mVolumeThreshold s;
     mTripleModeEnabled := mTripleModeEnabled s |}.

(** [CSMAStrategy(params)] followed by [Initialize()]. *)
Definition initialized (params : SSMAParams) : CSMAStrategy :=
  {| mName := "SMA Strategy"; mParams := params;
     mConfiguration := if mUseTripleMA params then TRIPLE_MA else DUAL_MA;
     mIsInitialized := true;
     mClosePrices := []; mVolumes := [];
     mSMAHistory := []; mSignalHistory := [];
     mInPosition := false; mCurrentPositionSide := BUY;
     mCurrentPositionId := "";
     mCurrentSMAValues := default_values;
     mPreviousSMAValues := default_values;
     mTrendAnalysis := default_trend_analysis;
     mSlopeFilterEnabled := true; mMinSlope := dec 1 3;
     mVolumeFilterEnabled := false; mVolumeThreshold := dec 15 1;
     mTripleModeEnabled := false |}.

(** *** Kernels *)

Definition CalculateSMA (prices : list double) (period : Z) : double :=
  if dsize prices <? to_size_t period then 0%Qc
  else
    let sum :=
      foldl (λ sum i, (sum + at_ prices (to_size_t (dsize prices - 1 - i)))%Qc)
            0%Qc (index_range 0 period) in
    (sum / ofZ period)%Qc.

(** [CalculateSlope(values, period)]; the default period is 3. *)
Definition CalculateSlope (values : list double) (period : Z) : double :=
  if dsize values <? to_size_t period then 0%Qc
  else
    let n := ofZ period in
    let '(sum_x, sum_y, sum_xy, sum_x2) :=
      foldl (λ (acc : double * double * double * double) i,
               let '(sum_x, sum_y, sum_xy, sum_x2) := acc in
               let x := ofZ i in
               let y := at_ values (to_size_t (dsize values - period + i)) in
               ((sum_x + x)%Qc, (sum_y + y)%Qc, (sum_xy + x * y)%Qc,
                (sum_x2 + x * x)%Qc))
            (0%Qc, 0%Qc, 0%Qc, 0%Qc) (index_range 0 period) in
    ((n * sum_xy - sum_x * sum_y) / (n * sum_x2 - sum_x * sum_x))%Qc.

Definition CalculateSpread (fastSMA slowSMA : double) : double := (fastSMA - slowSMA)%Qc.

(** [smaHistory[i].field] *)
Definition history_at (h : list SSMAValues) (field : SSMAValues → double) (i : Z) : double :=
  if i <? 0 then 0%Qc
  else match h !! Z.to_nat i with Some v => field v | None => 0%Qc end.

(** [CalculateSMAValues(prices, outValues)] as [Update] calls it, with
    [outValues] bound to the member [mCurrentSMAValues]: a field that is
    not assigned keeps the value of the previous snapshot. *)
Definition CalculateSMAValues (s : CSMAStrategy) (prices : list double)
    (now : Chrono.time_point) : CSMAStrategy :=
  let out := mCurrentSMAValues s in
  let p := mParams s in
  let triple := bool_decide (mConfiguration s = TRIPLE_MA) in
  if dsize prices <? to_size_t (mSlowPeriod p) then
    set_snapshots s
      {| mFastSMA := mFastSMA out; mSlowSMA := mSlowSMA out; mLongSMA := mLongSMA out;
         mFastSlope := mFastSlope out; mSlowSlope := mSlowSlope out;
         mLongSlope := mLongSlope out; mSpread := mSpread out;
         mSpreadPercent := mSpreadPercent out; mTimestamp := mTimestamp out;
         mIsValid := false; mPeriodCount := mPeriodCount out |}
      (mPreviousSMAValues s) (mTrendAnalysis s)
  else
    let fastSMA := CalculateSMA prices (mFastPeriod p) in
    let slowSMA := CalculateSMA prices (mSlowPeriod p) in
    let longSMA :=
      if triple && negb (dsize prices <? to_size_t (mLongPeriod p))
      then CalculateSMA prices (mLongPeriod p)
      else mLongSMA out in
    let h := mSMAHistory s in
    let '(fastSlope, slowSlope, longSlope) :=
      if negb (dsize h <? 3) then
        let idx := index_range (Z.max 0 (to_size_t (dsize h - 3))) (dsize h) in
        let fastSMAValues := push_back (history_at h mFastSMA <$> idx) fastSMA in
        let slowSMAValues := push_back (history_at h mSlowSMA <$> idx) slowSMA in
        let longSMAValues :=
          if triple then push_back (history_at h mLongSMA <$> idx) longSMA else [] in
        (CalculateSlope fastSMAValues 3, CalculateSlope slowSMAValues 3,
         if triple then CalculateSlope longSMAValues 3 else mLongSlope out)
      else (mFastSlope out, mSlowSlope out, mLongSlope out) in
    let spread := CalculateSpread fastSMA slowSMA in
    let spreadPercent :=
      if negb (Qc_eqb slowSMA 0%Qc) then (spread / slowSMA * ofZ 100)%Qc
      else mSpreadPercent out in
    set_snapshots s
      {| mFastSMA := fastSMA; mSlowSMA := slowSMA; mLongSMA := longSMA;
         mFastSlope := fastSlope; mSlowSlope := slowSlope; mLongSlope := longSlope;
         mSpread := spread; mSpreadPercent := spreadPercent; mTimestamp := now;
         mIsValid := true; mPeriodCount := dsize prices |}
      (mPreviousSMAValues s) (mTrendAnalysis s).

Definition IsValidSMAValues (s : CSMAStrategy) (values : SSMAValues) : bool :=
  mIsValid values
  && Qc_ltb 0%Qc (mFastSMA values)
  && Qc_ltb 0%Qc (mSlowSMA values)
  && (negb (mUseTripleMA (mParams s)) || Qc_ltb 0%Qc (mLongSMA values)).

(** *** Trend analysis *)

Definition DetermineTrend (s : CSMAStrategy) (values : SSMAValues) : ESMATrend :=
  if negb (IsValidSMAValues s values) then SIDEWAYS
  else
    let spreadPercent := Qc_abs (mSpreadPercent values) in
    let fastAboveSlow := Qc_ltb (mSlowSMA values) (mFastSMA values) in
    let weakThreshold := dec 5 1 in
    let strongThreshold := 1%Qc in
    if fastAboveSlow then
      if Qc_ltb strongThreshold spreadPercent && Qc_ltb (mMinSlope s) (mFastSlope values)
      then STRONG_UPTREND
      else if Qc_ltb weakThreshold spreadPercent then WEAK_UPTREND
      else SIDEWAYS
    else
      if Qc_ltb strongThreshold spreadPercent
         && Qc_ltb (mFastSlope values) (- mMinSlope s)%Qc
      then STRONG_DOWNTREND
      else if Qc_ltb weakThreshold spreadPercent then WEAK_DOWNTREND
      else SIDEWAYS.

Definition CalculateTrendStrength (s : CSMAStrategy) (values : SSMAValues) : double :=
  if negb (IsValidSMAValues s values) then 0%Qc
  else
    let spreadStrength := Qc_min 1%Qc (Qc_abs (mSpreadPercent values) / ofZ 2)%Qc in
    let slopeStrength := Qc_min 1%Qc (Qc_abs (mFastSlope values) * ofZ 200)%Qc in
    ((spreadStrength + slopeStrength) / ofZ 2)%Qc.

Definition IsTrendChanging (s : CSMAStrategy) (newTrend : ESMATrend) : bool :=
  negb (bool_decide (newTrend = mCurrentTrend (mTrendAnalysis s))).

Definition GetDynamicSupport (s : CSMAStrategy) : double :=
  let values := mCurrentSMAValues s in
  let trend := mCurrentTrend (mTrendAnalysis s) in
  if bool_decide (trend = STRONG_UPTREND) || bool_decide (trend = WEAK_UPTREND) then
    if bool_decide (mConfiguration s = TRIPLE_MA)
    then Qc_min (Qc_min (mFastSMA values) (mSlowSMA values)) (mLongSMA values)
    else Qc_min (mFastSMA values) (mSlowSMA values)
  else mSlowSMA values.

Definition GetDynamicResistance (s : CSMAStrategy) : double :=
  let values := mCurrentSMAValues s in
  let trend := mCurrentTrend (mTrendAnalysis s) in
  if bool_decide (trend = STRONG_DOWNTREND) || bool_decide (trend = WEAK_DOWNTREND) then
    if bool_decide (mConfiguration s = TRIPLE_MA)
    then Qc_max (Qc_max (mFastSMA values) (mSlowSMA values)) (mLongSMA values)
    else Qc_max (mFastSMA values) (mSlowSMA values)
  else mSlowSMA values.

Definition set_trend (s : CSMAStrategy) (trend : SSMATrendAnalysis) : CSMAStrategy :=
  set_snapshots s (mCurrentSMAValues s) (mPreviousSMAValues s) trend.

(** [nowStart] is the clock read taken when the trend changes, [now] the one
    taken for the trend duration. *)
Definition UpdateTrendAnalysis (s : CSMAStrategy) (nowStart now : Chrono.time_point)
  : CSMAStrategy :=
  let newTrend := DetermineTrend s (mCurrentSMAValues s) in
  let t := mTrendAnalysis s in
  let t1 :=
    if negb (bool_decide (newTrend = mCurrentTrend t)) then
      if IsTrendChanging s newTrend then
        {| mCurrentTrend := newTrend; mPreviousTrend := mCurrentTrend t;
           mTrendStrength := mTrendStrength t; mTrendDuration := mTrendDuration t;
           mIsTrendChanging := true; mSupportLevel := mSupportLevel t;
           mResistanceLevel := mResistanceLevel t; mTrendStartTime := nowStart |}
      else t
    else
      {| mCurrentTrend := mCurrentTrend t; mPreviousTrend := mPreviousTrend t;
         mTrendStrength := mTrendStrength t; mTrendDuration := mTrendDuration t;
         mIsTrendChanging := false; mSupportLevel := mSupportLevel t;
         mResistanceLevel := mResistanceLevel t;
         mTrendStartTime := mTrendStartTime t |} in
  let t2 :=
    {| mCurrentTrend := mCurrentTrend t1; mPreviousTrend := mPreviousTrend t1;
       mTrendStrength := CalculateTrendStrength s (mCurrentSMAValues s);
       mTrendDuration := ofZ (Chrono.duration_cast_minutes (now - mTrendStartTime t1));
       mIsTrendChanging := mIsTrendChanging t1; mSupportLevel := mSupportLevel t1;
       mResistanceLevel := mResistanceLevel t1;
       mTrendStartTime := mTrendStartTime t1 |} in
  let s2 := set_trend s t2 in
  let t3 :=
    {| mCurrentTrend := mCurrentTrend t2; mPreviousTrend := mPreviousTrend t2;
       mTrendStrength := mTrendStrength t2; mTrendDuration := mTrendDuration t2;
       mIsTrendChanging := mIsTrendChanging t2;
       mSupportLevel := GetDynamicSupport s2;
       mResistanceLevel := mResistanceLevel t2;
       mTrendStartTime := mTrendStartTime t2 |} in
  let s3 := set_trend s2 t3 in
  set_trend s3
    {| mCurrentTrend := mCurrentTrend t3; mPreviousTrend := mPreviousTrend t3;
       mTrendStrength := mTrendStrength t3; mTrendDuration := mTrendDuration t3;
       mIsTrendChanging := mIsTrendChanging t3;
       mSupportLevel := mSupportLevel t3;
       mResistanceLevel := GetDynamicResistance s3;
       mTrendStartTime := mTrendStartTime t3 |}.

(** *** Signal classification *)

Definition IsGoldenCross (current previous : SSMAValues) : bool :=
  Qc_leb (mFastSMA previous) (mSlowSMA previous)
  && Qc_ltb (mSlowSMA current) (mFastSMA current).

Definition IsDeathCross (current previous : SSMAValues) : bool :=
  Qc_leb (mSlowSMA previous) (mFastSMA previous)
  && Qc_ltb (mFastSMA current) (mSlowSMA current).

(** Reads the member [mCurrentSMAValues], not an argument. *)
Definition IsTripleAlignment (s : CSMAStrategy) (bullish : bool) : bool :=
  if negb (bool_decide (mConfiguration s = TRIPLE_MA)) then false
  else
    let values := mCurrentSMAValues s in
    if bullish
    then Qc_ltb (mSlowSMA values) (mFastSMA values)
         && Qc_ltb (mLongSMA values) (mSlowSMA values)
    else Qc_ltb (mFastSMA values) (mSlowSMA values)
         && Qc_ltb (mSlowSMA values) (mLongSMA values).

Definition IsPullbackOpportunity (s : CSMAStrategy) (bullish : bool) : bool :=
  let values := mCurrentSMAValues s in
  let near :=
    match last (mClosePrices s) with
    | Some back =>
        Qc_ltb (Qc_abs (back - mFastSMA values) / mFastSMA values)%Qc (dec 5 3)
    | None => false
    end in
  if bullish
  then Qc_ltb (mSlowSMA values) (mFastSMA values)
       && bool_decide (mCurrentTrend (mTrendAnalysis s) = STRONG_UPTREND)
       && near
  else Qc_ltb (mFastSMA values) (mSlowSMA values)
       && bool_decide (mCurrentTrend (mTrendAnalysis s) = STRONG_DOWNTREND)
       && near.

Definition DetectCrossover (current previous : SSMAValues) : ESMASignalType :=
  if IsGoldenCross current previous then GOLDEN_CROSS
  else if IsDeathCross current previous then DEATH_CROSS
  else NONE.

Definition DetectTrendSignals (s : CSMAStrategy) (current previous : SSMAValues)
  : ESMASignalType :=
  if Qc_ltb (mFastSlope previous) (mFastSlope current)
     && Qc_ltb (mMinSlope s * ofZ 2)%Qc (mFastSlope current)
  then TREND_ACCELERATION
  else if Qc_ltb (mFastSlope current) (mFastSlope previous)
          && Qc_ltb (Qc_abs (mFastSlope current)) (mMinSlope s)
  then TREND_DECELERATION
  else if IsPullbackOpportunity s true then PULLBACK_BUY
  else if IsPullbackOpportunity s false then PULLBACK_SELL
  else NONE.

Definition DetectTripleMASignals (s : CSMAStrategy) (current previous : SSMAValues)
  : ESMASignalType :=
  if negb (bool_decide (mConfiguration s = TRIPLE_MA)) then NONE
  else if IsTripleAlignment s true && negb (IsTripleAlignment s true)
  then TRIPLE_ALIGNMENT_BULL
  else if IsTripleAlignment s false && negb (IsTripleAlignment s false)
  then TRIPLE_ALIGNMENT_BEAR
  else NONE.

Definition AnalyzeSMASignal (s : CSMAStrategy) (current previous : SSMAValues)
  : ESMASignalType :=
  if negb (IsValidSMAValues s current) || negb (IsValidSMAValues s previous) then NONE
  else
    let crossSignal := DetectCrossover current previous in
    if negb (bool_decide (crossSignal = NONE)) then crossSignal
    else
      let trendSignal := DetectTrendSignals s current previous in
      if negb (bool_decide (trendSignal = NONE)) then trendSignal
      else if bool_decide (mConfiguration s = TRIPLE_MA) then
        let tripleSignal := DetectTripleMASignals s current previous in
        if negb (bool_decide (tripleSignal = NONE)) then tripleSignal else NONE
      else NONE.

Definition GetSignalStrength (s : CSMAStrategy) (signalType : ESMASignalType)
    (values : SSMAValues) : double :=
  let strength :=
    match signalType with
    | GOLDEN_CROSS | DEATH_CROSS =>
        Qc_min 1%Qc (Qc_abs (mSpreadPercent values) * ofZ 2
                     + Qc_abs (mFastSlope values) * ofZ 100)%Qc
    | TRIPLE_ALIGNMENT_BULL | TRIPLE_ALIGNMENT_BEAR =>
        if bool_decide (mConfiguration s = TRIPLE_MA)
        then (dec 8 1 + Qc_min (dec 2 1) (Qc_abs (mFastSlope values) * ofZ 50))%Qc
        else dec 5 1
    | TREND_ACCELERATION | TREND_DECELERATION =>
        Qc_min 1%Qc
          (Qc_abs (mFastSlope values - mFastSlope (mPreviousSMAValues s)) * ofZ 1000)%Qc
    | _ => dec 5 1
    end in
  Qc_max 0%Qc (Qc_min 1%Qc strength).

Definition SignalTypeToString (type : ESMASignalType) : string :=
  match type with
  | NONE => "None"
  | GOLDEN_CROSS => "Golden Cross"
  | DEATH_CROSS => "Death Cross"
  | PRICE_ABOVE_MA => "Price Above MA"
  | PRICE_BELOW_MA => "Price Below MA"
  | TREND_ACCELERATION => "Trend Acceleration"
  | TREND_DECELERATION => "Trend Deceleration"
  | PULLBACK_BUY => "Pullback Buy"
  | PULLBACK_SELL => "Pullback Sell"
  | TRIPLE_ALIGNMENT_BULL => "Triple Alignment Bull"
  | TRIPLE_ALIGNMENT_BEAR => "Triple Alignment Bear"
  | CONVERGENCE => "Convergence"
  | DIVERGENCE => "Divergence"
  end.

(** *** Rolling buffers, throttle and Update *)

Definition UpdateClosePrices (s : CSMAStrategy) (klines : list SKline) : CSMAStrategy :=
  let prices := foldl (λ d kline, push_back d (mClose kline)) (mClosePrices s) klines in
  let maxSize := to_size_t (Z.max (mLongPeriod (mParams s) * 2) 200) in
  set_buffers s (trim_front maxSize prices) (mVolumes s).

Definition UpdateVolumes (s : CSMAStrategy) (klines : list SKline) : CSMAStrategy :=
  let volumes := foldl (λ d kline, push_back d (mVolume kline)) (mVolumes s) klines in
  set_buffers s (mClosePrices s) (trim_front 200 volumes).

Definition UpdateSMAHistory (s : CSMAStrategy) : CSMAStrategy :=
  set_histories s
    (trim_front 500 (push_back (mSMAHistory s) (mCurrentSMAValues s)))
    (mSignalHistory s).

Definition AddSignalToHistory (s : CSMAStrategy) (signalType : ESMASignalType)
    (values : SSMAValues) (price volume : double) (description : string)
    (now : Chrono.time_point) : CSMAStrategy :=
  let signal :=
    {| sh_mType := signalType; sh_mValues := values;
       sh_mTrend := mCurrentTrend (mTrendAnalysis s);
       sh_mPrice := price; sh_mVolume := volume; sh_mTimestamp := now;
       sh_mDescription := description;
       sh_mStrength := GetSignalStrength s signalType values |} in
  set_histories s (mSMAHistory s)
    (trim_front 100 (push_back (mSignalHistory s) signal)).

Definition HasSufficientData (s : CSMAStrategy) : bool :=
  let p := mParams s in
  let requiredSize :=
    Z.max (Z.max (to_size_t (mFastPeriod p)) (to_size_t (mSlowPeriod p)))
          (to_size_t (mLongPeriod p)) in
  negb (dsize (mClosePrices s) <? requiredSize).

Definition ShouldGenerateSignal (s : CSMAStrategy) (signalType : ESMASignalType)
    (now : Chrono.time_point) : bool :=
  match last (mSignalHistory s) with
  | Some lastSignal =>
      let timeDiff := Chrono.duration_cast_minutes (now - sh_mTimestamp lastSignal) in
      if bool_decide (sh_mType lastSignal = signalType) && (timeDiff <? 15)
      then false else true
  | None => true
  end.

(** The reads of the system clock one [Update] can perform, in program
    order. *)
Record UpdateClock := {
  t_signal : Chrono.time_point;
  t_values : Chrono.time_point;
  t_trend_start : Chrono.time_point;
  t_trend : Chrono.time_point;
  t_check : Chrono.time_point;
  t_add : Chrono.time_point
}.

Definition to_general (signalType : ESMASignalType) : ESignalType :=
  match signalType with
  | GOLDEN_CROSS | PRICE_ABOVE_MA | TREND_ACCELERATION | PULLBACK_BUY
  | TRIPLE_ALIGNMENT_BULL => SIG_BUY
  | DEATH_CROSS | PRICE_BELOW_MA | TREND_DECELERATION | PULLBACK_SELL
  | TRIPLE_ALIGNMENT_BEAR => SIG_SELL
  | _ => SIG_HOLD
  end.

Definition hold (s : CSMAStrategy) (ticker : STicker) (clk : UpdateClock)
    (message : string) : Signal.SSignal :=
  {| Signal.mType := SIG_HOLD; Signal.mSymbol := tk_mSymbol ticker;
     Signal.mPrice := 0%Qc; Signal.mStrength := 0%Qc; Signal.mMessage := message;
     Signal.mTimestamp := t_signal clk; Signal.mStrategyName := mName s |}.

(** The part of [Update] that runs before the signals are analysed: the
    state it leaves, or the message of the HOLD it returns early. *)
Definition Prepare (s : CSMAStrategy) (klines : list SKline) (clk : UpdateClock)
  : string * CSMAStrategy + CSMAStrategy :=
  if negb (mIsInitialized s) || bool_decide (klines = [])
  then inl ("Strategy not initialized or no data", s)
  else
    let s := UpdateClosePrices s klines in
    let s := UpdateVolumes s klines in
    if negb (HasSufficientData s)
    then inl ("Insufficient data for SMA calculation", s)
    else
      let s := set_snapshots s (mCurrentSMAValues s) (mCurrentSMAValues s)
                 (mTrendAnalysis s) in
      let s := CalculateSMAValues s (mClosePrices s) (t_values clk) in
      if negb (IsValidSMAValues s (mCurrentSMAValues s))
      then inl ("Invalid SMA values calculated", s)
      else
        let s := UpdateSMAHistory s in
        inr (UpdateTrendAnalysis s (t_trend_start clk) (t_trend clk)).

Definition Update (s : CSMAStrategy) (klines : list SKline) (ticker : STicker)
    (clk : UpdateClock) : Signal.SSignal * CSMAStrategy :=
  match Prepare s klines clk with
  | inl (message, s) => (hold s ticker clk message, s)
  | inr s =>
      let signalType :=
        AnalyzeSMASignal s (mCurrentSMAValues s) (mPreviousSMAValues s) in
      if negb (bool_decide (signalType = NONE))
         && ShouldGenerateSignal s signalType (t_check clk)
      then
        let message := SignalTypeToString signalType in
        let signal :=
          {| Signal.mType := to_general signalType;
             Signal.mSymbol := tk_mSymbol ticker;
             Signal.mPrice := tk_mPrice ticker;
             Signal.mStrength := GetSignalStrength s signalType (mCurrentSMAValues s);
             Signal.mMessage := message;
             Signal.mTimestamp := t_signal clk;
             Signal.mStrategyName := mName s |} in
        (signal,
         AddSignalToHistory s signalType (mCurrentSMAValues s) (tk_mPrice ticker)
           (tk_mVolume ticker) message (t_add clk))
      else (hold s ticker clk "", s)
  end.

Definition run (s : CSMAStrategy)
    (calls : list (list SKline * STicker * UpdateClock)) : CSMAStrategy :=
  foldl (λ s c, snd (Update s c.1.1 c.1.2 c.2)) s calls.

(** A triple-MA session (periods 2, 3 and 4): a first [Update] with the
    closes 20, 8, 10, 12, then one with the close 20. *)
Definition triple_params : SSMAParams :=
  {| mFastPeriod := 2; mSlowPeriod := 3; mLongPeriod := 4;
     mPositionSize := dec 1 1; mStopLossPercent := ofZ 2;
     mTakeProfitPercent := ofZ 4; mMinPeriods := 25; mUseTripleMA := true;
     mUseSlopeFilter := true; p_mMinSlope := dec 1 3; mUseVolumeFilter := false;
     p_mVolumeThreshold := dec 15 1 |}.

Definition candle (minute close : Z) : SKline :=
  {| mOpenTime := minute * 60000; mOpen := ofZ close; mHigh := ofZ close;
     mLow := ofZ close; mClose := ofZ close; mVolume := 1%Qc;
     mCloseTime := minute * 60000 + 59999 |}.

Definition triple_ticker : STicker :=
  {| tk_mSymbol := "BTCUSDT"; tk_mPrice := ofZ 20; tk_mVolume := 1%Qc |}.

Definition clock_at (t : Chrono.time_point) : UpdateClock :=
  {| t_signal := t; t_values := t; t_trend_start := t; t_trend := t;
     t_check := t; t_add := t |}.

Definition triple_before : CSMAStrategy :=
  snd (Update (initialized triple_params)
         [candle 0 20; candle 1 8; candle 2 10; candle 3 12] triple_ticker (clock_at 0)).

Definition triple_update : Signal.SSignal * CSMAStrategy :=
  Update triple_before [candle 4 20] triple_ticker (clock_at Chrono.ticks_per_minute).

(** [fast > slow > long] on a snapshot. *)
Definition aligned_bull (values : SSMAValues) : bool :=
  Qc_ltb (mSlowSMA values) (mFastSMA values) && Qc_ltb (mLongSMA values) (mSlowSMA values).

(** The state in which the second [Update] of the session analyses its
    signals. *)
Definition triple_at_classification : CSMAStrategy :=
  match Prepare triple_before [candle 4 20] (clock_at Chrono.ticks_per_minute) with
  | inl (_, s) | inr s => s
  end.
End SMAStrategy.
(** ** The MACD strategy's signal throttle (class [CMACDStrategy])

    [CMACDStrategy::Update] is embedded from the point where [signalType]
    has been settled: the test of [ShouldGenerateSignal] and the call of
    [AddSignalToHistory].  What the signal carries besides its type and
    timestamp (the MACD values, the trend, the strength) is stored as the
    code stores it and is not looked at again; the types of these values
    are parameters. *)

Module MACDStrategy.
Inductive EMACDSignalType :=
| NONE
| BULLISH_CROSSOVER
| BEARISH_CROSSOVER
| ZERO_LINE_CROSS_UP
| ZERO_LINE_CROSS_DOWN
| HISTOGRAM_TURN_POSITIVE
| HISTOGRAM_TURN_NEGATIVE
| HISTOGRAM_ACCELERATING_UP
| HISTOGRAM_ACCELERATING_DOWN
| MOMENTUM_ACCELERATION_UP
| MOMENTUM_ACCELERATION_DOWN
| TREND_CONFIRMATION_BULLISH
| TREND_CONFIRMATION_BEARISH
| DIVERGENCE_BULLISH
| DIVERGENCE_BEARISH.

Global Instance EMACDSignalType_eq_dec : EqDecision EMACDSignalType.
Proof. solve_decision. Defined.

Section Throttle.
Context {SMACDValues EMACDTrend : Type}.
Variable GetSignalStrength : EMACDSignalType → SMACDValues → double.

Record SMACDSignalHistory := {
  mType : EMACDSignalType;
  mValues : SMACDValues;
  mTrend : EMACDTrend;
  mPrice : double;
  mTimestamp : Chrono.time_point;
  mDescription : string;
  mStrength : double
}.

Definition AddSignalToHistory (mSignalHistory : list SMACDSignalHistory)
    (mCurrentTrend : EMACDTrend) (signalType : EMACDSignalType)
    (values : SMACDValues) (price : double) (description : string)
    (now : Chrono.time_point) : list SMACDSignalHistory :=
  let signal :=
    {| mType := signalType; mValues := values; mTrend := mCurrentTrend;
       mPrice := price; mTimestamp := now; mDescription := description;
       mStrength := GetSignalStrength signalType values |} in
  trim_front 100 (push_back mSignalHistory signal).

Definition ShouldGenerateSignal (mSignalHistory : list SMACDSignalHistory)
    (signalType : EMACDSignalType) (now : Chrono.time_point) : bool :=
  match last mSignalHistory with
  | Some lastSignal =>
      let timeDiff := Chrono.duration_cast_minutes (now - mTimestamp lastSignal) in
      if bool_decide (mType lastSignal = signalType) && (timeDiff <? 5)
      then false else true
  | None => true
  end.

(** One pass through the end of [Update]: the classified signal type, what
    is stored with it, and the two clock reads. *)
Record Emission := {
  e_signalType : EMACDSignalType;
  e_values : SMACDValues;
  e_trend : EMACDTrend;
  e_price : double;
  e_description : string;
  e_check : Chrono.time_point;
  e_add : Chrono.time_point
}.

Definition Emit (mSignalHistory : list SMACDSignalHistory) (e : Emission)
  : list SMACDSignalHistory :=
  if negb (bool_decide (e_signalType e = NONE))
     && ShouldGenerateSignal mSignalHistory (e_signalType e) (e_check e)
  then AddSignalToHistory mSignalHistory (e_trend e) (e_signalType e) (e_values e)
         (e_price e) (e_description e) (e_add e)
  else mSignalHistory.

Definition run (emissions : list Emission) : list SMACDSignalHistory :=
  foldl Emit [] emissions.
End Throttle.
End MACDStrategy.

(** ** Spacing of a signal history *)

Module Spacing.
Section Spacing.
Context {E T : Type}.
Variable type_of : E → T.
Variable time_of : E → Chrono.time_point.
Variable cooldown : Z.     (* minutes *)

(** Any two entries of the same kind are at least the cooldown apart. *)
Definition all_pairs_spaced (history : list E) : Prop :=
  ∀ (i j : nat) a b, (i < j)%nat →
    history !! i = Some a → history !! j = Some b →
    type_of a = type_of b →
    cooldown * Chrono.ticks_per_minute ≤ time_of b - time_of a.


End Spacing.
End Spacing.
(** ** The strategy engine (class [CStrategyEngine])

    [ExecuteStrategy], over strategies seen through the two virtual methods
    it calls.  A strategy object is its state; [Update] returns the state it
    leaves, also when it throws.  The calls the engine makes on strategies
    and on its notification hooks are recorded in a trace.  Exceptions are
    the [std::exception]s the [catch] clause handles.  Locks are not
    modelled. *)

Module StrategyEngine.
Import Strategy API Signal.

Section Engine.
Context {IStrategy : Type}.
Variable Update : IStrategy → list SKline → STicker → outcome SSignal * IStrategy.
Variable ValidateSignal : IStrategy → SSignal → outcome bool.

Inductive event :=
| CallUpdate (strategyName : string)
| CallValidateSignal (strategyName : string)
| NotifyStrategySignal (strategyName : string) (signal : SSignal)
| NotifyError (strategyName : string) (error : string).

Record CStrategyEngine := {
  mStrategies : gmap string IStrategy;
  mStrategyStates : gmap string EStrategyState;
  trace : list event
}.

(** A default-constructed [SSignal]. *)
Definition default_signal : SSignal :=
  {| mType := SIG_HOLD; mSymbol := ""; mPrice := 0%Qc; mStrength := 0%Qc;
     mMessage := ""; mTimestamp := 0; mStrategyName := "" |}.

Definition ValidateStrategy (engine : CStrategyEngine) (strategyName : string) : bool :=
  match mStrategies engine !! strategyName with
  | None => false
  | Some _ =>
      match mStrategyStates engine !! strategyName with
      | None => false
      | Some state => bool_decide (state = ACTIVE)
      end
  end.

(** The handler of [catch (const std::exception& e)]. *)
Definition on_exception (engine : CStrategyEngine) (strategyName : string)
    (e : exception) (now : Chrono.time_point) : outcome SSignal * CStrategyEngine :=
  let engine' :=
    {| mStrategies := mStrategies engine;
       mStrategyStates := <[strategyName := ERROR]> (mStrategyStates engine);
       trace := trace engine
                ++ [NotifyError strategyName ("Strategy execution failed: " +:+ what e)] |} in
  (Returned
     {| mType := SIG_HOLD; mSymbol := mSymbol default_signal;
        mPrice := mPrice default_signal; mStrength := mStrength default_signal;
        mMessage := "Execution error: " +:+ what e;
        mTimestamp := now; mStrategyName := strategyName |},
   engine').

Definition degrade (signal : SSignal) : SSignal :=
  {| mType := SIG_HOLD; mSymbol := mSymbol signal; mPrice := mPrice signal;
     mStrength := mStrength signal; mMessage := "Signal validation failed";
     mTimestamp := mTimestamp signal; mStrategyName := mStrategyName signal |}.

(** The end of the [try] block: metadata, notification, return. *)
Definition deliver (engine : CStrategyEngine) (strategyName : string)
    (signal : SSignal) (now : Chrono.time_point) : outcome SSignal * CStrategyEngine :=
  let signal :=
    {| mType := mType signal; mSymbol := mSymbol signal; mPrice := mPrice signal;
       mStrength := mStrength signal; mMessage := mMessage signal;
       mTimestamp := now; mStrategyName := strategyName |} in
  (Returned signal,
   {| mStrategies := mStrategies engine;
      mStrategyStates := mStrategyStates engine;
      trace := trace engine ++ [NotifyStrategySignal strategyName signal] |}).

Definition ExecuteStrategy (engine : CStrategyEngine) (strategyName : string)
    (klines : list SKline) (ticker : STicker) (now : Chrono.time_point)
  : outcome SSignal * CStrategyEngine :=
  match mStrategies engine !! strategyName with
  | None =>
      (Thrown (runtime_error
                 ("Strategy with name '" +:+ strategyName +:+ "' not found")),
       engine)
  | Some strategy =>
      let state := default INACTIVE (mStrategyStates engine !! strategyName) in
      if negb (bool_decide (state = ACTIVE)) then
        (Returned
           {| mType := SIG_HOLD; mSymbol := mSymbol default_signal;
              mPrice := mPrice default_signal; mStrength := mStrength default_signal;
              mMessage := "Strategy is not active";
              mTimestamp := now; mStrategyName := strategyName |},
         engine)
      else
        let '(updated, strategy') := Update strategy klines ticker in
        let engine :=
          {| mStrategies := <[strategyName := strategy']> (mStrategies engine);
             mStrategyStates := mStrategyStates engine;
             trace := trace engine ++ [CallUpdate strategyName] |} in
        match updated with
        | Thrown e => on_exception engine strategyName e now
        | Returned signal =>
            if negb (ValidateStrategy engine strategyName)
            then deliver engine strategyName (degrade signal) now
            else
              let engine :=
                {| mStrategies := mStrategies engine;
                   mStrategyStates := mStrategyStates engine;
                   trace := trace engine ++ [CallValidateSignal strategyName] |} in
              match ValidateSignal strategy' signal with
              | Thrown e => on_exception engine strategyName e now
              | Returned valid =>
                  if negb valid
                  then deliver engine strategyName (degrade signal) now
                  else deliver engine strategyName signal now
              end
        end
  end.
End Engine.

(** An engine that runs the RSI strategy; the strategy's clock reads are
    those of [clk]. *)
Definition rsi_Update (clk : RSIStrategy.UpdateClock) (s : RSIStrategy.CRSIStrategy)
    (klines : list SKline) (ticker : STicker)
  : outcome SSignal * RSIStrategy.CRSIStrategy :=
  let r := RSIStrategy.Update s klines ticker clk in
  (Returned (fst r), snd r).

Definition rsi_ValidateSignal (s : RSIStrategy.CRSIStrategy) (signal : SSignal)
  : outcome bool :=
  Returned (RSIStrategy.ValidateSignal s signal).

Definition rsi_engine (state : EStrategyState) : @CStrategyEngine RSIStrategy.CRSIStrategy :=
  {| mStrategies := {[ "RSI Strategy" := RSIStrategy.initialized RSIStrategy.scenario_params ]};
     mStrategyStates := {[ "RSI Strategy" := state ]};
     trace := [] |}.

(** A strategy whose [Update] always throws. *)
Definition failing_Update (s : unit) (klines : list SKline) (ticker : STicker)
  : outcome SSignal * unit :=
  (Thrown (runtime_error "feed unavailable"), s).

Definition failing_engine : @CStrategyEngine unit :=
  {| mStrategies := {[ "Broken" := tt ]};
     mStrategyStates := {[ "Broken" := ACTIVE ]};
     trace := [] |}.

(** The engine as [ExecuteStrategy] sees it once [Update] has returned. *)
Definition after_Update {IStrategy : Type} (engine : @CStrategyEngine IStrategy)
    (strategyName : string) (strategy' : IStrategy) : @CStrategyEngine IStrategy :=
  {| mStrategies := <[strategyName := strategy']> (mStrategies engine);
     mStrategyStates := mStrategyStates engine;
     trace := trace engine ++ [CallUpdate strategyName] |}.

Definition first_call : list SKline * STicker * RSIStrategy.UpdateClock :=
  ([RSIStrategy.candle 0 100; RSIStrategy.candle 1 104; RSIStrategy.candle 2 94],
   RSIStrategy.scenario_ticker, RSIStrategy.clock_at 0).
End StrategyEngine.
(** ** The backtester's data loaders (class [CBackTester])

    The CSV file is the list of its lines, or [None] when it cannot be
    opened.  [std::stoll] and [std::stod] are parameters; [decimal_stoll]
    and [decimal_stod] below read plain decimal numerals.  The exchange
    adapter is an oracle for [GetKlines], indexed by the number of the call.
    [long long] arithmetic is assumed not to overflow.  [std::sort] is
    embedded as an insertion sort driven by the same comparator. *)

Module BackTester.
Import API.

(** [while (std::getline(ss, item, ','))]: the items read from a line. *)
Fixpoint getline_items (line : string) (item : string) : list string :=
  match line with
  | EmptyString => if bool_decide (item = "") then [] else [item]
  | String c rest =>
      if bool_decide (c = ","%char) then item :: getline_items rest ""
      else getline_items rest (item +:+ String c EmptyString)
  end.

Section Loaders.
Variable stoll : string → outcome Z.
Variable stod : string → outcome double.

Definition set_field (kline : SKline) (field : Z) (item : string) : outcome SKline :=
  let with_Z (f : Z → SKline) :=
    match stoll item with Returned z => Returned (f z) | Thrown e => Thrown e end in
  let with_double (f : double → SKline) :=
    match stod item with Returned d => Returned (f d) | Thrown e => Thrown e end in
  if field =? 0 then
    with_Z (λ z, {| mOpenTime := z; mOpen := mOpen kline; mHigh := mHigh kline;
                    mLow := mLow kline; mClose := mClose kline;
                    mVolume := mVolume kline; mCloseTime := mCloseTime kline |})
  else if field =? 1 then
    with_double (λ d, {| mOpenTime := mOpenTime kline; mOpen := d; mHigh := mHigh kline;
                         mLow := mLow kline; mClose := mClose kline;
                         mVolume := mVolume kline; mCloseTime := mCloseTime kline |})
  else if field =? 2 then
    with_double (λ d, {| mOpenTime := mOpenTime kline; mOpen := mOpen kline; mHigh := d;
                         mLow := mLow kline; mClose := mClose kline;
                         mVolume := mVolume kline; mCloseTime := mCloseTime kline |})
  else if field =? 3 then
    with_double (λ d, {| mOpenTime := mOpenTime kline; mOpen := mOpen kline;
                         mHigh := mHigh kline; mLow := d; mClose := mClose kline;
                         mVolume := mVolume kline; mCloseTime := mCloseTime kline |})
  else if field =? 4 then
    with_double (λ d, {| mOpenTime := mOpenTime kline; mOpen := mOpen kline;
                         mHigh := mHigh kline; mLow := mLow kline; mClose := d;
                         mVolume := mVolume kline; mCloseTime := mCloseTime kline |})
  else if field =? 5 then
    with_double (λ d, {| mOpenTime := mOpenTime kline; mOpen := mOpen kline;
                         mHigh := mHigh kline; mLow := mLow kline;
                         mClose := mClose kline; mVolume := d;
                         mCloseTime := mCloseTime kline |})
  else if field =? 6 then
    with_Z (λ z, {| mOpenTime := mOpenTime kline; mOpen := mOpen kline;
                    mHigh := mHigh kline; mLow := mLow kline; mClose := mClose kline;
                    mVolume := mVolume kline; mCloseTime := z |})
  else Returned kline.

(** The inner loop over the items of one line: the candle so far and the
    number of fields seen. *)
Fixpoint read_items (items : list string) (kline : SKline) (field : Z)
  : outcome (SKline * Z) :=
  match items with
  | [] => Returned (kline, field)
  | item :: rest =>
      match set_field kline field item with
      | Thrown e => Thrown e
      | Returned kline' => read_items rest kline' (field + 1)
      end
  end.

Definition blank_kline : SKline :=
  {| mOpenTime := 0; mOpen := 0%Qc; mHigh := 0%Qc; mLow := 0%Qc; mClose := 0%Qc;
     mVolume := 0%Qc; mCloseTime := 0 |}.

(** The outer loop over the data lines; an exception thrown by a
    conversion leaves the rows read so far in [mHistoricalData]. *)
Fixpoint read_lines (lines : list string) (mHistoricalData : list SKline)
  : outcome unit * list SKline :=
  match lines with
  | [] => (Returned tt, mHistoricalData)
  | line :: rest =>
      match read_items (getline_items line "") blank_kline 0 with
      | Thrown e => (Thrown e, mHistoricalData)
      | Returned (kline, field) =>
          read_lines rest
            (if 7 <=? field then push_back mHistoricalData kline else mHistoricalData)
      end
  end.

Record IExchangeAPI := {
  IsInitialized : bool;
  GetKlines : nat → string → string → Z → Z → Z → outcome (list SKline)
}.

Record CBackTester := {
  mTimeframe : string;
  mPair : string;
  mStartTimestamp : Z;
  mEndTimestamp : Z;
  mExchangeAPI : option IExchangeAPI;
  mHistoricalData : list SKline
}.

Definition set_mHistoricalData (bt : CBackTester) (data : list SKline) : CBackTester :=
  {| mTimeframe := mTimeframe bt; mPair := mPair bt;
     mStartTimestamp := mStartTimestamp bt; mEndTimestamp := mEndTimestamp bt;
     mExchangeAPI := mExchangeAPI bt; mHistoricalData := data |}.

Definition LoadHistoricalData (bt : CBackTester) (csvFile : string)
    (file : option (list string)) : outcome unit * CBackTester :=
  match file with
  | None => (Thrown (runtime_error ("Failed to open CSV file: " +:+ csvFile)), bt)
  | Some lines =>
      match lines with
      | [] => (Returned tt, set_mHistoricalData bt [])
      | _header :: rest =>
          let '(result, data) := read_lines rest [] in
          (result, set_mHistoricalData bt data)
      end
  end.
End Loaders.

(** [std::sort(first, last, comp)] *)
Fixpoint sort_insert {A} (comp : A → A → bool) (x : A) (sorted : list A) : list A :=
  match sorted with
  | [] => [x]
  | y :: rest => if comp y x then y :: sort_insert comp x rest else x :: y :: rest
  end.

Definition std_sort {A} (comp : A → A → bool) (v : list A) : list A :=
  foldr (sort_insert comp) [] v.

Definition by_open_time (a b : SKline) : bool := mOpenTime a <? mOpenTime b.

(** The paging loop of [LoadHistoricalDataFromAPI]; [None] when it has not
    finished within [fuel] iterations. *)
Fixpoint fetch (fuel : nat) (api : IExchangeAPI) (pair timeframe : string)
    (startTime endTime : Z) (call : nat) (currentTime : Z) (data : list SKline)
  : option (list SKline) :=
  match fuel with
  | O => None
  | S fuel =>
      if currentTime <? endTime then
        match GetKlines api call pair timeframe 1000 currentTime 0 with
        | Thrown _ => Some data
        | Returned klines =>
            match last klines with
            | None => Some data
            | Some back =>
                let data :=
                  data ++ List.filter (λ kline, (startTime <=? mOpenTime kline)
                                                && (mOpenTime kline <=? endTime)) klines in
                fetch fuel api pair timeframe startTime endTime (S call)
                  (mCloseTime back + 1) data
            end
        end
      else Some data
  end.

(** The paging loop makes progress when every page the exchange serves ends at or after the
    time asked for. *)
Definition pages_advance (api : IExchangeAPI) (pair timeframe : string) : Prop :=
  ∀ call currentTime klines back,
    GetKlines api call pair timeframe 1000 currentTime 0 = Returned klines →
    last klines = Some back → currentTime ≤ mCloseTime back.

Definition LoadHistoricalDataFromAPI (bt : CBackTester) (fuel : nat)
  : option (outcome unit * CBackTester) :=
  match mExchangeAPI bt with
  | None => Some (Thrown (runtime_error "Exchange API not initialized"), bt)
  | Some api =>
      if negb (IsInitialized api)
      then Some (Thrown (runtime_error "Exchange API not initialized"), bt)
      else
        let startTime := mStartTimestamp bt * 1000 in
        let endTime := mEndTimestamp bt * 1000 in
        match fetch fuel api (mPair bt) (mTimeframe bt) startTime endTime 0 startTime [] with
        | None => None
        | Some data => Some (Returned tt, set_mHistoricalData bt (std_sort by_open_time data))
        end
  end.

(** Sorted in non-decreasing order of open-time. *)
Definition sorted_by_open_time (data : list SKline) : Prop :=
  Sorted (λ a b, mOpenTime a ≤ mOpenTime b) data.

(** Plain decimal numerals: an optional sign and digits, for [stoll]; the
    same with an optional fractional part, for [stod]. *)
Definition digit_value (c : Ascii.ascii) : option Z :=
  let n := Z.of_N (Ascii.N_of_ascii c) in
  if (48 <=? n) && (n <=? 57) then Some (n - 48) else None.

Fixpoint read_digits (s : string) (acc : Z) (count : nat) : Z * nat * string :=
  match s with
  | EmptyString => (acc, count, s)
  | String c rest =>
      match digit_value c with
      | Some d => read_digits rest (acc * 10 + d) (S count)
      | None => (acc, count, s)
      end
  end.

Definition read_sign (s : string) : bool * string :=
  match s with
  | String "-"%char rest => (true, rest)
  | String "+"%char rest => (false, rest)
  | _ => (false, s)
  end.

Definition decimal_stoll (s : string) : outcome Z :=
  let '(negative, s) := read_sign s in
  let '(n, count, _) := read_digits s 0 0 in
  if bool_decide (count = 0%nat) then Thrown (invalid_argument "stoll")
  else Returned (if negative then - n else n).

Definition decimal_stod (s : string) : outcome double :=
  let '(negative, s) := read_sign s in
  let '(n, count, rest) := read_digits s 0 0 in
  let '(m, fraction) :=
    match rest with
    | String "."%char rest => let '(m, k, _) := read_digits rest n 0 in (m, k)
    | _ => (n, 0%nat)
    end in
  if bool_decide ((count + fraction)%nat = 0%nat) then Thrown (invalid_argument "stod")
  else Returned (if negative then (- dec m fraction)%Qc else dec m fraction).

(** A backtester with no data and no exchange adapter, and a CSV file whose
    two rows are in decreasing order of open-time. *)
Definition fresh : CBackTester :=
  {| mTimeframe := "1h"; mPair := "BTCUSDT"; mStartTimestamp := 0;
     mEndTimestamp := 10; mExchangeAPI := None; mHistoricalData := [] |}.

Definition unsorted_csv : list string :=
  [ "open_time,open,high,low,close,volume,close_time";
    "2000,101.5,102,101,101.75,3,2999";
    "1000,100,101.5,99.5,101.5,2,1999" ].

(** An exchange that serves the same two candles, latest first, on every
    call. *)
Definition two_candles : list SKline :=
  [ {| mOpenTime := 2000; mOpen := ofZ 101; mHigh := ofZ 102; mLow := ofZ 101;
       mClose := ofZ 102; mVolume := ofZ 3; mCloseTime := 2999 |};
    {| mOpenTime := 1000; mOpen := ofZ 100; mHigh := ofZ 101; mLow := ofZ 99;
       mClose := ofZ 101; mVolume := ofZ 2; mCloseTime := 10999 |} ].

Definition replaying_exchange : IExchangeAPI :=
  {| IsInitialized := true;
     GetKlines := λ _ _ _ _ _ _, Returned two_candles |}.

Definition with_exchange : CBackTester :=
  {| mTimeframe := "1h"; mPair := "BTCUSDT"; mStartTimestamp := 0;
     mEndTimestamp := 10; mExchangeAPI := Some replaying_exchange;
     mHistoricalData := [] |}.
End BackTester.
(** ** The risk manager (namespace [Risk], class [CRiskManager]) *)

Module Risk.
Import Strategy.

Inductive ERiskAlertType :=
| DAILY_LOSS_LIMIT
| TOTAL_EXPOSURE_LIMIT
| SYMBOL_EXPOSURE_LIMIT
| MAX_POSITIONS_LIMIT
| VOLATILITY_ALERT.

Record SRiskAlert := {
  alert_mType : ERiskAlertType;
  alert_mSymbol : string;
  alert_mMessage : string;
  alert_mTimestamp : Chrono.time_point;
  alert_mCurrentValue : double;
  alert_mLimitValue : double
}.

Record CRiskManager := {
  mMaxCapitalPerTrade : double;
  mMaxTotalExposure : double;
  mMaxSymbolExposure : double;
  mMaxOpenPositions : Z;
  mMaxDailyLoss : double;
  mDefaultStopLoss : double;
  mDefaultTakeProfit : double;
  mMinTimeBetweenTrades : Z;       (* seconds *)
  mEnableVolatilityCheck : bool;
  mMaxVolatility : double;
  mOpenPositions : gmap string SPosition;
  mSymbolExposure : gmap string double;
  mLastTradeTime : gmap string Chrono.time_point;
  mTotalExposure : double;
  mTodayPnL : double;
  mStartOfDay : Chrono.time_point;
  mActiveAlerts : list SRiskAlert
}.

Definition set_day (rm : CRiskManager) (start : Chrono.time_point) (pnl : double)
  : CRiskManager :=
  {| mMaxCapitalPerTrade := mMaxCapitalPerTrade rm;
     mMaxTotalExposure := mMaxTotalExposure rm;
     mMaxSymbolExposure := mMaxSymbolExposure rm;
     mMaxOpenPositions := mMaxOpenPositions rm;
     mMaxDailyLoss := mMaxDailyLoss rm;
     mDefaultStopLoss := mDefaultStopLoss rm;
     mDefaultTakeProfit := mDefaultTakeProfit rm;
     mMinTimeBetweenTrades := mMinTimeBetweenTrades rm;
     mEnableVolatilityCheck := mEnableVolatilityCheck rm;
     mMaxVolatility := mMaxVolatility rm;
     mOpenPositions := mOpenPositions rm;
     mSymbolExposure := mSymbolExposure rm;
     mLastTradeTime := mLastTradeTime rm;
     mTotalExposure := mTotalExposure rm;
     mTodayPnL := pnl;
     mStartOfDay := start;
     mActiveAlerts := mActiveAlerts rm |}.

Definition set_books (rm : CRiskManager)
    (positions : gmap string SPosition) (exposure : gmap string double)
    (last : gmap string Chrono.time_point) (total pnl : double) : CRiskManager :=
  {| mMaxCapitalPerTrade := mMaxCapitalPerTrade rm;
     mMaxTotalExposure := mMaxTotalExposure rm;
     mMaxSymbolExposure := mMaxSymbolExposure rm;
     mMaxOpenPositions := mMaxOpenPositions rm;
     mMaxDailyLoss := mMaxDailyLoss rm;
     mDefaultStopLoss := mDefaultStopLoss rm;
     mDefaultTakeProfit := mDefaultTakeProfit rm;
     mMinTimeBetweenTrades := mMinTimeBetweenTrades rm;
     mEnableVolatilityCheck := mEnableVolatilityCheck rm;
     mMaxVolatility := mMaxVolatility rm;
     mOpenPositions := positions;
     mSymbolExposure := exposure;
     mLastTradeTime := last;
     mTotalExposure := total;
     mTodayPnL := pnl;
     mStartOfDay := mStartOfDay rm;
     mActiveAlerts := mActiveAlerts rm |}.

(** The constructor reads the clock twice: once for [mStartOfDay], once
    for the start-of-day test that follows. *)
Definition constructor (now0 now1 : Chrono.time_point) : CRiskManager :=
  let rm :=
    {| mMaxCapitalPerTrade := ofZ 5;
       mMaxTotalExposure := ofZ 50;
       mMaxSymbolExposure := ofZ 20;
       mMaxOpenPositions := 5;
       mMaxDailyLoss := ofZ 10;
       mDefaultStopLoss := ofZ 2;
       mDefaultTakeProfit := ofZ 5;
       mMinTimeBetweenTrades := 60;
       mEnableVolatilityCheck := true;
       mMaxVolatility := ofZ 5;
       mOpenPositions := ∅;
       mSymbolExposure := ∅;
       mLastTradeTime := ∅;
       mTotalExposure := 0%Qc;
       mTodayPnL := 0%Qc;
       mStartOfDay := now0;
       mActiveAlerts := [] |} in
  let today := Chrono.floor_days now1 in
  if (Chrono.floor_days (mStartOfDay rm) <? today)%Z
  then set_day rm (Chrono.days_to_time_point today) 0%Qc
  else rm.

(** The account balance is the constant the code uses in both checks. *)
Definition accountBalance : double := ofZ 10000.

Definition CheckMaxOpenPositions (rm : CRiskManager) : bool :=
  (Z.of_nat (size (mOpenPositions rm)) <? mMaxOpenPositions rm `mod` 2 ^ 64)%Z.

(** Not [const] in effect: the daily figures are reset through a
    [const_cast] when the day has advanced. *)
Definition CheckMaxDailyLoss (rm : CRiskManager) (now : Chrono.time_point)
  : bool * CRiskManager :=
  let today := Chrono.floor_days now in
  let rm1 :=
    if (Chrono.floor_days (mStartOfDay rm) <? today)%Z
    then set_day rm (Chrono.days_to_time_point today) 0%Qc
    else rm in
  let maxLossThreshold := (accountBalance * (mMaxDailyLoss rm1 / ofZ 100))%Qc in
  (Qc_ltb (- mTodayPnL rm1)%Qc maxLossThreshold, rm1).

Definition CheckMarketVolatility (rm : CRiskManager) (symbol : string) (price : double)
  : bool := true.

Definition GetSymbolExposure (rm : CRiskManager) (symbol : string) : double :=
  match mSymbolExposure rm !! symbol with
  | Some e => e
  | None => 0%Qc
  end.

Definition CheckSymbolExposure (rm : CRiskManager) (symbol : string)
    (addedExposure : double) : bool :=
  let currentExposure :=
    match mSymbolExposure rm !! symbol with
    | Some e => e
    | None => 0%Qc
    end in
  let maxAllowedExposure := (accountBalance * (mMaxSymbolExposure rm / ofZ 100))%Qc in
  Qc_leb (currentExposure + addedExposure)%Qc maxAllowedExposure.

Definition CheckTradeFrequency (rm : CRiskManager) (symbol : string)
    (now : Chrono.time_point) : bool :=
  match mLastTradeTime rm !! symbol with
  | Some last =>
      if (now - last <? mMinTimeBetweenTrades rm * Chrono.ticks_per_second)%Z
      then false else true
  | None => true
  end.

(** [nowDaily] is the clock read inside [CheckMaxDailyLoss], [nowFreq] the
    one inside [CheckTradeFrequency]. *)
Definition CheckPositionAllowed (rm : CRiskManager) (symbol : string)
    (side : EOrderSide) (quantity price : double)
    (nowDaily nowFreq : Chrono.time_point) : bool * CRiskManager :=
  if bool_decide (symbol = "") || Qc_leb quantity 0%Qc || Qc_leb price 0%Qc
  then (false, rm)
  else if negb (CheckMaxOpenPositions rm) then (false, rm)
  else
    let '(okDaily, rm1) := CheckMaxDailyLoss rm nowDaily in
    if negb okDaily then (false, rm1)
    else
      let exposure := (quantity * price)%Qc in
      if negb (CheckSymbolExposure rm1 symbol exposure) then (false, rm1)
      else if negb (CheckTradeFrequency rm1 symbol nowFreq) then (false, rm1)
      else if mEnableVolatilityCheck rm1 && negb (CheckMarketVolatility rm1 symbol price)
      then (false, rm1)
      else (true, rm1).

(** [m[k] += d] on a [std::map<std::string, double>]: a missing key is
    first inserted with value [0.0]. *)
Definition map_add (m : gmap string double) (k : string) (d : double)
  : gmap string double :=
  <[k := (default 0%Qc (m !! k) + d)%Qc]> m.

Definition RegisterPosition (rm : CRiskManager) (position : SPosition)
    (now : Chrono.time_point) : outcome unit * CRiskManager :=
  if bool_decide (mId position = "")
  then (Thrown (invalid_argument "Position ID cannot be empty"), rm)
  else
    let exposure := (mQuantity position * mEntryPrice position)%Qc in
    (Returned tt,
     set_books rm
       (<[mId position := position]> (mOpenPositions rm))
       (map_add (mSymbolExposure rm) (mSymbol position) exposure)
       (<[mSymbol position := now]> (mLastTradeTime rm))
       (mTotalExposure rm + exposure)%Qc
       (mTodayPnL rm)).

Definition ClosePosition (rm : CRiskManager) (positionId : string)
    (exitPrice pnl : double) : outcome unit * CRiskManager :=
  match mOpenPositions rm !! positionId with
  | None =>
      (Thrown (runtime_error ("Position with ID '" +:+ positionId +:+ "' not found")), rm)
  | Some position =>
      let exposure := (mQuantity position * mEntryPrice position)%Qc in
      (Returned tt,
       set_books rm
         (delete positionId (mOpenPositions rm))
         (map_add (mSymbolExposure rm) (mSymbol position) (- exposure)%Qc)
         (mLastTradeTime rm)
         (mTotalExposure rm - exposure)%Qc
         (mTodayPnL rm + pnl)%Qc)
  end.

Definition GetTotalExposure (rm : CRiskManager) : double := mTotalExposure rm.
Definition GetTodayPnL (rm : CRiskManager) : double := mTodayPnL rm.
Definition GetActiveAlertsField (rm : CRiskManager) : list SRiskAlert := mActiveAlerts rm.

Definition ResetDailyStats (rm : CRiskManager) (now : Chrono.time_point) : CRiskManager :=
  set_day rm now 0%Qc.

(** The operations that touch the books, as a client can issue them. *)
Inductive op :=
| OpRegister (position : SPosition) (now : Chrono.time_point)
| OpClose (positionId : string) (exitPrice pnl : double)
| OpCheck (symbol : string) (side : EOrderSide) (quantity price : double)
          (nowDaily nowFreq : Chrono.time_point)
| OpResetDaily (now : Chrono.time_point).

Definition step (rm : CRiskManager) (o : op) : CRiskManager :=
  match o with
  | OpRegister p now => snd (RegisterPosition rm p now)
  | OpClose id x pnl => snd (ClosePosition rm id x pnl)
  | OpCheck s side q p n1 n2 => snd (CheckPositionAllowed rm s side q p n1 n2)
  | OpResetDaily now => ResetDailyStats rm now
  end.

Definition run (rm : CRiskManager) (ops : list op) : CRiskManager :=
  foldl step rm ops.

(** The symbol-exposure scenario: a fresh manager (default parameters, so
    [mMaxSymbolExposure] is 20) in which one position of 0.25 BTCUSDT
    entered at 6000 has been registered, which puts the exposure on
    BTCUSDT at 1500. *)
Definition scenario_position : SPosition :=
  {| mSymbol := "BTCUSDT"; mSide := BUY; mEntryPrice := ofZ 6000;
     mQuantity := dec 25 2; mEntryTime := 0; mStopLoss := ofZ 5880;
     mTakeProfit := ofZ 6300; mId := "pos_1"; mStrategyName := "RSI Strategy";
     mCurrentPrice := ofZ 6000; mUnrealizedPnL := 0%Qc; mCommission := 0%Qc |}.

Definition scenario_rm : CRiskManager :=
  snd (RegisterPosition (constructor 0 0) scenario_position 0).

(** The alert the scenario is said to leave in the active-alerts list. *)
Definition symbol_exposure_alert_recorded (rm : CRiskManager) : Prop :=
  ∃ a, a ∈ mActiveAlerts rm ∧ alert_mType a = SYMBOL_EXPOSURE_LIMIT ∧
       alert_mCurrentValue a = ofZ 2100 ∧ alert_mLimitValue a = ofZ 2000.

(** *** A setter, and the exposure of a position *)

Definition SetMaxTotalExposure (rm : CRiskManager) (percentage : double) : CRiskManager :=
  {| mMaxCapitalPerTrade := mMaxCapitalPerTrade rm;
     mMaxTotalExposure := percentage;
     mMaxSymbolExposure := mMaxSymbolExposure rm;
     mMaxOpenPositions := mMaxOpenPositions rm;
     mMaxDailyLoss := mMaxDailyLoss rm;
     mDefaultStopLoss := mDefaultStopLoss rm;
     mDefaultTakeProfit := mDefaultTakeProfit rm;
     mMinTimeBetweenTrades := mMinTimeBetweenTrades rm;
     mEnableVolatilityCheck := mEnableVolatilityCheck rm;
     mMaxVolatility := mMaxVolatility rm;
     mOpenPositions := mOpenPositions rm;
     mSymbolExposure := mSymbolExposure rm;
     mLastTradeTime := mLastTradeTime rm;
     mTotalExposure := mTotalExposure rm;
     mTodayPnL := mTodayPnL rm;
     mStartOfDay := mStartOfDay rm;
     mActiveAlerts := mActiveAlerts rm |}.

(** The exposure a position carries in the books: quantity times entry price. *)
Definition position_exposure (p : SPosition) : double :=
  (mQuantity p * mEntryPrice p)%Qc.

(** A freshly constructed manager. *)
Definition scenario_fresh : CRiskManager := constructor 0 0.
End Risk.

(** ** Binary64 numbers

    The risk manager keeps its books as running sums of [double]s, and
    whether two such sums agree is decided by rounding.  [Risk64] therefore
    follows them in IEEE 754 binary64 arithmetic (53-bit significand,
    rounding to nearest, ties to even), as specified by [SpecFloat]. *)

Module Binary64.
Definition prec : Z := 53.
Definition emax : Z := 1024.

Definition binary64 : Type := spec_float.

Definition zero : binary64 := S754_zero false.
Definition add (x y : binary64) : binary64 := SFadd prec emax x y.
Definition sub (x y : binary64) : binary64 := SFsub prec emax x y.
Definition mul (x y : binary64) : binary64 := SFmul prec emax x y.
Definition div (x y : binary64) : binary64 := SFdiv prec emax x y.
Definition opp (x : binary64) : binary64 := SFopp x.
Definition ltb (x y : binary64) : bool := SFltb x y.
Definition leb (x y : binary64) : bool := SFleb x y.

(** The literal of an integer, and the decimal literal [n / 10^k] (for [n]
    and [10^k] below [2^53] the correctly rounded quotient is the double the
    compiler reads the literal as). *)
Definition of_Z (n : Z) : binary64 := binary_normalize prec emax n 0 false.
Definition decimal (n : Z) (k : nat) : binary64 :=
  div (of_Z n) (of_Z (10 ^ Z.of_nat k)).

(** The sum of a list of doubles, accumulated from [0.0] in the order of
    the list. *)
Definition sum_in_order (l : list binary64) : binary64 := foldl add zero l.
End Binary64.

(** ** The risk manager in binary64 (namespace [Risk], class [CRiskManager])

    The same class as [Risk] above, with every [double] a binary64 number
    and every operation on doubles rounded as the machine rounds it. *)

Module Risk64.
Import Strategy Binary64.

Record SPosition := {
  mSymbol : string;
  mSide : EOrderSide;
  mEntryPrice : binary64;
  mQuantity : binary64;
  mEntryTime : Chrono.time_point;
  mStopLoss : binary64;
  mTakeProfit : binary64;
  mId : string;
  mStrategyName : string;
  mCurrentPrice : binary64;
  mUnrealizedPnL : binary64;
  mCommission : binary64
}.

Inductive ERiskAlertType :=
| DAILY_LOSS_LIMIT
| TOTAL_EXPOSURE_LIMIT
| SYMBOL_EXPOSURE_LIMIT
| MAX_POSITIONS_LIMIT
| VOLATILITY_ALERT.

Record SRiskAlert := {
  alert_mType : ERiskAlertType;
  alert_mSymbol : string;
  alert_mMessage : string;
  alert_mTimestamp : Chrono.time_point;
  alert_mCurrentValue : binary64;
  alert_mLimitValue : binary64
}.

Record CRiskManager := {
  mMaxCapitalPerTrade : binary64;
  mMaxTotalExposure : binary64;
  mMaxSymbolExposure : binary64;
  mMaxOpenPositions : Z;
  mMaxDailyLoss : binary64;
  mDefaultStopLoss : binary64;
  mDefaultTakeProfit : binary64;
  mMinTimeBetweenTrades : Z;       (* seconds *)
  mEnableVolatilityCheck : bool;
  mMaxVolatility : binary64;
  mOpenPositions : gmap string SPosition;
  mSymbolExposure : gmap string binary64;
  mLastTradeTime : gmap string Chrono.time_point;
  mTotalExposure : binary64;
  mTodayPnL : binary64;
  mStartOfDay : Chrono.time_point;
  mActiveAlerts : list SRiskAlert
}.

Definition set_day (rm : CRiskManager) (start : Chrono.time_point) (pnl : binary64)
  : CRiskManager :=
  {| mMaxCapitalPerTrade := mMaxCapitalPerTrade rm;
     mMaxTotalExposure := mMaxTotalExposure rm;
     mMaxSymbolExposure := mMaxSymbolExposure rm;
     mMaxOpenPositions := mMaxOpenPositions rm;
     mMaxDailyLoss := mMaxDailyLoss rm;
     mDefaultStopLoss := mDefaultStopLoss rm;
     mDefaultTakeProfit := mDefaultTakeProfit rm;
     mMinTimeBetweenTrades := mMinTimeBetweenTrades rm;
     mEnableVolatilityCheck := mEnableVolatilityCheck rm;
     mMaxVolatility := mMaxVolatility rm;
     mOpenPositions := mOpenPositions rm;
     mSymbolExposure := mSymbolExposure rm;
     mLastTradeTime := mLastTradeTime rm;
     mTotalExposure := mTotalExposure rm;
     mTodayPnL := pnl;
     mStartOfDay := start;
     mActiveAlerts := mActiveAlerts rm |}.

Definition set_books (rm : CRiskManager)
    (positions : gmap string SPosition) (exposure : gmap string binary64)
    (last : gmap string Chrono.time_point) (total pnl : binary64) : CRiskManager :=
  {| mMaxCapitalPerTrade := mMaxCapitalPerTrade rm;
     mMaxTotalExposure := mMaxTotalExposure rm;
     mMaxSymbolExposure := mMaxSymbolExposure rm;
     mMaxOpenPositions := mMaxOpenPositions rm;
     mMaxDailyLoss := mMaxDailyLoss rm;
     mDefaultStopLoss := mDefaultStopLoss rm;
     mDefaultTakeProfit := mDefaultTakeProfit rm;
     mMinTimeBetweenTrades := mMinTimeBetweenTrades rm;
     mEnableVolatilityCheck := mEnableVolatilityCheck rm;
     mMaxVolatility := mMaxVolatility rm;
     mOpenPositions := positions;
     mSymbolExposure := exposure;
     mLastTradeTime := last;
     mTotalExposure := total;
     mTodayPnL := pnl;
     mStartOfDay := mStartOfDay rm;
     mActiveAlerts := mActiveAlerts rm |}.

(** The constructor reads the clock twice: once for [mStartOfDay], once
    for the start-of-day test that follows. *)
Definition constructor (now0 now1 : Chrono.time_point) : CRiskManager :=
  let rm :=
    {| mMaxCapitalPerTrade := of_Z 5;
       mMaxTotalExposure := of_Z 50;
       mMaxSymbolExposure := of_Z 20;
       mMaxOpenPositions := 5;
       mMaxDailyLoss := of_Z 10;
       mDefaultStopLoss := of_Z 2;
       mDefaultTakeProfit := of_Z 5;
       mMinTimeBetweenTrades := 60;
       mEnableVolatilityCheck := true;
       mMaxVolatility := of_Z 5;
       mOpenPositions := ∅;
       mSymbolExposure := ∅;
       mLastTradeTime := ∅;
       mTotalExposure := zero;
       mTodayPnL := zero;
       mStartOfDay := now0;
       mActiveAlerts := [] |} in
  let today := Chrono.floor_days now1 in
  if (Chrono.floor_days (mStartOfDay rm) <? today)%Z
  then set_day rm (Chrono.days_to_time_point today) zero
  else rm.

(** The account balance is the constant the code uses in both checks. *)
Definition accountBalance : binary64 := of_Z 10000.

Definition CheckMaxOpenPositions (rm : CRiskManager) : bool :=
  (Z.of_nat (size (mOpenPositions rm)) <? to_size_t (mMaxOpenPositions rm))%Z.

(** Not [const] in effect: the daily figures are reset through a
    [const_cast] when the day has advanced. *)
Definition CheckMaxDailyLoss (rm : CRiskManager) (now : Chrono.time_point)
  : bool * CRiskManager :=
  let today := Chrono.floor_days now in
  let rm1 :=
    if (Chrono.floor_days (mStartOfDay rm) <? today)%Z
    then set_day rm (Chrono.days_to_time_point today) zero
    else rm in
  let maxLossThreshold := mul accountBalance (div (mMaxDailyLoss rm1) (of_Z 100)) in
  (ltb (opp (mTodayPnL rm1)) maxLossThreshold, rm1).

Definition CheckMarketVolatility (rm : CRiskManager) (symbol : string) (price : binary64)
  : bool := true.

Definition GetSymbolExposure (rm : CRiskManager) (symbol : string) : binary64 :=
  match mSymbolExposure rm !! symbol with
  | Some e => e
  | None => zero
  end.

Definition CheckSymbolExposure (rm : CRiskManager) (symbol : string)
    (addedExposure : binary64) : bool :=
  let currentExposure :=
    match mSymbolExposure rm !! symbol with
    | Some e => e
    | None => zero
    end in
  let maxAllowedExposure := mul accountBalance (div (mMaxSymbolExposure rm) (of_Z 100)) in
  leb (add currentExposure addedExposure) maxAllowedExposure.

Definition CheckTradeFrequency (rm : CRiskManager) (symbol : string)
    (now : Chrono.time_point) : bool :=
  match mLastTradeTime rm !! symbol with
  | Some last =>
      if (now - last <? mMinTimeBetweenTrades rm * Chrono.ticks_per_second)%Z
      then false else true
  | None => true
  end.

(** [nowDaily] is the clock read inside [CheckMaxDailyLoss], [nowFreq] the
    one inside [CheckTradeFrequency]. *)
Definition CheckPositionAllowed (rm : CRiskManager) (symbol : string)
    (side : EOrderSide) (quantity price : binary64)
    (nowDaily nowFreq : Chrono.time_point) : bool * CRiskManager :=
  if bool_decide (symbol = "") || leb quantity zero || leb price zero
  then (false, rm)
  else if negb (CheckMaxOpenPositions rm) then (false, rm)
  else
    let '(okDaily, rm1) := CheckMaxDailyLoss rm nowDaily in
    if negb okDaily then (false, rm1)
    else
      let exposure := mul quantity price in
      if negb (CheckSymbolExposure rm1 symbol exposure) then (false, rm1)
      else if negb (CheckTradeFrequency rm1 symbol nowFreq) then (false, rm1)
      else if mEnableVolatilityCheck rm1 && negb (CheckMarketVolatility rm1 symbol price)
      then (false, rm1)
      else (true, rm1).

(** [m[k] += d] and [m[k] -= d] on a [std::map<std::string, double>]: a
    missing key is first inserted with value [0.0]. *)
Definition map_add (m : gmap string binary64) (k : string) (d : binary64)
  : gmap string binary64 :=
  <[k := add (default zero (m !! k)) d]> m.

Definition map_sub (m : gmap string binary64) (k : string) (d : binary64)
  : gmap string binary64 :=
  <[k := sub (default zero (m !! k)) d]> m.

Definition RegisterPosition (rm : CRiskManager) (position : SPosition)
    (now : Chrono.time_point) : outcome unit * CRiskManager :=
  if bool_decide (mId position = "")
  then (Thrown (invalid_argument "Position ID cannot be empty"), rm)
  else
    let exposure := mul (mQuantity position) (mEntryPrice position) in
    (Returned tt,
     set_books rm
       (<[mId position := position]> (mOpenPositions rm))
       (map_add (mSymbolExposure rm) (mSymbol position) exposure)
       (<[mSymbol position := now]> (mLastTradeTime rm))
       (add (mTotalExposure rm) exposure)
       (mTodayPnL rm)).

Definition ClosePosition (rm : CRiskManager) (positionId : string)
    (exitPrice pnl : binary64) : outcome unit * CRiskManager :=
  match mOpenPositions rm !! positionId with
  | None =>
      (Thrown (runtime_error ("Position with ID '" +:+ positionId +:+ "' not found")), rm)
  | Some position =>
      let exposure := mul (mQuantity position) (mEntryPrice position) in
      (Returned tt,
       set_books rm
         (delete positionId (mOpenPositions rm))
         (map_sub (mSymbolExposure rm) (mSymbol position) exposure)
         (mLastTradeTime rm)
         (sub (mTotalExposure rm) exposure)
         (add (mTodayPnL rm) pnl))
  end.

Definition GetTotalExposure (rm : CRiskManager) : binary64 := mTotalExposure rm.
Definition GetTodayPnL (rm : CRiskManager) : binary64 := mTodayPnL rm.

Definition ResetDailyStats (rm : CRiskManager) (now : Chrono.time_point) : CRiskManager :=
  set_day rm now zero.

(** The operations that touch the books, as a client can issue them. *)
Inductive op :=
| OpRegister (position : SPosition) (now : Chrono.time_point)
| OpClose (positionId : string) (exitPrice pnl : binary64)
| OpCheck (symbol : string) (side : EOrderSide) (quantity price : binary64)
          (nowDaily nowFreq : Chrono.time_point)
| OpResetDaily (now : Chrono.time_point).

Definition step (rm : CRiskManager) (o : op) : CRiskManager :=
  match o with
  | OpRegister p now => snd (RegisterPosition rm p now)
  | OpClose id x pnl => snd (ClosePosition rm id x pnl)
  | OpCheck s side q p n1 n2 => snd (CheckPositionAllowed rm s side q p n1 n2)
  | OpResetDaily now => ResetDailyStats rm now
  end.

Definition run (rm : CRiskManager) (ops : list op) : CRiskManager :=
  foldl step rm ops.

(** The exposure a position is booked with: [quantity * entryPrice], rounded. *)
Definition position_exposure (p : SPosition) : binary64 :=
  mul (mQuantity p) (mEntryPrice p).

(** Every registration among the operations is on [symbol]. *)
Definition registers_on (symbol : string) (o : op) : Prop :=
  match o with
  | OpRegister p _ => mSymbol p = symbol
  | _ => True
  end.

(** A long position of [quantity] at [entryPrice]. *)
Definition long_position (id symbol : string) (quantity entryPrice : binary64)
  : SPosition :=
  {| mSymbol := symbol; mSide := BUY; mEntryPrice := entryPrice;
     mQuantity := quantity; mEntryTime := 0; mStopLoss := zero;
     mTakeProfit := zero; mId := id; mStrategyName := "RSI Strategy";
     mCurrentPrice := entryPrice; mUnrealizedPnL := zero; mCommission := zero |}.

(** Two positions on two symbols, of 1 unit at 0.1 and 1 unit at 0.2; both
    are registered and the second is closed again. *)
Definition drift_ops : list op :=
  [ OpRegister (long_position "A" "BTCUSDT" (of_Z 1) (decimal 1 1)) 0;
    OpRegister (long_position "B" "ETHUSDT" (of_Z 1) (decimal 2 1)) 0;
    OpClose "B" (decimal 2 1) zero ].

(** The same two positions on one symbol. *)
Definition single_symbol_ops : list op :=
  [ OpRegister (long_position "A" "BTCUSDT" (of_Z 1) (decimal 1 1)) 0;
    OpRegister (long_position "B" "BTCUSDT" (of_Z 1) (decimal 2 1)) 0;
    OpClose "B" (decimal 2 1) zero ].
End Risk64.

(** * Theorems *)

(** ** Risk manager *)

(** Closed equations between rationals are settled by evaluation; the
    canonicity proof carried by a [Qc] is irrelevant ([Qc_is_canon]). *)
Ltac qc_compute :=
  first [ by vm_compute | apply Qc_is_canon; by vm_compute ].

Section RiskProofs.
Import Strategy Risk.

Lemma CheckMaxDailyLoss_books rm now :
  let rm' := snd (CheckMaxDailyLoss rm now) in
  mSymbolExposure rm' = mSymbolExposure rm ∧
  mTotalExposure rm' = mTotalExposure rm ∧
  mOpenPositions rm' = mOpenPositions rm ∧
  mActiveAlerts rm' = mActiveAlerts rm ∧
  mMaxSymbolExposure rm' = mMaxSymbolExposure rm.
Proof. unfold CheckMaxDailyLoss; simpl. by case_match. Qed.

Lemma CheckPositionAllowed_books rm symbol side quantity price n1 n2 :
  let rm' := snd (CheckPositionAllowed rm symbol side quantity price n1 n2) in
  mSymbolExposure rm' = mSymbolExposure rm ∧
  mTotalExposure rm' = mTotalExposure rm ∧
  mOpenPositions rm' = mOpenPositions rm ∧
  mActiveAlerts rm' = mActiveAlerts rm.
Proof.
  unfold CheckPositionAllowed.
  pose proof (CheckMaxDailyLoss_books rm n1) as H.
  destruct (CheckMaxDailyLoss rm n1) as [ok rm1]; simpl in H.
  destruct H as (H1 & H2 & H3 & H4 & _).
  repeat case_match; simpl; done.
Qed.

Lemma run_no_alerts ops : ∀ rm, mActiveAlerts (run rm ops) = mActiveAlerts rm.
Proof.
  unfold run. induction ops as [|o ops IH]; intros rm; simpl; [done|].
  rewrite IH. destruct o as [p now|id x pnl|s side q p n1 n2|now]; simpl.
  - unfold RegisterPosition. by case_bool_decide.
  - unfold ClosePosition. by destruct (mOpenPositions rm !! id).
  - by destruct (CheckPositionAllowed_books rm s side q p n1 n2) as (_ & _ & _ & ->).
  - done.
Qed.

Lemma GetSymbolExposure_default rm s :
  GetSymbolExposure rm s = default 0%Qc (mSymbolExposure rm !! s).
Proof. unfold GetSymbolExposure. by destruct (_ !! _). Qed.

(** In the symbol-exposure scenario the gate does return false, but the
    active-alerts list holds no SYMBOL_EXPOSURE_LIMIT alert afterwards. *)
Lemma symbol_exposure_alert_not_recorded :
  let r := CheckPositionAllowed scenario_rm "BTCUSDT" BUY (dec 1 1) (ofZ 6000)
             (120 * Chrono.ticks_per_second) (120 * Chrono.ticks_per_second) in
  GetSymbolExposure scenario_rm "BTCUSDT" = ofZ 1500 ∧
  ¬ (fst r = false ∧ symbol_exposure_alert_recorded (snd r)).
Proof.
  split; [qc_compute|].
  intros [_ (a & Ha & _)]. vm_compute in Ha. by apply elem_of_nil in Ha.
Qed.

(** C1, on the code: with max_symbol_exposure 20% of the fixed balance
    10000 and an exposure of 1500 on the symbol, a request for 0.1 at 6000
    is refused by [CheckPositionAllowed], as the claim says; but the call
    leaves the active-alerts list exactly as it was, where the claim has a
    SYMBOL_EXPOSURE_LIMIT alert recorded.  The header declares [AddAlert],
    [CheckAndGenerateAlerts] and [GetActiveAlerts]; the implementation
    defines none of them and nothing ever writes [mActiveAlerts]
    ([run_no_alerts]). *)
Theorem symbol_exposure_rejected_without_alert
    (rm : CRiskManager) (symbol : string) (side : EOrderSide)
    (nowDaily nowFreq : Chrono.time_point) :
  mMaxSymbolExposure rm = ofZ 20 →
  GetSymbolExposure rm symbol = ofZ 1500 →
  let r := CheckPositionAllowed rm symbol side (dec 1 1) (ofZ 6000) nowDaily nowFreq in
  fst r = false ∧ mActiveAlerts (snd r) = mActiveAlerts rm.
Proof.
  intros Hmax Hexp r. split.
  - subst r. unfold CheckPositionAllowed.
    pose proof (CheckMaxDailyLoss_books rm nowDaily) as H.
    destruct (CheckMaxDailyLoss rm nowDaily) as [ok rm1]; simpl in H.
    destruct H as (H1 & _ & _ & _ & H5).
    assert (CheckSymbolExposure rm1 symbol (dec 1 1 * ofZ 6000)%Qc = false) as Hc.
    { unfold CheckSymbolExposure. rewrite H1, H5, Hmax.
      unfold GetSymbolExposure in Hexp. rewrite Hexp. by vm_compute. }
    rewrite Hc. repeat case_match; done.
  - subst r.
    by destruct (CheckPositionAllowed_books rm symbol side (dec 1 1) (ofZ 6000)
                   nowDaily nowFreq) as (_ & _ & _ & ->).
Qed.

Lemma symbol_exposure_rejected_without_alert_witness :
  let r := CheckPositionAllowed scenario_rm "BTCUSDT" BUY (dec 1 1) (ofZ 6000)
             (120 * Chrono.ticks_per_second) (120 * Chrono.ticks_per_second) in
  fst r = false ∧ mActiveAlerts (snd r) = mActiveAlerts scenario_rm.
Proof.
  apply (symbol_exposure_rejected_without_alert scenario_rm "BTCUSDT" BUY);
    qc_compute.
Defined.

(** C10: closing a position id that is not in the open-positions map throws
    and leaves the whole risk-manager state as it was: open positions,
    every symbol's exposure, total exposure and today's PnL. *)
Theorem ClosePosition_unknown_id_throws
    (rm : CRiskManager) (positionId : string) (exitPrice pnl : double) :
  mOpenPositions rm !! positionId = None →
  ∃ e rm',
    ClosePosition rm positionId exitPrice pnl = (Thrown e, rm') ∧
    what e = "Position with ID '" +:+ positionId +:+ "' not found" ∧
    rm' = rm ∧
    mOpenPositions rm' = mOpenPositions rm ∧
    (∀ s, GetSymbolExposure rm' s = GetSymbolExposure rm s) ∧
    GetTotalExposure rm' = GetTotalExposure rm ∧
    GetTodayPnL rm' = GetTodayPnL rm.
Proof.
  intros Hnone. unfold ClosePosition. rewrite Hnone.
  eexists _, rm. repeat split; done.
Qed.

Lemma ClosePosition_unknown_id_throws_witness :
  ∃ e rm',
    ClosePosition scenario_rm "pos_404" (ofZ 6100) (ofZ 25) = (Thrown e, rm') ∧
    what e = "Position with ID 'pos_404' not found" ∧
    rm' = scenario_rm ∧
    mOpenPositions rm' = mOpenPositions scenario_rm ∧
    (∀ s, GetSymbolExposure rm' s = GetSymbolExposure scenario_rm s) ∧
    GetTotalExposure rm' = GetTotalExposure scenario_rm ∧
    GetTodayPnL rm' = GetTodayPnL scenario_rm.
Proof.
  apply (ClosePosition_unknown_id_throws scenario_rm "pos_404"). by vm_compute.
Defined.
End RiskProofs.

(** ** Risk manager: the books in binary64 *)

Section Risk64Proofs.
Import Strategy Binary64 Risk64.

Lemma Risk64_map_add_lookup m k d s :
  default zero (map_add m k d !! s) =
  if bool_decide (s = k) then add (default zero (m !! k)) d else default zero (m !! s).
Proof.
  unfold map_add. case_bool_decide as Hs.
  - subst s. by rewrite lookup_insert_eq.
  - by rewrite lookup_insert_ne.
Qed.

Lemma Risk64_map_sub_lookup m k d s :
  default zero (map_sub m k d !! s) =
  if bool_decide (s = k) then sub (default zero (m !! k)) d else default zero (m !! s).
Proof.
  unfold map_sub. case_bool_decide as Hs.
  - subst s. by rewrite lookup_insert_eq.
  - by rewrite lookup_insert_ne.
Qed.

Lemma Risk64_GetSymbolExposure_default rm s :
  GetSymbolExposure rm s = default zero (mSymbolExposure rm !! s).
Proof. unfold GetSymbolExposure. by destruct (_ !! _). Qed.

Lemma Risk64_CheckPositionAllowed_books rm symbol side quantity price n1 n2 :
  let rm' := snd (CheckPositionAllowed rm symbol side quantity price n1 n2) in
  mSymbolExposure rm' = mSymbolExposure rm ∧
  mTotalExposure rm' = mTotalExposure rm ∧
  mOpenPositions rm' = mOpenPositions rm.
Proof.
  unfold CheckPositionAllowed, CheckMaxDailyLoss. cbv zeta.
  destruct (bool_decide (symbol = "") || leb quantity zero || leb price zero); [done|].
  destruct (negb (CheckMaxOpenPositions rm)); [done|].
  destruct (Chrono.floor_days (mStartOfDay rm) <? Chrono.floor_days n1);
    repeat case_match; done.
Qed.

(** With every position on [symbol], that symbol's exposure and the total
    exposure go through the same additions and subtractions. *)
Definition one_symbol_books (symbol : string) (rm : CRiskManager) : Prop :=
  default zero (mSymbolExposure rm !! symbol) = mTotalExposure rm ∧
  (∀ s, s ≠ symbol → mSymbolExposure rm !! s = None) ∧
  (∀ id p, mOpenPositions rm !! id = Some p → mSymbol p = symbol).

Lemma step_one_symbol_books symbol rm o :
  registers_on symbol o → one_symbol_books symbol rm →
  one_symbol_books symbol (step rm o).
Proof.
  intros Ho (Hb & Hothers & Hopen). unfold one_symbol_books.
  destruct o as [p now|id x pnl|s side q p n1 n2|now]; cbn [step registers_on] in *.
  - unfold RegisterPosition. case_bool_decide; [done|].
    cbn [snd set_books mSymbolExposure mTotalExposure mOpenPositions].
    subst symbol. split; [|split].
    + rewrite Risk64_map_add_lookup, bool_decide_eq_true_2 by done. by rewrite Hb.
    + intros s Hs. unfold map_add. rewrite lookup_insert_ne by done. by apply Hothers.
    + intros id q Hq. destruct (decide (id = mId p)) as [->|Hne].
      * rewrite lookup_insert_eq in Hq. by injection Hq as <-.
      * rewrite lookup_insert_ne in Hq by done. by apply (Hopen id).
  - unfold ClosePosition. destruct (mOpenPositions rm !! id) as [p|] eqn:Hp; [|done].
    cbn [snd set_books mSymbolExposure mTotalExposure mOpenPositions].
    pose proof (Hopen id p Hp) as Hsym. rewrite Hsym. split; [|split].
    + rewrite Risk64_map_sub_lookup, bool_decide_eq_true_2 by done. by rewrite Hb.
    + intros s Hs. unfold map_sub. rewrite lookup_insert_ne by done. by apply Hothers.
    + intros id' q Hq. apply lookup_delete_Some in Hq as [_ Hq]. by apply (Hopen id').
  - destruct (Risk64_CheckPositionAllowed_books rm s side q p n1 n2) as (H1 & H2 & H3).
    by rewrite H1, H2, H3.
  - done.
Qed.

Lemma run_one_symbol_books symbol ops : ∀ rm,
  Forall (registers_on symbol) ops → one_symbol_books symbol rm →
  one_symbol_books symbol (run rm ops).
Proof.
  unfold run. induction ops as [|o ops IH]; intros rm Hops Hb; simpl; [done|].
  apply Forall_cons in Hops as [Ho Hops].
  by apply IH, step_one_symbol_books.
Qed.

Lemma constructor_one_symbol_books symbol now0 now1 :
  one_symbol_books symbol (constructor now0 now1).
Proof. unfold constructor, one_symbol_books. cbv zeta. by case_match. Qed.

(** In binary64 the books of two symbols drift apart: after 1 unit at 0.1
    on one symbol and 1 unit at 0.2 on another have been registered and the
    second closed, the symbols' exposures are 0.1 and 0, their sum (in
    either order) is 0.1, and the total exposure is (0.1 + 0.2) - 0.2, the
    next double but one above 0.1. *)
Lemma symbol_sum_differs_from_total :
  let rm := run (constructor 0 0) drift_ops in
  map_to_list (mSymbolExposure rm) ≡ₚ [("BTCUSDT", decimal 1 1); ("ETHUSDT", zero)] ∧
  GetTotalExposure rm = sub (add (add zero (decimal 1 1)) (decimal 2 1)) (decimal 2 1) ∧
  ∀ exposures, exposures ≡ₚ (map_to_list (mSymbolExposure rm)).*2 →
    sum_in_order exposures = decimal 1 1 ∧
    sum_in_order exposures ≠ GetTotalExposure rm.
Proof.
  cbv zeta.
  assert (map_to_list (mSymbolExposure (run (constructor 0 0) drift_ops))
          = [("ETHUSDT", zero); ("BTCUSDT", decimal 1 1)]) as Hl
    by (vm_compute; reflexivity).
  rewrite Hl. split; [apply perm_swap|]. split; [vm_compute; reflexivity|].
  intros exposures Hp. symmetry in Hp. cbn in Hp.
  apply Permutation_length_2_inv in Hp as [-> | ->]; split;
    first [ vm_compute; reflexivity | vm_compute; discriminate ].
Qed.

(** C2 (amended): each successful [RegisterPosition] adds the rounded
    product quantity × entry price to the exposure of the position's symbol
    and to the total exposure and touches no other symbol; each successful
    [ClosePosition] subtracts the rounded product of the position it closes
    from both.  Starting from a freshly constructed manager, as long as
    every registration is on one and the same symbol, the books hold at
    most that one symbol and its exposure is the total exposure, bit for
    bit (with no symbol in the books the total is zero).  With several
    symbols the two are separate running sums and can part
    ([symbol_sum_differs_from_total]). *)
Theorem exposure_books_track_contributions :
  (∀ rm p now rm',
     RegisterPosition rm p now = (Returned tt, rm') →
     let e := mul (mQuantity p) (mEntryPrice p) in
     GetSymbolExposure rm' (mSymbol p) = add (GetSymbolExposure rm (mSymbol p)) e ∧
     (∀ s, s ≠ mSymbol p → GetSymbolExposure rm' s = GetSymbolExposure rm s) ∧
     GetTotalExposure rm' = add (GetTotalExposure rm) e) ∧
  (∀ rm id exitPrice pnl rm',
     ClosePosition rm id exitPrice pnl = (Returned tt, rm') →
     ∃ p, mOpenPositions rm !! id = Some p ∧
       let e := mul (mQuantity p) (mEntryPrice p) in
       GetSymbolExposure rm' (mSymbol p) = sub (GetSymbolExposure rm (mSymbol p)) e ∧
       (∀ s, s ≠ mSymbol p → GetSymbolExposure rm' s = GetSymbolExposure rm s) ∧
       GetTotalExposure rm' = sub (GetTotalExposure rm) e) ∧
  (∀ now0 now1 ops symbol,
     Forall (registers_on symbol) ops →
     let rm := run (constructor now0 now1) ops in
     GetSymbolExposure rm symbol = GetTotalExposure rm ∧
     (∀ s, s ≠ symbol → mSymbolExposure rm !! s = None) ∧
     (∀ exposures, exposures ≡ₚ (map_to_list (mSymbolExposure rm)).*2 →
        exposures = [] ∧ GetTotalExposure rm = zero ∨
        exposures = [GetTotalExposure rm])).
Proof.
  split; [|split].
  - intros rm p now rm'. unfold RegisterPosition.
    case_bool_decide; [done|]. intros [= <-]. cbn. split; [|split; [|done]].
    + rewrite !Risk64_GetSymbolExposure_default. cbn.
      by rewrite Risk64_map_add_lookup, bool_decide_eq_true_2.
    + intros s Hs. rewrite !Risk64_GetSymbolExposure_default. cbn.
      by rewrite Risk64_map_add_lookup, bool_decide_eq_false_2.
  - intros rm id x pnl rm'. unfold ClosePosition.
    destruct (mOpenPositions rm !! id) as [p|]; [|done].
    intros [= <-]. exists p. split; [done|]. cbn. split; [|split; [|done]].
    + rewrite !Risk64_GetSymbolExposure_default. cbn.
      by rewrite Risk64_map_sub_lookup, bool_decide_eq_true_2.
    + intros s Hs. rewrite !Risk64_GetSymbolExposure_default. cbn.
      by rewrite Risk64_map_sub_lookup, bool_decide_eq_false_2.
  - intros now0 now1 ops symbol Hops rm.
    destruct (run_one_symbol_books symbol ops (constructor now0 now1) Hops
                (constructor_one_symbol_books symbol now0 now1)) as (Hb & Hothers & _).
    fold rm in Hb, Hothers. split; [|split; [exact Hothers|]].
    + by rewrite Risk64_GetSymbolExposure_default.
    + intros exposures Hp. unfold GetTotalExposure. rewrite <- Hb.
      destruct (mSymbolExposure rm !! symbol) as [x|] eqn:Hx.
      * right. assert (mSymbolExposure rm = {[ symbol := x ]}) as Hm.
        { apply map_eq. intros s. destruct (decide (s = symbol)) as [->|Hs].
          - by rewrite lookup_singleton_eq.
          - rewrite lookup_singleton_ne by done. by apply Hothers. }
        rewrite Hm, map_to_list_singleton in Hp. cbn in Hp |- *.
        by apply Permutation_singleton_r in Hp.
      * left. assert (mSymbolExposure rm = ∅) as Hm.
        { apply map_eq. intros s. rewrite lookup_empty.
          destruct (decide (s = symbol)) as [->|Hs]; [done|by apply Hothers]. }
        rewrite Hm, map_to_list_empty in Hp. cbn in Hp |- *.
        by apply Permutation_nil_r in Hp.
Qed.

Lemma exposure_books_track_contributions_witness :
  let rm := run (constructor 0 0) single_symbol_ops in
  GetSymbolExposure rm "BTCUSDT" = GetTotalExposure rm ∧
  (∀ s, s ≠ "BTCUSDT" → mSymbolExposure rm !! s = None) ∧
  (∀ exposures, exposures ≡ₚ (map_to_list (mSymbolExposure rm)).*2 →
     exposures = [] ∧ GetTotalExposure rm = zero ∨
     exposures = [GetTotalExposure rm]).
Proof.
  destruct exposure_books_track_contributions as (_ & _ & Hone).
  apply (Hone 0 0 single_symbol_ops "BTCUSDT").
  repeat constructor.
Defined.
End Risk64Proofs.

(** ** RSI kernel *)

Section RSIKernelProofs.
Import RSIStrategy.

Lemma to_size_t_small z : 0 ≤ z < 2 ^ 64 → to_size_t z = z.
Proof. intros H. unfold to_size_t. by apply Z.mod_small. Qed.

Lemma Qc_ltb_spec x y : Qc_ltb x y = true ↔ (x < y)%Qc.
Proof. unfold Qc_ltb. apply bool_decide_eq_true. Qed.

Lemma Qc_ltb_false x y : Qc_ltb x y = false ↔ (y ≤ x)%Qc.
Proof.
  unfold Qc_ltb. rewrite bool_decide_eq_false. split.
  - apply Qcnot_lt_le.
  - intros H1 H2. by apply (Qclt_not_le x y).
Qed.

Lemma gain_is_max (d : Qc) :
  (if Qc_ltb 0%Qc d then d else 0%Qc) = Qc_max d 0%Qc.
Proof.
  unfold Qc_max. destruct (Qc_ltb 0%Qc d) eqn:H1, (Qc_ltb d 0%Qc) eqn:H2; try done.
  - apply Qc_ltb_spec in H1, H2. exfalso. by apply (Qclt_not_le _ _ H1), Qclt_le_weak.
  - apply Qc_ltb_false in H1, H2. by apply Qcle_antisym.
Qed.

Lemma Qcopp_0 : (- 0)%Qc = 0%Qc.
Proof. by apply Qc_is_canon. Qed.

Lemma loss_is_max (d : Qc) :
  (if Qc_ltb d 0%Qc then (- d)%Qc else 0%Qc) = Qc_max (- d)%Qc 0%Qc.
Proof.
  unfold Qc_max. destruct (Qc_ltb d 0%Qc) eqn:H1, (Qc_ltb (- d)%Qc 0%Qc) eqn:H2; try done.
  - apply Qc_ltb_spec in H1, H2. exfalso.
    apply Qclt_le_weak, Qcopp_le_compat in H2.
    rewrite Qcopp_involutive, Qcopp_0 in H2. by apply (Qclt_not_le _ _ H1).
  - apply Qc_ltb_false in H1, H2.
    apply Qcopp_le_compat in H1. rewrite Qcopp_0 in H1. by apply Qcle_antisym.
Qed.

Lemma gains_and_losses_maps prices idx :
  gains_and_losses prices idx =
    ((λ d, Qc_max d 0%Qc) <$> changes_at prices idx,
     (λ d, Qc_max (- d)%Qc 0%Qc) <$> changes_at prices idx).
Proof.
  induction idx as [|i idx IH]; simpl; [done|].
  rewrite IH. by rewrite gain_is_max, loss_is_max.
Qed.

Lemma at_lookup (l : list Qc) (i : nat) x : l !! i = Some x → at_ l (Z.of_nat i) = x.
Proof.
  intros H. unfold at_. rewrite Nat2Z.id, H.
  destruct (Z.ltb_spec (Z.of_nat i) 0); [lia|done].
Qed.

(** The index loop of the kernel visits exactly the consecutive changes of
    the last [p+1] closes. *)
Lemma changes_at_last_n (x : list Qc) (p : nat) :
  (p + 1 ≤ length x)%nat →
  changes_at x (seqZ (dsize x - Z.of_nat p) (Z.of_nat p))
  = consecutive_changes (last_n (p + 1) x).
Proof.
  intros Hlen. unfold changes_at, consecutive_changes, last_n, dsize.
  apply list_eq. intros k.
  rewrite list_lookup_fmap, lookup_zip_with, lookup_tail, !lookup_drop.
  destruct (decide (k < p)%nat) as [Hk|Hk].
  - rewrite lookup_seqZ_lt by lia. simpl.
    destruct (lookup_lt_is_Some_2 x (length x - (p + 1) + k)%nat) as [a Ha]; [lia|].
    destruct (lookup_lt_is_Some_2 x (length x - (p + 1) + S k)%nat) as [b Hb]; [lia|].
    rewrite Ha, Hb. simpl. f_equal.
    replace (Z.of_nat (length x) - Z.of_nat p + Z.of_nat k)
      with (Z.of_nat (length x - (p + 1) + S k)%nat) by lia.
    rewrite (at_lookup _ _ _ Hb).
    replace (Z.of_nat (length x - (p + 1) + S k)%nat - 1)
      with (Z.of_nat (length x - (p + 1) + k)%nat) by lia.
    by rewrite (at_lookup _ _ _ Ha).
  - rewrite lookup_seqZ_ge by lia. simpl.
    rewrite (lookup_ge_None_2 x (length x - (p + 1) + S k)%nat) by lia.
    by destruct (x !! _).
Qed.

Lemma at_fmap_seqZ (v : list Qc) : at_ v <$> seqZ 0 (dsize v) = v.
Proof.
  unfold dsize. apply list_eq. intros k. rewrite list_lookup_fmap.
  destruct (v !! k) as [a|] eqn:Hk.
  - rewrite lookup_seqZ_lt by (apply lookup_lt_Some in Hk; lia).
    rewrite Z.add_0_l. simpl. by rewrite (at_lookup _ _ _ Hk).
  - rewrite lookup_seqZ_ge; [done|]. apply lookup_ge_None in Hk. lia.
Qed.

Lemma foldl_Qcplus_shift (l : list Qc) (a : Qc) :
  foldl Qcplus a l = (a + foldr Qcplus 0%Qc l)%Qc.
Proof.
  revert a. induction l as [|b l IH]; intros a; simpl.
  - ring.
  - rewrite IH. ring.
Qed.

(** On [p ≥ 1] values the smoothing is their simple average. *)
Lemma CalculateWildersSmoothing_average (values : list Qc) (period : Z) :
  1 ≤ period → dsize values = period →
  CalculateWildersSmoothing values period = (sum_list values / ofZ period)%Qc.
Proof.
  intros Hp Hlen. unfold CalculateWildersSmoothing.
  destruct values as [|v values]; [unfold dsize in Hlen; simpl in Hlen; lia|].
  rewrite Hlen, Z.min_id. unfold index_range. rewrite Z.sub_0_r.
  rewrite <- (foldl_fmap Qcplus 0%Qc _ (at_ (v :: values))).
  rewrite <- Hlen at 1. rewrite at_fmap_seqZ.
  rewrite foldl_Qcplus_shift. unfold sum_list. f_equal. ring.
Qed.

Lemma length_consecutive_changes_last_n (x : list Qc) (p : nat) :
  (p + 1 ≤ length x)%nat →
  length (consecutive_changes (last_n (p + 1) x)) = p.
Proof.
  intros Hlen. unfold consecutive_changes, last_n.
  rewrite length_zip_with.
  pose proof (length_drop x (length x - (p + 1))) as Hl.
  destruct (drop (length x - (p + 1)) x) as [|a l]; cbn [length tail] in *; lia.
Qed.

(** C3: for every price sequence and every period [p ≥ 1] (an [int], with
    [p + 1] representable), the RSI kernel computes what the specification
    describes: 50 on fewer than [p+1] closes; otherwise, from the [p]
    consecutive changes of the last [p+1] closes, the simple averages of the
    gains [max(Δ,0)] and of the losses [max(−Δ,0)], 100 when the average
    loss is zero and [100 − 100/(1 + avg_gain/avg_loss)] otherwise. *)
Theorem CalculateRSI_meets_spec (x : list double) (p : Z) :
  1 ≤ p ≤ 2147483646 →
  dsize x < 2 ^ 64 →
  CalculateRSI x p = rsi_spec x (Z.to_nat p).
Proof.
  intros Hp Hx. unfold CalculateRSI, rsi_spec.
  rewrite to_size_t_small by lia.
  assert (0 ≤ dsize x) as Hx0 by (unfold dsize; lia).
  destruct (Z.ltb_spec (dsize x) (p + 1)) as [Hlt|Hge].
  - destruct (Nat.ltb_spec (length x) (Z.to_nat p + 1)) as [_|Hn]; [done|].
    unfold dsize in Hlt. lia.
  - destruct (Nat.ltb_spec (length x) (Z.to_nat p + 1)) as [Hn|Hn];
      [unfold dsize in Hge; lia|].
    rewrite to_size_t_small by lia. unfold index_range.
    replace (dsize x - (dsize x - p)) with p by lia.
    rewrite gains_and_losses_maps.
    replace (seqZ (dsize x - p) p)
      with (seqZ (dsize x - Z.of_nat (Z.to_nat p)) (Z.of_nat (Z.to_nat p)))
      by (rewrite Z2Nat.id by lia; done).
    rewrite (changes_at_last_n x (Z.to_nat p) Hn).
    pose proof (length_consecutive_changes_last_n x (Z.to_nat p) Hn) as Hlen.
    rewrite !CalculateWildersSmoothing_average;
      try lia; try (unfold dsize; rewrite length_fmap, Hlen; lia).
    rewrite Z2Nat.id by lia. unfold Qc_eqb. done.
Qed.

Lemma CalculateRSI_meets_spec_witness :
  CalculateRSI (ofZ <$> [100; 104; 94; 100]) 2
  = rsi_spec (ofZ <$> [100; 104; 94; 100]) (Z.to_nat 2).
Proof.
  apply (CalculateRSI_meets_spec (ofZ <$> [100; 104; 94; 100]) 2);
    [lia | by vm_compute].
Defined.
End RSIKernelProofs.

(** ** RSI rolling buffers *)

Section RSIBufferProofs.
Import RSIStrategy.

Lemma trim_front_bound {A} (maxSize : Z) (d : list A) :
  0 ≤ maxSize → dsize (trim_front maxSize d) ≤ maxSize.
Proof.
  intros Hm. unfold trim_front, dsize. rewrite length_drop. lia.
Qed.

Lemma UpdateGainsAndLosses_frame s c p :
  let s' := UpdateGainsAndLosses s c p in
  mParams s' = mParams s ∧ mRSIHistory s' = mRSIHistory s ∧
  mSignalHistory s' = mSignalHistory s ∧ mClosePrices s' = mClosePrices s.
Proof. done. Qed.

Lemma push_close_frame s kline :
  let s' := push_close s kline in
  mParams s' = mParams s ∧ mRSIHistory s' = mRSIHistory s ∧
  mSignalHistory s' = mSignalHistory s.
Proof. unfold push_close. simpl. by destruct (last (mClosePrices s)). Qed.

Lemma UpdateClosePrices_frame klines : ∀ s,
  let s' := UpdateClosePrices s klines in
  mParams s' = mParams s ∧ mRSIHistory s' = mRSIHistory s ∧
  mSignalHistory s' = mSignalHistory s.
Proof.
  unfold UpdateClosePrices. simpl.
  induction klines as [|k klines IH]; intros s; simpl; [done|].
  destruct (IH (push_close s k)) as (-> & -> & ->). apply push_close_frame.
Qed.

Lemma UpdateClosePrices_bound s klines :
  - 2147483648 ≤ mRSIPeriod (mParams s) * 3 ≤ 2147483647 →
  dsize (mClosePrices (UpdateClosePrices s klines))
  ≤ Z.max (mRSIPeriod (mParams s) * 3) 200.
Proof.
  intros Hp. destruct (UpdateClosePrices_frame klines s) as (Hpar & _).
  unfold UpdateClosePrices in *. simpl in *. rewrite Hpar.
  rewrite to_size_t_small by lia. apply trim_front_bound. lia.
Qed.

Lemma CalculateRSIValues_frame s prices now :
  let s' := CalculateRSIValues s prices now in
  mParams s' = mParams s ∧ mRSIHistory s' = mRSIHistory s ∧
  mSignalHistory s' = mSignalHistory s ∧ mClosePrices s' = mClosePrices s.
Proof.
  unfold CalculateRSIValues. simpl.
  destruct (_ <? _); [done|]. by destruct (gains_and_losses _ _).
Qed.

Lemma Update_within_bounds s klines ticker clk :
  - 2147483648 ≤ mRSIPeriod (mParams s) * 3 ≤ 2147483647 →
  within_bounds s →
  within_bounds (snd (Update s klines ticker clk)) ∧
  mParams (snd (Update s klines ticker clk)) = mParams s.
Proof.
  intros Hp (Hh & Hs & Hc). unfold Update.
  destruct (negb (mIsInitialized s) || bool_decide (klines = [])); [done|].
  pose proof (UpdateClosePrices_bound s klines Hp) as Hc1.
  destruct (UpdateClosePrices_frame klines s) as (Hp1 & Hh1 & Hs1).
  remember (UpdateClosePrices s klines) as s1 eqn:Es1.
  destruct (negb (HasSufficientData s1)).
  { cbn [snd]. unfold within_bounds. rewrite Hp1, Hh1, Hs1. done. }
  remember (set_snapshots s1 (mCurrentRSIValues s1) (mCurrentRSIValues s1)
              (mCurrentZone s1) (mCurrentZone s1)) as s2 eqn:Es2.
  assert (mParams s2 = mParams s ∧ mRSIHistory s2 = mRSIHistory s ∧
          mSignalHistory s2 = mSignalHistory s ∧ mClosePrices s2 = mClosePrices s1)
    as (Hp2 & Hh2 & Hs2 & Hc2) by (by subst s2).
  destruct (CalculateRSIValues_frame s2 (mClosePrices s2) (t_values clk))
    as (Hp3 & Hh3 & Hs3 & Hc3).
  remember (CalculateRSIValues s2 (mClosePrices s2) (t_values clk)) as s3 eqn:Es3.
  destruct (negb (IsValidRSIValues (mCurrentRSIValues s3))).
  { cbn [snd]. unfold within_bounds.
    rewrite Hp3, Hh3, Hs3, Hc3, Hp2, Hh2, Hs2, Hc2. done. }
  assert (dsize (trim_front 500 (push_back (mRSIHistory s3) (mCurrentRSIValues s3))) ≤ 500)
    as Hh5 by (by apply trim_front_bound).
  destruct (negb _ && _); cbn [snd]; unfold within_bounds; simpl;
    rewrite ?Hp3, ?Hs3, ?Hc3, ?Hp2, ?Hs2, ?Hc2; (split; [|done]);
    (split; [done|]); (split; [|done]); [|done].
  by apply trim_front_bound.
Qed.

Lemma run_within_bounds calls : ∀ s,
  - 2147483648 ≤ mRSIPeriod (mParams s) * 3 ≤ 2147483647 →
  within_bounds s →
  within_bounds (run s calls).
Proof.
  unfold run. induction calls as [|c calls IH]; intros s Hp Hb; simpl; [done|].
  destruct (Update_within_bounds s c.1.1 c.1.2 c.2 Hp Hb) as (Hb' & Hp').
  apply IH; [by rewrite Hp'|done].
Qed.

(** C7: in every state a sequence of [Update] calls reaches from an
    initialized RSI strategy (each call appending any number of candles),
    the indicator-value history holds at most 500 entries, the signal
    history at most 100, and the close-price buffer at most
    [max(period×3, 200)]; [period × 3] is assumed to be representable as an
    [int], as the code evaluates it in that type. *)
Theorem RSI_buffers_bounded (params : SRSIParams)
    (calls : list (list API.SKline * API.STicker * UpdateClock)) :
  - 2147483648 ≤ mRSIPeriod params * 3 ≤ 2147483647 →
  let s := run (initialized params) calls in
  (length (mRSIHistory s) ≤ 500)%nat ∧
  (length (mSignalHistory s) ≤ 100)%nat ∧
  dsize (mClosePrices s) ≤ Z.max (mRSIPeriod params * 3) 200.
Proof.
  intros Hp s.
  assert (within_bounds (initialized params)) as H0.
  { unfold within_bounds, dsize. simpl. lia. }
  pose proof (run_within_bounds calls (initialized params) Hp H0) as (H1 & H2 & H3).
  assert (mParams s = params) as Hpar.
  { subst s. clear H0 H1 H2 H3. unfold run.
    assert (∀ s0, - 2147483648 ≤ mRSIPeriod (mParams s0) * 3 ≤ 2147483647 →
              within_bounds s0 →
              mParams (foldl (λ s c, (Update s c.1.1 c.1.2 c.2).2) s0 calls) = mParams s0)
      as Hgen.
    { induction calls as [|c calls IH]; intros s0 Hp0 Hb0; simpl; [done|].
      destruct (Update_within_bounds s0 c.1.1 c.1.2 c.2 Hp0 Hb0) as (Hb' & Hp').
      rewrite IH; [done|by rewrite Hp'|done]. }
    apply (Hgen (initialized params)); [done|].
    unfold within_bounds, dsize. simpl. lia. }
  fold s in H1, H2, H3. rewrite Hpar in H3. unfold dsize in H1, H2.
  repeat split; [lia|lia|done].
Qed.

Lemma RSI_buffers_bounded_witness :
  let s := run (initialized scenario_params) scenario_calls in
  (length (mRSIHistory s) ≤ 500)%nat ∧
  (length (mSignalHistory s) ≤ 100)%nat ∧
  dsize (mClosePrices s) ≤ Z.max (mRSIPeriod scenario_params * 3) 200.
Proof.
  apply (RSI_buffers_bounded scenario_params scenario_calls). simpl. lia.
Defined.
End RSIBufferProofs.

(** ** RSI signal classification *)

Section RSIClassificationProofs.
Import RSIStrategy.

Lemma DetectZoneTransition_rules s currentZone previousZone values :
  DetectZoneTransition s currentZone previousZone values
  = first_match [ zone_entry_rule currentZone previousZone;
                  zone_exit_rule currentZone previousZone;
                  extreme_reversal_rule s currentZone ].
Proof.
  unfold DetectZoneTransition, zone_entry_rule, zone_exit_rule, extreme_reversal_rule.
  destruct currentZone, previousZone; simpl; try done;
    destruct (IsRSIReversing s 3); done.
Qed.

Lemma first_match_app rules1 rules2 :
  first_match (rules1 ++ rules2)
  = if bool_decide (first_match rules1 = NONE) then first_match rules2
    else first_match rules1.
Proof.
  induction rules1 as [|r rules1 IH]; simpl; [done|].
  destruct (bool_decide (r = NONE)) eqn:Hr; [done|]. by rewrite Hr.
Qed.

(** Once momentum has answered [NONE], both sides try the three zone rules
    and then the divergence rule. *)
Ltac zones_then_divergence s :=
  change (bool_decide (NONE = NONE)) with true;
  rewrite !(DetectZoneTransition_rules s (mCurrentZone s) (mPreviousZone s));
  cbn [first_match];
  repeat (case_bool_decide; cbn [andb]; try done);
  destruct (mDivergenceDetectionEnabled s); try done;
  repeat case_match; try done; congruence.

(** [Update] is its preparation, the classification and the emission. *)
Lemma Update_Prepare s klines ticker clk :
  Update s klines ticker clk =
  match Prepare s klines clk with
  | inl (message, s') => (hold s' ticker clk message, s')
  | inr s5 => Emit s5 (ClassifySignal s5 (t_divergence clk)) ticker clk
  end.
Proof.
  unfold Update, Prepare, Emit.
  destruct (negb (mIsInitialized s) || bool_decide (klines = [])); [reflexivity|].
  destruct (negb (HasSufficientData _)); [reflexivity|].
  destruct (negb (IsValidRSIValues _)); [reflexivity|].
  cbv zeta. reflexivity.
Qed.





(** The classification code on its own tries momentum first: whatever the
    two snapshots and zones it is given, its answer is the first match in
    the order momentum, zone-entry, zone-exit, extreme reversal,
    divergence. *)
Lemma ClassifySignal_momentum_first (s : CRSIStrategy) (now : Chrono.time_point) :
  zones_coherent s →
  ClassifySignal s now = classify_momentum_first s now.
Proof.
  intros Hco.
  unfold ClassifySignal, classify_momentum_first, AnalyzeRSISignal, recorded_momentum_rule,
    divergence_rule, zones_coherent in *.
  destruct (IsValidRSIValues (mCurrentRSIValues s)) eqn:Hv1;
    destruct (IsValidRSIValues (mPreviousRSIValues s)) eqn:Hv2; cbn [negb orb andb].
  - destruct (Hco eq_refl eq_refl) as [<- <-].
    destruct (DetectMomentumSignal s _ _) eqn:Hm; cbn [first_match]; try done.
    cbn [negb]. zones_then_divergence s.
  - zones_then_divergence s.
  - zones_then_divergence s.
  - zones_then_divergence s.
Qed.

(** Handed snapshots that carry a recorded change, the classification code
    prefers the momentum signal to a zone entry.  [Update] never hands it
    such snapshots: see [Prepare_settled]. *)
Lemma ClassifySignal_with_recorded_change :
  zone_entry_rule (mCurrentZone entry_with_bearish_momentum)
                  (mPreviousZone entry_with_bearish_momentum) = BUY_OVERSOLD ∧
  ClassifySignal entry_with_bearish_momentum 0 = MOMENTUM_BEARISH ∧
  zone_entry_rule (mCurrentZone entry_with_bullish_momentum)
                  (mPreviousZone entry_with_bullish_momentum) = BUY_OVERSOLD ∧
  ClassifySignal entry_with_bullish_momentum 0 = MOMENTUM_BULLISH.
Proof. repeat apply conj; vm_compute; reflexivity. Qed.








Lemma push_close_config s kline :
  let s' := push_close s kline in
  mName s' = mName s ∧ mMinRSIChange s' = mMinRSIChange s.
Proof. unfold push_close. simpl. by destruct (last (mClosePrices s)). Qed.

Lemma UpdateClosePrices_config klines : ∀ s,
  let s' := UpdateClosePrices s klines in
  mName s' = mName s ∧ mMinRSIChange s' = mMinRSIChange s.
Proof.
  unfold UpdateClosePrices. simpl.
  induction klines as [|k klines IH]; intros s; simpl; [done|].
  destruct (IH (push_close s k)) as (-> & ->). apply push_close_config.
Qed.

Lemma CalculateRSIValues_config s prices now :
  let s' := CalculateRSIValues s prices now in
  mName s' = mName s ∧ mMinRSIChange s' = mMinRSIChange s.
Proof.
  unfold CalculateRSIValues. simpl.
  destruct (_ <? _); [done|]. by destruct (gains_and_losses _ _).
Qed.

(** What the preparation leaves as it found it. *)
Lemma Prepare_frame s klines clk :
  match Prepare s klines clk with
  | inl (_, s') | inr s' =>
      mSignalHistory s' = mSignalHistory s ∧ mMinRSIChange s' = mMinRSIChange s ∧
      mName s' = mName s
  end.
Proof.
  unfold Prepare.
  destruct (negb (mIsInitialized s) || bool_decide (klines = [])); [done|].
  destruct (UpdateClosePrices_frame klines s) as (_ & _ & Hs1).
  destruct (UpdateClosePrices_config klines s) as (Hn1 & Hm1).
  remember (UpdateClosePrices s klines) as s1 eqn:Es1.
  destruct (negb (HasSufficientData s1)); [done|].
  remember (set_snapshots s1 (mCurrentRSIValues s1) (mCurrentRSIValues s1)
              (mCurrentZone s1) (mCurrentZone s1)) as s2 eqn:Es2.
  assert (mSignalHistory s2 = mSignalHistory s ∧ mMinRSIChange s2 = mMinRSIChange s ∧
          mName s2 = mName s) as (Hs2 & Hm2 & Hn2) by (by subst s2).
  destruct (CalculateRSIValues_frame s2 (mClosePrices s2) (t_values clk))
    as (_ & _ & Hs3 & _).
  destruct (CalculateRSIValues_config s2 (mClosePrices s2) (t_values clk)) as (Hn3 & Hm3).
  remember (CalculateRSIValues s2 (mClosePrices s2) (t_values clk)) as s3 eqn:Es3.
  destruct (negb (IsValidRSIValues (mCurrentRSIValues s3))); cbn;
    by rewrite Hs3, Hm3, Hn3.
Qed.




End RSIClassificationProofs.

(** ** Signal throttle *)

Section SpacingProofs.
Import Spacing.
Context {E T : Type}.
Variable type_of : E → T.
Variable time_of : E → Chrono.time_point.
Variable cooldown : Z.
Hypothesis cooldown_pos : 0 < cooldown.





End SpacingProofs.

Section ThrottleProofs.
Import Spacing.





(** C5, on the code: the throttle does not keep two emissions of one kind
    the cooldown apart.  [ShouldGenerateSignal], written to avoid the same
    signal within the window, compares the candidate with the most recent
    entry of the history only.  The RSI strategy, fed five candles in three
    [Update] calls one minute apart (the clock never running backwards),
    records BUY_OVERSOLD, BUY_OVERSOLD_EXIT, BUY_OVERSOLD: two emissions of
    the same kind two minutes apart, inside the ten-minute window; as
    generic signals the three are BUY, BUY, BUY. *)
Lemma same_kind_twice_within_cooldown :
  let h := RSIStrategy.mSignalHistory
             (RSIStrategy.run (RSIStrategy.initialized RSIStrategy.scenario_params)
                RSIStrategy.scenario_calls) in
  Forall (λ c, RSIStrategy.t_check c.2 ≤ RSIStrategy.t_add c.2)
         RSIStrategy.scenario_calls ∧
  ((λ e, (RSIStrategy.sh_mType e, RSIStrategy.sh_mTimestamp e)) <$> h
   = [ (RSIStrategy.BUY_OVERSOLD, 0);
       (RSIStrategy.BUY_OVERSOLD_EXIT, Chrono.ticks_per_minute);
       (RSIStrategy.BUY_OVERSOLD, 2 * Chrono.ticks_per_minute) ]) ∧
  ((λ e, RSIStrategy.to_general (RSIStrategy.sh_mType e)) <$> h
   = [ Strategy.SIG_BUY; Strategy.SIG_BUY; Strategy.SIG_BUY ]) ∧
  ¬ all_pairs_spaced RSIStrategy.sh_mType RSIStrategy.sh_mTimestamp 10 h ∧
  ¬ all_pairs_spaced (λ e, RSIStrategy.to_general (RSIStrategy.sh_mType e))
      RSIStrategy.sh_mTimestamp 10 h.
Proof.
  intros h.
  assert ((λ e, (RSIStrategy.sh_mType e, RSIStrategy.sh_mTimestamp e)) <$> h
          = [ (RSIStrategy.BUY_OVERSOLD, 0);
              (RSIStrategy.BUY_OVERSOLD_EXIT, Chrono.ticks_per_minute);
              (RSIStrategy.BUY_OVERSOLD, 2 * Chrono.ticks_per_minute) ]) as Hh
    by (by vm_compute).
  split; [|split; [done|split; [by vm_compute|split]]].
  - repeat constructor; by vm_compute.
  - intros Hall.
    destruct h as [|a [|m [|b [|]]]]; try discriminate Hh.
    injection Hh as Ha1 Ha2 _ _ Hb1 Hb2.
    specialize (Hall 0%nat 2%nat a b ltac:(lia) eq_refl eq_refl ltac:(congruence)).
    rewrite Ha2, Hb2 in Hall. by vm_compute in Hall.
  - intros Hall.
    destruct h as [|a [|m [|b [|]]]]; try discriminate Hh.
    injection Hh as Ha1 Ha2 _ _ Hb1 Hb2.
    specialize (Hall 0%nat 2%nat a b ltac:(lia) eq_refl eq_refl
                  ltac:(cbn beta; by rewrite Ha1, Hb1)).
    rewrite Ha2, Hb2 in Hall. by vm_compute in Hall.
Qed.


End ThrottleProofs.

(** ** SMA signal classification *)

Section SMAProofs.
Import SMAStrategy.

Lemma DetectTripleMASignals_none s current previous :
  DetectTripleMASignals s current previous = NONE.
Proof.
  unfold DetectTripleMASignals.
  destruct (negb (bool_decide (mConfiguration s = TRIPLE_MA))); [done|].
  by destruct (IsTripleAlignment s true), (IsTripleAlignment s false).
Qed.

Lemma AnalyzeSMASignal_not_triple s current previous :
  AnalyzeSMASignal s current previous ≠ TRIPLE_ALIGNMENT_BULL ∧
  AnalyzeSMASignal s current previous ≠ TRIPLE_ALIGNMENT_BEAR.
Proof.
  unfold AnalyzeSMASignal. rewrite DetectTripleMASignals_none.
  destruct (negb _ || negb _); [split; discriminate|].
  unfold DetectCrossover.
  destruct (IsGoldenCross current previous);
    [change (negb (bool_decide (GOLDEN_CROSS = NONE))) with true; cbv iota;
     split; discriminate|].
  destruct (IsDeathCross current previous);
    [change (negb (bool_decide (DEATH_CROSS = NONE))) with true; cbv iota;
     split; discriminate|].
  change (negb (bool_decide (NONE = NONE))) with false. cbv iota.
  unfold DetectTrendSignals.
  destruct (_ && _);
    [change (negb (bool_decide (TREND_ACCELERATION = NONE))) with true; cbv iota;
     split; discriminate|].
  destruct (_ && _);
    [change (negb (bool_decide (TREND_DECELERATION = NONE))) with true; cbv iota;
     split; discriminate|].
  destruct (IsPullbackOpportunity s true);
    [change (negb (bool_decide (PULLBACK_BUY = NONE))) with true; cbv iota;
     split; discriminate|].
  destruct (IsPullbackOpportunity s false);
    [change (negb (bool_decide (PULLBACK_SELL = NONE))) with true; cbv iota;
     split; discriminate|].
  change (negb (bool_decide (NONE = NONE))) with false. cbv iota.
  destruct (bool_decide (mConfiguration s = TRIPLE_MA)); split; discriminate.
Qed.

(** C6, on the code: [DetectTripleMASignals] tests the alignment against its
    own negation and so never reports one; no [Update] ever classifies a
    signal as TRIPLE_ALIGNMENT_BULL or TRIPLE_ALIGNMENT_BEAR.  In the
    triple-MA session, the second update sees [fast > slow > long] become
    true (16 > 14 > 12.5, after 11, 10, 12.5), no crossover or trend rule
    matches, and the update returns HOLD and records nothing. *)
Theorem triple_alignment_never_signalled :
  (∀ s current previous, DetectTripleMASignals s current previous = NONE) ∧
  (∀ s current previous,
     AnalyzeSMASignal s current previous ≠ TRIPLE_ALIGNMENT_BULL ∧
     AnalyzeSMASignal s current previous ≠ TRIPLE_ALIGNMENT_BEAR) ∧
  (let s := triple_at_classification in
   Prepare triple_before [candle 4 20] (clock_at Chrono.ticks_per_minute) = inr s ∧
   mConfiguration s = TRIPLE_MA ∧
   aligned_bull (mPreviousSMAValues s) = false ∧
   aligned_bull (mCurrentSMAValues s) = true ∧
   IsValidSMAValues s (mCurrentSMAValues s) = true ∧
   IsValidSMAValues s (mPreviousSMAValues s) = true ∧
   DetectCrossover (mCurrentSMAValues s) (mPreviousSMAValues s) = NONE ∧
   DetectTrendSignals s (mCurrentSMAValues s) (mPreviousSMAValues s) = NONE ∧
   AnalyzeSMASignal s (mCurrentSMAValues s) (mPreviousSMAValues s) = NONE ∧
   Signal.mType (fst triple_update) = Strategy.SIG_HOLD ∧
   mSignalHistory (snd triple_update) = []).
Proof.
  split; [apply DetectTripleMASignals_none|].
  split; [apply AnalyzeSMASignal_not_triple|].
  cbv zeta. repeat apply conj; vm_compute; reflexivity.
Qed.
End SMAProofs.

(** ** Strategy engine *)

Section EngineProofs.
Import Strategy API Signal StrategyEngine.
Context {IStrategy : Type}.
Variable Update : IStrategy → list SKline → STicker → outcome SSignal * IStrategy.
Variable ValidateSignal : IStrategy → SSignal → outcome bool.

(** C9: on a registered strategy, [ExecuteStrategy]
    - returns a HOLD signal with an explanatory message and leaves the
      engine, the strategy and the call trace untouched ([Update] is not
      invoked) when the strategy's state is not ACTIVE;
    - degrades to HOLD a signal returned by [Update] that fails
      [ValidateStrategy] or the strategy's [ValidateSignal];
    - when [Update] throws, sets the strategy's state to ERROR and returns
      a synthesized HOLD signal carrying the error message, instead of
      propagating the exception. *)
Theorem ExecuteStrategy_contract
    (engine : @CStrategyEngine IStrategy) (strategyName : string)
    (strategy : IStrategy) (klines : list SKline) (ticker : STicker)
    (now : Chrono.time_point) :
  mStrategies engine !! strategyName = Some strategy →
  let state := default INACTIVE (mStrategyStates engine !! strategyName) in
  let r := ExecuteStrategy Update ValidateSignal engine strategyName klines ticker now in
  (state ≠ ACTIVE →
     ∃ signal, r = (Returned signal, engine) ∧
       mType signal = SIG_HOLD ∧ mMessage signal = "Strategy is not active") ∧
  (state = ACTIVE →
     ∀ strategy',
       (∀ signal,
          Update strategy klines ticker = (Returned signal, strategy') →
          ValidateStrategy (after_Update engine strategyName strategy') strategyName = false
          ∨ ValidateSignal strategy' signal = Returned false →
          ∃ out engine', r = (Returned out, engine') ∧
            mType out = SIG_HOLD ∧ mMessage out = "Signal validation failed") ∧
       (∀ e,
          Update strategy klines ticker = (Thrown e, strategy') →
          ∃ out engine', r = (Returned out, engine') ∧
            mType out = SIG_HOLD ∧
            mMessage out = "Execution error: " +:+ what e ∧
            mStrategyStates engine' !! strategyName = Some ERROR)).
Proof.
  intros Hreg state r. subst r. unfold ExecuteStrategy. rewrite Hreg. fold state.
  split.
  - intros Hstate. rewrite bool_decide_eq_false_2 by done. cbn [negb].
    eexists. split; [reflexivity|]. done.
  - intros Hstate. rewrite bool_decide_eq_true_2 by done. cbn [negb].
    intros strategy'. split.
    + intros signal HU Hfail. rewrite HU. fold (after_Update engine strategyName strategy').
      destruct (ValidateStrategy (after_Update engine strategyName strategy') strategyName)
        eqn:Hvs; cbn [negb].
      * destruct Hfail as [Hfail|Hfail]; [done|]. rewrite Hfail. cbn [negb].
        unfold deliver. eexists _, _. split; [reflexivity|]. done.
      * unfold deliver. eexists _, _. split; [reflexivity|]. done.
    + intros e HU. rewrite HU. unfold on_exception.
      eexists _, _. split; [reflexivity|]. cbn. split; [done|]. split; [done|].
      apply lookup_insert_eq.
Qed.
End EngineProofs.

Section EngineWitness.
Import Strategy API Signal StrategyEngine.

Lemma ExecuteStrategy_contract_witness :
  (∃ signal,
     ExecuteStrategy (rsi_Update first_call.2) rsi_ValidateSignal (rsi_engine PAUSED)
       "RSI Strategy" first_call.1.1 first_call.1.2 0
     = (Returned signal, rsi_engine PAUSED) ∧
     mType signal = SIG_HOLD ∧ mMessage signal = "Strategy is not active") ∧
  (∃ out engine',
     ExecuteStrategy (rsi_Update first_call.2) rsi_ValidateSignal (rsi_engine ACTIVE)
       "RSI Strategy" first_call.1.1 first_call.1.2 0
     = (Returned out, engine') ∧
     mType out = SIG_HOLD ∧ mMessage out = "Signal validation failed") ∧
  (∃ out engine',
     ExecuteStrategy failing_Update (λ _ _, Returned true) failing_engine
       "Broken" first_call.1.1 first_call.1.2 0
     = (Returned out, engine') ∧
     mType out = SIG_HOLD ∧ mMessage out = "Execution error: feed unavailable" ∧
     mStrategyStates engine' !! "Broken" = Some ERROR).
Proof.
  assert (∀ state, mStrategies (rsi_engine state) !! "RSI Strategy"
                   = Some (RSIStrategy.initialized RSIStrategy.scenario_params))
    as Hreg by (intros state; vm_compute; reflexivity).
  assert (mStrategies failing_engine !! "Broken" = Some tt) as Hreg'
    by (vm_compute; reflexivity).
  split; [|split].
  - pose proof (ExecuteStrategy_contract (rsi_Update first_call.2) rsi_ValidateSignal
                  (rsi_engine PAUSED) "RSI Strategy" _
                  first_call.1.1 first_call.1.2 0 (Hreg PAUSED)) as H.
    cbv zeta in H. destruct H as [Hinactive _].
    apply Hinactive. vm_compute. discriminate.
  - pose proof (ExecuteStrategy_contract (rsi_Update first_call.2) rsi_ValidateSignal
                  (rsi_engine ACTIVE) "RSI Strategy" _
                  first_call.1.1 first_call.1.2 0 (Hreg ACTIVE)) as H.
    cbv zeta in H. destruct H as [_ Hactive].
    assert (default INACTIVE (mStrategyStates (rsi_engine ACTIVE) !! "RSI Strategy")
            = ACTIVE) as Hstate by (vm_compute; reflexivity).
    destruct (Hactive Hstate
                (snd (RSIStrategy.Update
                        (RSIStrategy.initialized RSIStrategy.scenario_params)
                        first_call.1.1 first_call.1.2 first_call.2)))
      as [Hdegrade _].
    apply (Hdegrade (fst (RSIStrategy.Update
                            (RSIStrategy.initialized RSIStrategy.scenario_params)
                            first_call.1.1 first_call.1.2 first_call.2))).
    + reflexivity.
    + right. vm_compute. reflexivity.
  - pose proof (ExecuteStrategy_contract failing_Update (λ _ _, Returned true)
                  failing_engine "Broken" _ first_call.1.1 first_call.1.2 0 Hreg') as H.
    cbv zeta in H. destruct H as [_ Hactive].
    assert (default INACTIVE (mStrategyStates failing_engine !! "Broken") = ACTIVE)
      as Hstate by (vm_compute; reflexivity).
    destruct (Hactive Hstate tt) as [_ Hthrow].
    apply (Hthrow (runtime_error "feed unavailable")). reflexivity.
Defined.
End EngineWitness.

(** ** Backtester data loading *)

Section BackTesterProofs.
Import API BackTester.

Lemma sort_insert_HdRel (x y : SKline) (l : list SKline) :
  mOpenTime y ≤ mOpenTime x →
  HdRel (λ a b, mOpenTime a ≤ mOpenTime b) y l →
  HdRel (λ a b, mOpenTime a ≤ mOpenTime b) y (sort_insert by_open_time x l).
Proof.
  intros Hyx Hl. destruct l as [|z l]; simpl; [by constructor|].
  destruct (by_open_time z x); constructor; [|done].
  by inversion Hl.
Qed.

Lemma sort_insert_sorted (x : SKline) (l : list SKline) :
  sorted_by_open_time l → sorted_by_open_time (sort_insert by_open_time x l).
Proof.
  unfold sorted_by_open_time. induction l as [|y l IH]; intros Hl; simpl.
  - repeat constructor.
  - inversion Hl as [|? ? Hs Hh]; subst. unfold by_open_time at 1.
    destruct (Z.ltb_spec (mOpenTime y) (mOpenTime x)) as [Hlt|Hge].
    + constructor; [by apply IH|]. apply sort_insert_HdRel; [lia|done].
    + constructor; [done|]. by constructor.
Qed.

Lemma std_sort_sorted (v : list SKline) : sorted_by_open_time (std_sort by_open_time v).
Proof.
  unfold std_sort. induction v as [|x v IH]; simpl.
  - constructor.
  - by apply sort_insert_sorted.
Qed.

Lemma sort_insert_perm {A} (comp : A → A → bool) (x : A) (l : list A) :
  sort_insert comp x l ≡ₚ x :: l.
Proof.
  induction l as [|y l IH]; simpl; [done|].
  destruct (comp y x); [|done]. rewrite IH. apply perm_swap.
Qed.

Lemma std_sort_perm {A} (comp : A → A → bool) (v : list A) : std_sort comp v ≡ₚ v.
Proof.
  unfold std_sort. induction v as [|x v IH]; simpl; [done|].
  by rewrite sort_insert_perm, IH.
Qed.

(** The API loader, whenever it finishes without throwing, leaves the
    candles sorted by open-time. *)
Lemma LoadHistoricalDataFromAPI_sorted (bt bt' : CBackTester) (fuel : nat) :
  LoadHistoricalDataFromAPI bt fuel = Some (Returned tt, bt') →
  sorted_by_open_time (mHistoricalData bt').
Proof.
  unfold LoadHistoricalDataFromAPI.
  destruct (mExchangeAPI bt) as [api|]; [|done].
  destruct (negb (IsInitialized api)); [done|].
  destruct (fetch _ _ _ _ _ _ _ _ _) as [data|]; [|done].
  intros [= <-]. simpl. apply std_sort_sorted.
Qed.

(** The API loader finishes when the pages advance. *)
Lemma fetch_terminates api pair timeframe startTime endTime :
  pages_advance api pair timeframe →
  ∀ fuel call currentTime data,
    Z.max 0 (endTime - currentTime) < Z.of_nat fuel →
    is_Some (fetch fuel api pair timeframe startTime endTime call currentTime data).
Proof.
  intros Hadv. induction fuel as [|fuel IH]; intros call currentTime data Hfuel.
  - lia.
  - simpl. destruct (Z.ltb_spec currentTime endTime) as [Hlt|Hge]; [|done].
    destruct (GetKlines api call pair timeframe 1000 currentTime 0) as [klines|e] eqn:Hk;
      [|done].
    destruct (last klines) as [back|] eqn:Hb; [|done].
    apply IH. pose proof (Hadv call currentTime klines back Hk Hb). lia.
Qed.

Lemma LoadHistoricalDataFromAPI_terminates (bt : CBackTester) (api : IExchangeAPI) :
  mExchangeAPI bt = Some api →
  pages_advance api (mPair bt) (mTimeframe bt) →
  is_Some (LoadHistoricalDataFromAPI bt
             (S (Z.to_nat (mEndTimestamp bt * 1000 - mStartTimestamp bt * 1000)))).
Proof.
  intros Hapi Hadv. unfold LoadHistoricalDataFromAPI. rewrite Hapi.
  destruct (negb (IsInitialized api)); [done|].
  destruct (fetch_terminates api (mPair bt) (mTimeframe bt)
              (mStartTimestamp bt * 1000) (mEndTimestamp bt * 1000) Hadv
              (S (Z.to_nat (mEndTimestamp bt * 1000 - mStartTimestamp bt * 1000)))
              0%nat (mStartTimestamp bt * 1000) []) as [data Hd]; [lia|].
  rewrite Hd. done.
Qed.

(** C8, on the code: the CSV loader stores the rows in file order and does
    not sort them.  Loading a file whose rows have the open-times 2000 and
    1000 returns normally and leaves the candles in that order, which is not
    sorted; the API loader, on the same two candles, sorts them. *)
Theorem csv_load_keeps_file_order :
  let r := LoadHistoricalData decimal_stoll decimal_stod fresh "history.csv"
             (Some unsorted_csv) in
  fst r = Returned tt ∧
  mOpenTime <$> mHistoricalData (snd r) = [2000; 1000] ∧
  ¬ sorted_by_open_time (mHistoricalData (snd r)) ∧
  ∃ bt', LoadHistoricalDataFromAPI with_exchange 2 = Some (Returned tt, bt') ∧
         mOpenTime <$> mHistoricalData bt' = [1000; 2000].
Proof.
  cbv zeta.
  assert (mOpenTime <$> mHistoricalData
            (snd (LoadHistoricalData decimal_stoll decimal_stod fresh "history.csv"
                    (Some unsorted_csv))) = [2000; 1000]) as Hdata
    by (vm_compute; reflexivity).
  split; [vm_compute; reflexivity|]. split; [exact Hdata|]. split.
  - intros Hsorted. unfold sorted_by_open_time in Hsorted.
    destruct (mHistoricalData _) as [|a [|b [|]]]; try discriminate Hdata.
    injection Hdata as Ha Hb.
    inversion Hsorted as [|? ? _ Hhd]; subst. inversion Hhd; subst. lia.
  - eexists. split; vm_compute; reflexivity.
Qed.
End BackTesterProofs.

(** * Further properties of the code

    Properties read off the code beyond the statements of its
    specification. *)

(** ** Risk manager: the cool-down and the exposure cap *)

Section RiskExtras.
Import Strategy Risk.

Lemma RegisterPosition_returns rm p now :
  mId p ≠ "" →
  RegisterPosition rm p now =
    (Returned tt,
     set_books rm (<[mId p := p]> (mOpenPositions rm))
       (map_add (mSymbolExposure rm) (mSymbol p) (position_exposure p))
       (<[mSymbol p := now]> (mLastTradeTime rm))
       (mTotalExposure rm + position_exposure p)%Qc (mTodayPnL rm)).
Proof. intros Hid. unfold RegisterPosition. by rewrite bool_decide_eq_false_2. Qed.

Lemma CheckMaxDailyLoss_frame rm now :
  let rm' := snd (CheckMaxDailyLoss rm now) in
  mLastTradeTime rm' = mLastTradeTime rm ∧
  mMinTimeBetweenTrades rm' = mMinTimeBetweenTrades rm ∧
  mMaxDailyLoss rm' = mMaxDailyLoss rm.
Proof. unfold CheckMaxDailyLoss; simpl. by case_match. Qed.

(** X3: a successful registration starts the cool-down of its symbol.
    Afterwards [CheckTradeFrequency] on that symbol passes exactly when at
    least [mMinTimeBetweenTrades] seconds separate the clock read from the
    registration, and before that [CheckPositionAllowed] refuses every
    request on the symbol. *)
Theorem registration_starts_cooldown
    (rm : CRiskManager) (p : SPosition) (now : Chrono.time_point)
    (side : EOrderSide) (quantity price : double)
    (nowDaily nowFreq : Chrono.time_point) :
  mId p ≠ "" →
  let rm1 := snd (RegisterPosition rm p now) in
  (CheckTradeFrequency rm1 (mSymbol p) nowFreq = true ↔
     mMinTimeBetweenTrades rm * Chrono.ticks_per_second ≤ nowFreq - now) ∧
  (nowFreq - now < mMinTimeBetweenTrades rm * Chrono.ticks_per_second →
     fst (CheckPositionAllowed rm1 (mSymbol p) side quantity price nowDaily nowFreq)
       = false).
Proof.
  intros Hid rm1. subst rm1. rewrite RegisterPosition_returns by done.
  cbn [snd]. split.
  - unfold CheckTradeFrequency; cbn. rewrite lookup_insert_eq.
    destruct (Z.ltb_spec (nowFreq - now)
                (mMinTimeBetweenTrades rm * Chrono.ticks_per_second)); split; done || lia.
  - intros Hsoon. unfold CheckPositionAllowed.
    set (rm1 := set_books _ _ _ _ _ _).
    pose proof (CheckMaxDailyLoss_frame rm1 nowDaily) as H.
    destruct (CheckMaxDailyLoss rm1 nowDaily) as [ok rm2]; simpl in H.
    destruct H as (H1 & H2 & _).
    assert (CheckTradeFrequency rm2 (mSymbol p) nowFreq = false) as Hc.
    { unfold CheckTradeFrequency. rewrite H1, H2. subst rm1; cbn.
      rewrite lookup_insert_eq. by rewrite (proj2 (Z.ltb_lt _ _) Hsoon). }
    rewrite Hc. repeat case_match; done.
Qed.

Lemma registration_starts_cooldown_witness :
  let rm1 := snd (RegisterPosition scenario_fresh scenario_position 0) in
  (CheckTradeFrequency rm1 "BTCUSDT" (30 * Chrono.ticks_per_second) = true ↔
     mMinTimeBetweenTrades scenario_fresh * Chrono.ticks_per_second
       ≤ 30 * Chrono.ticks_per_second - 0) ∧
  (30 * Chrono.ticks_per_second - 0
     < mMinTimeBetweenTrades scenario_fresh * Chrono.ticks_per_second →
   fst (CheckPositionAllowed rm1 "BTCUSDT" BUY (dec 1 2) (ofZ 6000) 0
          (30 * Chrono.ticks_per_second)) = false).
Proof.
  apply (registration_starts_cooldown scenario_fresh scenario_position 0 BUY
           (dec 1 2) (ofZ 6000) 0 (30 * Chrono.ticks_per_second)).
  by vm_compute.
Defined.

(** X5: the pre-trade gate never consults the total-exposure cap:
    changing [mMaxTotalExposure] changes neither the verdict of
    [CheckPositionAllowed] nor what the call does to the manager. *)
Theorem CheckPositionAllowed_ignores_total_exposure_cap
    (rm : CRiskManager) (percentage : double) (symbol : string) (side : EOrderSide)
    (quantity price : double) (nowDaily nowFreq : Chrono.time_point) :
  CheckPositionAllowed (SetMaxTotalExposure rm percentage) symbol side quantity price
    nowDaily nowFreq =
  (fst (CheckPositionAllowed rm symbol side quantity price nowDaily nowFreq),
   SetMaxTotalExposure
     (snd (CheckPositionAllowed rm symbol side quantity price nowDaily nowFreq))
     percentage).
Proof.
  unfold CheckPositionAllowed.
  destruct (bool_decide (symbol = "") || Qc_leb quantity 0%Qc || Qc_leb price 0%Qc);
    [done|].
  change (CheckMaxOpenPositions (SetMaxTotalExposure rm percentage))
    with (CheckMaxOpenPositions rm).
  destruct (negb (CheckMaxOpenPositions rm)); [done|].
  unfold CheckMaxDailyLoss. cbn [mStartOfDay SetMaxTotalExposure].
  destruct (Chrono.floor_days (mStartOfDay rm) <? Chrono.floor_days nowDaily);
    cbv zeta; cbn [set_day mMaxDailyLoss mTodayPnL];
    (destruct (negb (Qc_ltb _ _)); [done|]);
    unfold CheckSymbolExposure, CheckTradeFrequency, CheckMarketVolatility; cbn;
    repeat case_match; done.
Qed.
End RiskExtras.

(** ** Risk manager: an id registered twice *)

Section Risk64Extras.
Import Strategy Binary64 Risk64.

(** X2: registering a second position under an id that is already open
    replaces the first one in the open-positions map but keeps its exposure
    in the books.  Closing the id then succeeds and subtracts the second
    position's exposure only: the id is gone from the map, while the total
    exposure is [((t + e1) + e2) - e2] in binary64, with [e1] still in it,
    and the id cannot be closed a second time: the call throws and changes
    nothing, so [e1] is never taken out. *)
Theorem reregistered_id_exposure_never_released
    (rm : CRiskManager) (p1 p2 : SPosition) (now1 now2 : Chrono.time_point)
    (exitPrice pnl exitPrice' pnl' : binary64) :
  mId p1 ≠ "" →
  mId p2 = mId p1 →
  let rm2 := snd (RegisterPosition (snd (RegisterPosition rm p1 now1)) p2 now2) in
  ∃ rm3 e,
    mOpenPositions rm2 !! mId p1 = Some p2 ∧
    ClosePosition rm2 (mId p1) exitPrice pnl = (Returned tt, rm3) ∧
    mOpenPositions rm3 = delete (mId p1) (mOpenPositions rm) ∧
    GetTotalExposure rm3 =
      sub (add (add (GetTotalExposure rm) (position_exposure p1)) (position_exposure p2))
          (position_exposure p2) ∧
    ClosePosition rm3 (mId p1) exitPrice' pnl' = (Thrown e, rm3).
Proof.
  intros Hid Hsame rm2. subst rm2. unfold RegisterPosition.
  rewrite (bool_decide_eq_false_2 (mId p1 = "")) by done.
  rewrite (bool_decide_eq_false_2 (mId p2 = "")) by congruence.
  unfold ClosePosition at 1. cbn [snd set_books mOpenPositions].
  rewrite Hsame, lookup_insert_eq. eexists _, _.
  split; [done|]. split; [reflexivity|].
  cbn [set_books mOpenPositions]. split; [|split].
  - by rewrite insert_insert_eq, delete_insert_eq.
  - reflexivity.
  - unfold ClosePosition. cbn [set_books mOpenPositions].
    rewrite lookup_delete_eq. reflexivity.
Qed.

Lemma reregistered_id_exposure_never_released_witness :
  let p1 := long_position "A" "BTCUSDT" (of_Z 1) (decimal 1 1) in
  let p2 := long_position "A" "ETHUSDT" (of_Z 1) (decimal 2 1) in
  let rm := constructor 0 0 in
  let rm2 := snd (RegisterPosition (snd (RegisterPosition rm p1 0)) p2 60) in
  ∃ rm3 e,
    mOpenPositions rm2 !! "A" = Some p2 ∧
    ClosePosition rm2 "A" (decimal 2 1) zero = (Returned tt, rm3) ∧
    mOpenPositions rm3 = delete "A" (mOpenPositions rm) ∧
    GetTotalExposure rm3 =
      sub (add (add (GetTotalExposure rm) (position_exposure p1)) (position_exposure p2))
          (position_exposure p2) ∧
    ClosePosition rm3 "A" (decimal 1 1) zero = (Thrown e, rm3).
Proof.
  apply (reregistered_id_exposure_never_released (constructor 0 0)
           (long_position "A" "BTCUSDT" (of_Z 1) (decimal 1 1))
           (long_position "A" "ETHUSDT" (of_Z 1) (decimal 2 1))
           0 60 (decimal 2 1) zero (decimal 1 1) zero); by vm_compute.
Defined.
End Risk64Extras.

(** ** RSI strategy: what [Update] returns, records and gets validated *)

Section RSIExtras.
Import Strategy API RSIStrategy.

Lemma Qc_min_le_l x y : (Qc_min x y ≤ x)%Qc.
Proof.
  unfold Qc_min, Qc_ltb. case_bool_decide; [by apply Qclt_le_weak|done].
Qed.

Lemma GetSignalStrength_bounds s signalType values :
  (0 ≤ GetSignalStrength s signalType values ∧
   GetSignalStrength s signalType values ≤ 1)%Qc.
Proof.
  unfold GetSignalStrength. cbv zeta.
  generalize (match signalType with
              | BUY_OVERSOLD =>
                  Qc_max 0 ((mOversoldThreshold (mParams s) - mRSI values)
                            / mOversoldThreshold (mParams s))
              | SELL_OVERBOUGHT =>
                  Qc_max 0 ((mRSI values - mOverboughtThreshold (mParams s))
                            / (ofZ 100 - mOverboughtThreshold (mParams s)))
              | DIVERGENCE_BULLISH | DIVERGENCE_BEARISH => dec 8 1
              | MOMENTUM_BULLISH | MOMENTUM_BEARISH =>
                  Qc_min 1 (Qc_abs (mRSIChange values) / ofZ 20)
              | EXTREME_REVERSAL_BUY | EXTREME_REVERSAL_SELL => dec 9 1
              | _ => dec 5 1
              end)%Qc.
  intros x. pose proof (Qc_min_le_l 1%Qc x) as H1.
  revert H1. generalize (Qc_min 1%Qc x). intros m Hm.
  unfold Qc_max, Qc_ltb. case_bool_decide as H; split;
    first [done | by apply Qclt_le_weak | by apply Qcnot_lt_le].
Qed.

(** X11: the signal [Update] returns and the entry it records agree.  The
    strength of the returned signal lies between 0 and 1.  When the signal
    is a HOLD the signal history is left as it was; otherwise exactly one
    entry is appended (and the history trimmed to its last 100): it is the
    last entry, its kind maps to the signal's type, and it carries the
    signal's message, price and strength, stamped with the clock read of
    [AddSignalToHistory]. *)
Theorem Update_signal_matches_history
    (s : CRSIStrategy) (klines : list SKline) (ticker : STicker) (clk : UpdateClock) :
  let signal := fst (Update s klines ticker clk) in
  let s' := snd (Update s klines ticker clk) in
  (0 ≤ Signal.mStrength signal ∧ Signal.mStrength signal ≤ 1)%Qc ∧
  if bool_decide (Signal.mType signal = SIG_HOLD)
  then mSignalHistory s' = mSignalHistory s
  else ∃ h,
    mSignalHistory s' = trim_front 100 (push_back (mSignalHistory s) h) ∧
    last (mSignalHistory s') = Some h ∧
    to_general (sh_mType h) = Signal.mType signal ∧
    sh_mDescription h = Signal.mMessage signal ∧
    sh_mPrice h = Signal.mPrice signal ∧
    sh_mStrength h = Signal.mStrength signal ∧
    sh_mTimestamp h = t_add clk.
Proof.
  cbv zeta. rewrite Update_Prepare.
  pose proof (Prepare_frame s klines clk) as Hf.
  destruct (Prepare s klines clk) as [[message s1]|s5].
  - cbn. destruct Hf as (-> & _). done.
  - destruct Hf as (Hh & _). unfold Emit.
    destruct (negb (bool_decide (ClassifySignal s5 (t_divergence clk) = NONE))) eqn:Hn;
      [|cbn; by rewrite Hh].
    destruct (ShouldGenerateSignal s5 _ (t_check clk)); [|cbn; by rewrite Hh].
    cbn [andb fst snd Signal.mType Signal.mStrength].
    split; [apply GetSignalStrength_bounds|].
    apply negb_true_iff, bool_decide_eq_false in Hn.
    rewrite bool_decide_eq_false_2
      by (by destruct (ClassifySignal s5 (t_divergence clk))).
    eexists. unfold AddSignalToHistory. cbn. rewrite Hh.
    split; [reflexivity|]. split; [|done].
    unfold trim_front, push_back, dsize. rewrite length_app. cbn.
    rewrite drop_app_le by lia. by rewrite last_snoc.
Qed.





Lemma Update_history_descriptions s klines ticker clk :
  Forall (λ h, StringToSignalType (sh_mDescription h) = sh_mType h) (mSignalHistory s) →
  Forall (λ h, StringToSignalType (sh_mDescription h) = sh_mType h)
    (mSignalHistory (snd (Update s klines ticker clk))).
Proof.
  intros Hall. rewrite Update_Prepare.
  pose proof (Prepare_frame s klines clk) as Hf.
  destruct (Prepare s klines clk) as [[message s1]|s5].
  { cbn. destruct Hf as (-> & _). done. }
  destruct Hf as (Hh & _). unfold Emit.
  destruct (negb _ && _); [|cbn; by rewrite Hh].
  cbn. unfold trim_front. apply Forall_drop. unfold push_back.
  apply Forall_app. split; [by rewrite Hh|]. apply Forall_singleton. cbn.
  by destruct (ClassifySignal s5 (t_divergence clk)).
Qed.

(** X13: the names of the signal kinds and of the zones round-trip:
    [StringToSignalType] undoes [SignalTypeToString] and [StringToZone]
    undoes [ZoneToString]; a string that is the name of no kind reads as
    [NONE], and one that is the name of no zone as NEUTRAL_LOW.  In every
    signal history that [Update] calls build from an initialized strategy,
    the kind of each entry is the one its description names. *)
Theorem RSI_names_round_trip :
  (∀ type, StringToSignalType (SignalTypeToString type) = type) ∧
  (∀ zone, StringToZone (ZoneToString zone) = zone) ∧
  (∀ typeStr, (∀ type, SignalTypeToString type ≠ typeStr) →
     StringToSignalType typeStr = NONE) ∧
  (∀ zoneStr, (∀ zone, ZoneToString zone ≠ zoneStr) →
     StringToZone zoneStr = NEUTRAL_LOW) ∧
  (∀ params calls h, h ∈ mSignalHistory (run (initialized params) calls) →
     StringToSignalType (sh_mDescription h) = sh_mType h).
Proof.
  repeat apply conj.
  - by intros [].
  - by intros [].
  - intros typeStr Hno. unfold StringToSignalType.
    repeat (case_bool_decide as H;
            [exfalso; subst typeStr;
             first [ by apply (Hno BUY_OVERSOLD) | by apply (Hno SELL_OVERBOUGHT)
                   | by apply (Hno BUY_OVERSOLD_EXIT) | by apply (Hno SELL_OVERBOUGHT_EXIT)
                   | by apply (Hno DIVERGENCE_BULLISH) | by apply (Hno DIVERGENCE_BEARISH)
                   | by apply (Hno MOMENTUM_BULLISH) | by apply (Hno MOMENTUM_BEARISH)
                   | by apply (Hno EXTREME_REVERSAL_BUY)
                   | by apply (Hno EXTREME_REVERSAL_SELL) ]|clear H]).
    done.
  - intros zoneStr Hno. unfold StringToZone.
    repeat (case_bool_decide as H;
            [exfalso; subst zoneStr;
             first [ by apply (Hno EXTREME_OVERSOLD) | by apply (Hno OVERSOLD)
                   | by apply (Hno NEUTRAL_LOW) | by apply (Hno NEUTRAL_HIGH)
                   | by apply (Hno OVERBOUGHT) | by apply (Hno EXTREME_OVERBOUGHT) ]
            |clear H]).
    done.
  - intros params calls.
    assert (∀ s,
      Forall (λ h, StringToSignalType (sh_mDescription h) = sh_mType h) (mSignalHistory s) →
      Forall (λ h, StringToSignalType (sh_mDescription h) = sh_mType h)
        (mSignalHistory (run s calls))) as Hrun.
    { unfold run. induction calls as [|c calls IH]; intros s Hall; simpl; [done|].
      by apply IH, Update_history_descriptions. }
    intros h Hh.
    by apply (proj1 (Forall_forall _ _) (Hrun (initialized params) (Forall_nil_2 _))).
Qed.

End RSIExtras.
